(** * Whitespace repair of the [browsers.json] user-agent dataset

    A shallow embedding of the fix scripts of the repository (the
    [fixed_version.py] of the directories [gpt-5.1-codex-max],
    [oswe-large-m5a1s120], [Claude-Opus-4.5] and [Claude-sonnet-4.5], with
    the loaders, the statistics, the quick verifications and the header
    validators of their [tests] packages and [test_fix.py] scripts, and
    the check of [test_issue_307.py]) and of the fragment of the Python
    runtime they run on: [str] methods, insertion-ordered [dict],
    [json.loads] and [json.dumps(..., ensure_ascii=False)].

    Conventions.
    - A Python [str] is the list of its code points ([N]).
    - A [dict] is an association list in insertion order with distinct keys.
    - A raised exception is the [Raise] branch of [result], or the
      [Raises] branch of [outcome] where [AssertionError] or
      [ZeroDivisionError] can be raised; what is printed on standard output
      is not part of the model, but an expression evaluated to print it is
      when it can raise.
    - A file is its decoded text; a missing file is [None]. *)

From Stdlib Require Import List NArith ZArith Bool Lia String Ascii.
Import ListNotations.

Set Implicit Arguments.
Set Warnings "-register-all".

(** ** Python runtime *)

Module Py.

Definition str := list N.

(** Literals: [u "abc"] is the text [abc]; in [J "..."] a single quote
    stands for the double quote of JSON text. *)
Definition u (s : string) : str :=
  List.map N_of_ascii (list_ascii_of_string s).

Definition J (s : string) : str :=
  List.map (fun c => if N.eqb c 39 then 34%N else c) (u s).

Fixpoint str_eqb (a b : str) : bool :=
  match a, b with
  | [], [] => true
  | x :: a', y :: b' => N.eqb x y && str_eqb a' b'
  | _, _ => false
  end.

(** [str.isspace] for one character: the table of CPython's
    [_PyUnicode_IsWhitespace], which [str.strip()] and [str.rstrip()]
    without argument use. *)
Definition isspace (c : N) : bool :=
  ((9 <=? c) && (c <=? 13) || (28 <=? c) && (c <=? 32)
   || (c =? 133) || (c =? 160) || (c =? 5760)
   || (8192 <=? c) && (c <=? 8202)
   || (c =? 8232) || (c =? 8233) || (c =? 8239) || (c =? 8287)
   || (c =? 12288))%N.

(** The line boundaries of [str.splitlines]
    (CPython's [_PyUnicode_IsLinebreak]). *)
Definition is_linebreak (c : N) : bool :=
  ((10 <=? c) && (c <=? 13) || (28 <=? c) && (c <=? 30)
   || (c =? 133) || (c =? 8232) || (c =? 8233))%N.

Definition is_space_char (c : N) : bool := (c =? 32)%N.

Fixpoint lstrip_by (p : N -> bool) (s : str) : str :=
  match s with
  | [] => []
  | c :: s' => if p c then lstrip_by p s' else s
  end.

Fixpoint rstrip_by (p : N -> bool) (s : str) : str :=
  match s with
  | [] => []
  | c :: s' =>
      match rstrip_by p s' with
      | [] => if p c then [] else [c]
      | r => c :: r
      end
  end.

(** [s.strip()], [s.rstrip()], [s.rstrip(" ")]. *)
Definition strip (s : str) : str := lstrip_by isspace (rstrip_by isspace s).
Definition rstrip (s : str) : str := rstrip_by isspace s.
Definition rstrip_chars (chars : str) (s : str) : str :=
  rstrip_by (fun c => existsb (N.eqb c) chars) s.

(** [s.startswith(" ")], [s.endswith(" ")], ["  " in s]. *)
Definition startswith_space (s : str) : bool :=
  match s with
  | c :: _ => is_space_char c
  | [] => false
  end.

Fixpoint endswith_space (s : str) : bool :=
  match s with
  | [] => false
  | [c] => is_space_char c
  | _ :: s' => endswith_space s'
  end.

Fixpoint has_double_space (s : str) : bool :=
  match s with
  | c :: ((d :: _) as s') =>
      (is_space_char c && is_space_char d) || has_double_space s'
  | _ => false
  end.

(** [s.splitlines()]: a line ends at each boundary character, [\r\n]
    counts once, and no empty line follows the last boundary. *)
Fixpoint splitlines (s : str) : list str :=
  match s with
  | [] => []
  | c :: s' =>
      if is_linebreak c then
        if (c =? 13)%N then
          match s' with
          | d :: s'' => if (d =? 10)%N then [] :: splitlines s''
                        else [] :: splitlines s'
          | [] => [[]]
          end
        else [] :: splitlines s'
      else
        match splitlines s' with
        | [] => [[c]]
        | l :: ls => (c :: l) :: ls
        end
  end.

(** Text-mode reading with universal newlines ([open(path, 'r')]):
    [\r\n] and [\r] arrive as [\n]. *)
Fixpoint universal_newlines (s : str) : str :=
  match s with
  | [] => []
  | c :: s' =>
      if (c =? 13)%N then
        match s' with
        | d :: s'' => if (d =? 10)%N then 10%N :: universal_newlines s''
                      else 10%N :: universal_newlines s'
        | [] => [10%N]
        end
      else c :: universal_newlines s'
  end.

(** [f.readlines()] on translated text: lines keep their [\n]. *)
Fixpoint readlines (s : str) : list str :=
  match s with
  | [] => []
  | c :: s' =>
      if (c =? 10)%N then [c] :: readlines s'
      else
        match readlines s' with
        | [] => [[c]]
        | l :: ls => (c :: l) :: ls
        end
  end.

(** ["sep".join(parts)]. *)
Fixpoint join (sep : str) (parts : list str) : str :=
  match parts with
  | [] => []
  | [p] => p
  | p :: ps => p ++ sep ++ join sep ps
  end.

(** UTF-8 cannot encode a surrogate code point: writing such text to a
    file opened with [encoding="utf-8"] raises [UnicodeEncodeError]. *)
Definition is_surrogate (c : N) : bool := ((55296 <=? c) && (c <=? 57343))%N.
Definition utf8_encodable (s : str) : bool :=
  forallb (fun c => negb (is_surrogate c)) s.

(** [s.strip(chars)]. *)
Definition strip_chars (chars : str) (s : str) : str :=
  lstrip_by (fun c => existsb (N.eqb c) chars)
    (rstrip_by (fun c => existsb (N.eqb c) chars) s).

(** [len({x for x in l})] for strings: a string counts once, however
    often it occurs. *)
Fixpoint count_distinct (l : list str) : nat :=
  match l with
  | [] => 0
  | x :: r =>
      if existsb (str_eqb x) r then count_distinct r
      else S (count_distinct r)
  end.

End Py.

(** ** JSON values, dictionaries and exceptions *)

Module Json.
Import Py.

(** A float is kept as the decimal literal that denotes it; [NaN],
    [Infinity] and [-Infinity] are the three non-finite values the [json]
    module reads and writes.  Rounding to a double is outside the model. *)
Inductive float_lit : Type :=
| FNaN
| FInfinity
| FNegInfinity
| FDec (neg : bool) (ipart : N) (frac : str) (exp : option (bool * str)).

Inductive json : Type :=
| JNull
| JBool (b : bool)
| JInt (z : Z)
| JFloat (f : float_lit)
| JStr (s : str)
| JList (l : list json)
| JDict (d : list (str * json)).

Definition dict := list (str * json).

(** The messages of [json.JSONDecodeError] (its position is not kept). *)
Inductive decode_msg : Type :=
| ExpectingValue
| ExtraData
| ExpectingPropertyName
| ExpectingColon
| ExpectingComma
| UnterminatedString
| InvalidControlCharacter
| InvalidEscape
| InvalidUXXXX
| UnexpectedBOM.

(** The messages of the [ValueError]s the scripts raise themselves:
    [f"Invalid JSON on line {idx}: {exc}"] and the two of the fallback
    header validator. *)
Inductive value_error_msg : Type :=
| InvalidJSONOnLine (idx : nat) (exc : decode_msg)
| SurroundingSpaces
| ControlCharacter.

Inductive exn : Type :=
| FileNotFoundError
| JSONDecodeError (msg : decode_msg)
| ValueError (msg : value_error_msg)
| AttributeError
| UnicodeEncodeError
| RecursionError.

Inductive result (A : Type) : Type :=
| Ok (a : A)
| Raise (e : exn).
Arguments Ok {A} a.
Arguments Raise {A} e.

Definition bind {A B : Type} (r : result A) (k : A -> result B) : result B :=
  match r with
  | Ok a => k a
  | Raise e => Raise e
  end.

Notation "x <- r ;; k" := (bind r (fun x => k))
  (at level 61, r at next level, right associativity).
Notation "' p <- r ;; k" := (bind r (fun x => let p := x in k))
  (at level 61, p pattern, r at next level, right associativity).

(** [d.get(k)], [k in d] and [d[k] = v] on an insertion-ordered dict:
    assignment to a present key keeps its position, a new key goes last. *)
Fixpoint dict_get (d : dict) (k : str) : option json :=
  match d with
  | [] => None
  | (k', v) :: d' => if str_eqb k' k then Some v else dict_get d' k
  end.

Definition dict_get_default (d : dict) (k : str) (default : json) : json :=
  match dict_get d k with
  | Some v => v
  | None => default
  end.

Fixpoint dict_set (d : dict) (k : str) (v : json) : dict :=
  match d with
  | [] => [(k, v)]
  | (k', v') :: d' =>
      if str_eqb k' k then (k', v) :: d' else (k', v') :: dict_set d' k v
  end.

Definition keys (d : dict) : list str := List.map fst d.

(** *** [json.dumps(obj, ensure_ascii=False)] *)

Definition hex_digit (n : N) : N :=
  (if n <? 10 then 48 + n else 87 + n)%N.

(** One character of a string literal, as [encode_basestring] writes it. *)
Definition escape_char (c : N) : str :=
  if (c =? 34)%N then [92; 34]%N
  else if (c =? 92)%N then [92; 92]%N
  else if (c =? 10)%N then [92; 110]%N
  else if (c =? 13)%N then [92; 114]%N
  else if (c =? 9)%N then [92; 116]%N
  else if (c =? 12)%N then [92; 102]%N
  else if (c =? 8)%N then [92; 98]%N
  else if (c <? 32)%N then
    [92; 117; 48; 48; hex_digit (c / 16); hex_digit (c mod 16)]%N
  else [c].

Definition encode_basestring (s : str) : str :=
  34%N :: flat_map escape_char s ++ [34%N].

Fixpoint dec_digits (fuel : nat) (n : N) : str :=
  match fuel with
  | O => []
  | S f =>
      if (n <? 10)%N then [(48 + n)%N]
      else dec_digits f (n / 10)%N ++ [(48 + n mod 10)%N]
  end.

(** [repr] of a natural number and of an [int]. *)
Definition str_of_N (n : N) : str :=
  dec_digits (S (N.to_nat (N.size n))) n.

Definition int_repr (z : Z) : str :=
  match z with
  | Zneg p => 45%N :: str_of_N (Npos p)
  | _ => str_of_N (Z.to_N z)
  end.

Definition frac_text (frac : str) : str :=
  match frac with [] => [] | _ => 46%N :: frac end.

Definition exp_text (exp : option (bool * str)) : str :=
  match exp with
  | None => []
  | Some (eneg, ds) => 101%N :: (if eneg then 45%N else 43%N) :: ds
  end.

Definition float_repr (f : float_lit) : str :=
  match f with
  | FNaN => u "NaN"
  | FInfinity => u "Infinity"
  | FNegInfinity => u "-Infinity"
  | FDec neg ipart frac exp =>
      (if neg then [45%N] else [])
      ++ str_of_N ipart ++ frac_text frac ++ exp_text exp
  end.

Definition item_separator : str := [44; 32]%N.
Definition key_separator : str := [58; 32]%N.

Fixpoint json_dumps (v : json) : str :=
  match v with
  | JNull => u "null"
  | JBool true => u "true"
  | JBool false => u "false"
  | JInt z => int_repr z
  | JFloat f => float_repr f
  | JStr s => encode_basestring s
  | JList l =>
      91%N :: join item_separator (List.map json_dumps l) ++ [93%N]
  | JDict d =>
      123%N
      :: join item_separator
           (List.map
              (fun kv =>
                 encode_basestring (fst kv) ++ key_separator
                 ++ json_dumps (snd kv)) d)
      ++ [125%N]
  end.

(** *** [json.loads(s)]

    The scanner of CPython's [_json] module ([scan_once], [scanstring]
    with [strict=True], [_match_number]) on a list of code points. *)

Definition is_json_ws (c : N) : bool :=
  ((c =? 32) || (c =? 9) || (c =? 10) || (c =? 13))%N.

Definition skip_ws (s : str) : str := lstrip_by is_json_ws s.

Definition is_digit (c : N) : bool := ((48 <=? c) && (c <=? 57))%N.

Definition hex_value (c : N) : option N :=
  if is_digit c then Some (c - 48)%N
  else if ((97 <=? c) && (c <=? 102))%N then Some (c - 87)%N
  else if ((65 <=? c) && (c <=? 70))%N then Some (c - 55)%N
  else None.

Definition hex4 (h1 h2 h3 h4 : N) : option N :=
  match hex_value h1, hex_value h2, hex_value h3, hex_value h4 with
  | Some a, Some b, Some c, Some d => Some (((a * 16 + b) * 16 + c) * 16 + d)%N
  | _, _, _, _ => None
  end.

Definition unescape (e : N) : option N :=
  if (e =? 34)%N then Some 34%N
  else if (e =? 92)%N then Some 92%N
  else if (e =? 47)%N then Some 47%N
  else if (e =? 98)%N then Some 8%N
  else if (e =? 102)%N then Some 12%N
  else if (e =? 110)%N then Some 10%N
  else if (e =? 114)%N then Some 13%N
  else if (e =? 116)%N then Some 9%N
  else None.

Definition is_high_surrogate (c : N) : bool := ((55296 <=? c) && (c <=? 56319))%N.
Definition is_low_surrogate (c : N) : bool := ((56320 <=? c) && (c <=? 57343))%N.
Definition join_surrogates (hi lo : N) : N :=
  (65536 + ((hi - 55296) * 1024 + (lo - 56320)))%N.

Definition cons_char (c : N) (r : result (str * str)) : result (str * str) :=
  match r with
  | Ok (v, rest) => Ok (c :: v, rest)
  | Raise e => Raise e
  end.

(** [scanstring s] reads a string literal whose opening quote has been
    consumed and returns its value with the text after the closing quote. *)
Fixpoint scanstring (s : str) : result (str * str) :=
  match s with
  | [] => Raise (JSONDecodeError UnterminatedString)
  | c :: r =>
      if (c =? 34)%N then Ok ([], r)
      else if (c =? 92)%N then
        match r with
        | [] => Raise (JSONDecodeError UnterminatedString)
        | e :: r1 =>
            if (e =? 117)%N then
              match r1 with
              | h1 :: h2 :: h3 :: h4 :: ((_ :: _) as r2) =>
                  match hex4 h1 h2 h3 h4 with
                  | None => Raise (JSONDecodeError InvalidUXXXX)
                  | Some c1 =>
                      if is_high_surrogate c1 then
                        match r2 with
                        | b :: x :: g1 :: g2 :: g3 :: g4 :: ((_ :: _) as r3) =>
                            if (b =? 92)%N && (x =? 117)%N then
                              match hex4 g1 g2 g3 g4 with
                              | None => Raise (JSONDecodeError InvalidUXXXX)
                              | Some c2 =>
                                  if is_low_surrogate c2
                                  then cons_char (join_surrogates c1 c2)
                                         (scanstring r3)
                                  else cons_char c1 (scanstring r2)
                              end
                            else cons_char c1 (scanstring r2)
                        | _ => cons_char c1 (scanstring r2)
                        end
                      else cons_char c1 (scanstring r2)
                  end
              | _ => Raise (JSONDecodeError InvalidUXXXX)
              end
            else
              match unescape e with
              | Some c' => cons_char c' (scanstring r1)
              | None => Raise (JSONDecodeError InvalidEscape)
              end
        end
      else if (c <=? 31)%N then Raise (JSONDecodeError InvalidControlCharacter)
      else cons_char c (scanstring r)
  end.

Fixpoint span_digits (s : str) : str * str :=
  match s with
  | [] => ([], [])
  | c :: s' =>
      if is_digit c
      then let (ds, r) := span_digits s' in (c :: ds, r)
      else ([], s)
  end.

Definition digits_value (ds : str) : N :=
  fold_left (fun a c => (10 * a + (c - 48))%N) ds 0%N.

(** A number literal: an optional minus sign, an integer part without
    leading zero, an optional fraction (a dot and digits) and an optional
    exponent ([e] or [E], an optional sign, digits).  It is an [int] when
    there is neither fraction nor exponent, a [float] otherwise. *)
Definition scan_int_part (s : str) : option (str * str) :=
  match s with
  | [] => None
  | c :: r =>
      if (c =? 48)%N then Some ([c], r)
      else if is_digit c then Some (span_digits s)
      else None
  end.

Definition scan_frac (s : str) : str * str :=
  match s with
  | d :: r' =>
      if (d =? 46)%N then
        match span_digits r' with
        | ([], _) => ([], s)
        | (fs, rf) => (fs, rf)
        end
      else ([], s)
  | [] => ([], s)
  end.

Definition scan_exp (s : str) : option (bool * str) * str :=
  match s with
  | e :: r' =>
      if ((e =? 101) || (e =? 69))%N then
        let (eneg, rs) :=
          match r' with
          | sg :: t =>
              if (sg =? 45)%N then (true, t)
              else if (sg =? 43)%N then (false, t)
              else (false, r')
          | [] => (false, r')
          end in
        match span_digits rs with
        | ([], _) => (None, s)
        | (es, re) => (Some (eneg, es), re)
        end
      else (None, s)
  | [] => (None, s)
  end.

Definition match_number (s : str) : option (json * str) :=
  let (neg, s1) :=
    match s with
    | c :: r => if (c =? 45)%N then (true, r) else (false, s)
    | [] => (false, s)
    end in
  match scan_int_part s1 with
  | None => None
  | Some (ds, r1) =>
      let (frac, r2) := scan_frac r1 in
      let (exp, r3) := scan_exp r2 in
      match frac, exp with
      | [], None =>
          let n := Z.of_N (digits_value ds) in
          Some (JInt (if neg then (- n)%Z else n), r3)
      | _, _ => Some (JFloat (FDec neg (digits_value ds) frac exp), r3)
      end
  end.

(** [strip_prefix p s] is the rest of [s] after its prefix [p]. *)
Fixpoint strip_prefix (p s : str) : option str :=
  match p, s with
  | [], _ => Some s
  | a :: p', b :: s' => if (a =? b)%N then strip_prefix p' s' else None
  | _ :: _, [] => None
  end.

Definition scan_constant (s : str) : option (json * str) :=
  match strip_prefix (u "null") s with
  | Some r => Some (JNull, r)
  | None =>
  match strip_prefix (u "true") s with
  | Some r => Some (JBool true, r)
  | None =>
  match strip_prefix (u "false") s with
  | Some r => Some (JBool false, r)
  | None =>
  match strip_prefix (u "NaN") s with
  | Some r => Some (JFloat FNaN, r)
  | None =>
  match strip_prefix (u "Infinity") s with
  | Some r => Some (JFloat FInfinity, r)
  | None =>
  match strip_prefix (u "-Infinity") s with
  | Some r => Some (JFloat FNegInfinity, r)
  | None => match_number s
  end end end end end end.

(** [scan_once] with its object and array loops.  [fuel] bounds the number
    of nested calls; [json_loads] gives more than the text can use. *)
Fixpoint scan_once (fuel : nat) (s : str) {struct fuel} : result (json * str) :=
  match fuel with
  | O => Raise RecursionError
  | S f =>
      match s with
      | [] => Raise (JSONDecodeError ExpectingValue)
      | c :: r =>
          if (c =? 34)%N then
            match scanstring r with
            | Ok (v, r') => Ok (JStr v, r')
            | Raise e => Raise e
            end
          else if (c =? 123)%N then
            match skip_ws r with
            | c' :: r' =>
                if (c' =? 125)%N then Ok (JDict [], r')
                else parse_object f (skip_ws r) []
            | [] => parse_object f [] []
            end
          else if (c =? 91)%N then
            match skip_ws r with
            | c' :: r' =>
                if (c' =? 93)%N then Ok (JList [], r')
                else parse_array f (skip_ws r) []
            | [] => parse_array f [] []
            end
          else
            match scan_constant s with
            | Some x => Ok x
            | None => Raise (JSONDecodeError ExpectingValue)
            end
      end
  end

with parse_object (fuel : nat) (s : str) (acc : dict) {struct fuel}
  : result (json * str) :=
  match fuel with
  | O => Raise RecursionError
  | S f =>
      match s with
      | [] => Raise (JSONDecodeError ExpectingPropertyName)
      | c :: r =>
          if negb (c =? 34)%N then Raise (JSONDecodeError ExpectingPropertyName)
          else
            match scanstring r with
            | Raise e => Raise e
            | Ok (k, r1) =>
                match skip_ws r1 with
                | [] => Raise (JSONDecodeError ExpectingColon)
                | c2 :: r2 =>
                    if negb (c2 =? 58)%N
                    then Raise (JSONDecodeError ExpectingColon)
                    else
                      match scan_once f (skip_ws r2) with
                      | Raise e => Raise e
                      | Ok (v, r3) =>
                          match skip_ws r3 with
                          | [] => Raise (JSONDecodeError ExpectingComma)
                          | c4 :: r4 =>
                              if (c4 =? 125)%N
                              then Ok (JDict (dict_set acc k v), r4)
                              else if (c4 =? 44)%N
                              then parse_object f (skip_ws r4) (dict_set acc k v)
                              else Raise (JSONDecodeError ExpectingComma)
                          end
                      end
                end
            end
      end
  end

with parse_array (fuel : nat) (s : str) (acc : list json) {struct fuel}
  : result (json * str) :=
  match fuel with
  | O => Raise RecursionError
  | S f =>
      match scan_once f s with
      | Raise e => Raise e
      | Ok (v, r1) =>
          match skip_ws r1 with
          | [] => Raise (JSONDecodeError ExpectingComma)
          | c :: r2 =>
              if (c =? 93)%N then Ok (JList (acc ++ [v]), r2)
              else if (c =? 44)%N then parse_array f (skip_ws r2) (acc ++ [v])
              else Raise (JSONDecodeError ExpectingComma)
          end
      end
  end.

Definition json_loads (s : str) : result json :=
  match s with
  | 65279%N :: _ => Raise (JSONDecodeError UnexpectedBOM)
  | _ =>
      match scan_once (2 * S (List.length s)) (skip_ws s) with
      | Raise e => Raise e
      | Ok (v, r) =>
          match skip_ws r with
          | [] => Ok v
          | _ :: _ => Raise (JSONDecodeError ExtraData)
          end
      end
  end.

End Json.

(** ** What the scripts share *)

Module Common.
Import Py Json.

Definition useragent : str := Eval cbv in u "useragent".

(** [not line.strip()] *)
Definition is_blank (line : str) : bool :=
  match strip line with
  | [] => true
  | _ :: _ => false
  end.

(** Writing [text] to a file opened with [encoding="utf-8"] (POSIX line
    ends): the file then holds [text]. *)
Definition write_text (text : str) : result str :=
  if utf8_encodable text then Ok text else Raise UnicodeEncodeError.

(** The entry points of the scripts and of their test packages raise two
    more exceptions: [AssertionError], from [assert] statements and from
    the loader of a test package, and [ZeroDivisionError], from the
    ratios they print. *)
Inductive assertion_msg : Type :=
| InvalidJSONAtLine (idx : nat) (exc : decode_msg)
| Expected165Records
| TrailingSpacesNotZero
| TrailingSpaceTestsFailed.

Inductive failure : Type :=
| Exn (e : exn)
| AssertionError (msg : assertion_msg)
| ZeroDivisionError.

Inductive outcome (A : Type) : Type :=
| Returns (a : A)
| Raises (e : failure).
Arguments Returns {A} a.
Arguments Raises {A} e.

Definition propagate {A : Type} (r : result A) : outcome A :=
  match r with
  | Ok a => Returns a
  | Raise e => Raises (Exn e)
  end.

(** [record.get("useragent", "")] on a loaded record: only a dict has
    [get]. *)
Definition get_useragent (record : json) : result json :=
  match record with
  | JDict d => Ok (dict_get_default d useragent (JStr []))
  | _ => Raise AttributeError
  end.

End Common.

(** ** [gpt-5.1-codex-max/issue_project_fixed] *)

Module Gpt.
Import Py Json Common.

(** [fixed_version.py], [_clean_record]. *)
Definition _clean_record (record : json) : result (dict * bool) :=
  match record with
  | JDict d =>
      match dict_get_default d useragent (JStr []) with
      | JStr ua =>
          let cleaned := strip ua in
          let updated := dict_set d useragent (JStr cleaned) in
          Ok (updated, negb (str_eqb cleaned ua))
      | _ => Raise AttributeError
      end
  | _ => Raise AttributeError
  end.

(** The loop of [fix_file] over [enumerate(lines, 1)]. *)
Fixpoint fix_file_loop (idx : nat) (lines : list str)
    (records : list dict) (fixed_count : nat) : result (list dict * nat) :=
  match lines with
  | [] => Ok (records, fixed_count)
  | line :: rest =>
      if is_blank line then fix_file_loop (S idx) rest records fixed_count
      else
        match json_loads line with
        | Raise (JSONDecodeError exc) =>
            Raise (ValueError (InvalidJSONOnLine idx exc))
        | Raise e => Raise e
        | Ok payload =>
            match _clean_record payload with
            | Raise e => Raise e
            | Ok (cleaned, changed) =>
                fix_file_loop (S idx) rest (records ++ [cleaned])
                  (if changed then S fixed_count else fixed_count)
            end
        end
  end.

(** A line the loop of [fix_file] passes without raising: blank, or a
    JSON value that [_clean_record] accepts. *)
Definition line_accepted (line : str) : bool :=
  is_blank line
  || match json_loads line with
     | Ok payload =>
         match _clean_record payload with
         | Ok _ => true
         | Raise _ => false
         end
     | Raise _ => false
     end.

(** A line [load_jsonl] passes without raising. *)
Definition line_loaded (line : str) : bool :=
  is_blank line
  || match json_loads line with
     | Ok _ => true
     | Raise _ => false
     end.

Definition dump_lines (records : list json) : str :=
  flat_map (fun record => json_dumps record ++ [10%N]) records.

(** [fix_file(source, target)]: the text written to [target] and the
    returned [(total, fixed_count, unchanged)]. *)
Definition fix_file (source : option str) : result (str * (nat * nat * nat)) :=
  match source with
  | None => Raise FileNotFoundError
  | Some text =>
      let lines := splitlines (universal_newlines text) in
      match fix_file_loop 1 lines [] 0 with
      | Raise e => Raise e
      | Ok (records, fixed_count) =>
          match write_text (dump_lines (List.map JDict records)) with
          | Raise e => Raise e
          | Ok target =>
              let total := List.length records in
              Ok (target, (total, fixed_count, total - fixed_count))
          end
      end
  end.

(** [tests/__init__.py], [load_jsonl]. *)
Fixpoint load_jsonl_loop (idx : nat) (lines : list str) (records : list json)
  : result (list json) :=
  match lines with
  | [] => Ok records
  | line :: rest =>
      if is_blank line then load_jsonl_loop (S idx) rest records
      else
        match json_loads line with
        | Raise (JSONDecodeError exc) =>
            Raise (ValueError (InvalidJSONOnLine idx exc))
        | Raise e => Raise e
        | Ok payload => load_jsonl_loop (S idx) rest (records ++ [payload])
        end
  end.

Definition load_jsonl (path : option str) : result (list json) :=
  match path with
  | None => Raise FileNotFoundError
  | Some text => load_jsonl_loop 1 (splitlines (universal_newlines text)) []
  end.

(** [tests/test_httpx_compatibility.py], [_fallback_validator]: returns
    [None] or raises. *)
Definition _fallback_validator (ua : str) : result unit :=
  if startswith_space ua || endswith_space ua
  then Raise (ValueError SurroundingSpaces)
  else if existsb (fun ch => (ch <? 32)%N || (ch =? 127)%N) ua
  then Raise (ValueError ControlCharacter)
  else Ok tt.

(** [tests/__init__.py], [count_space_issues]: the counts
    [(trailing, leading, double)].  [ua.endswith] exists on a string
    only. *)
Fixpoint count_space_issues_loop (records : list json)
    (trailing leading double : nat) : result (nat * nat * nat) :=
  match records with
  | [] => Ok (trailing, leading, double)
  | record :: rest =>
      match get_useragent record with
      | Ok (JStr ua) =>
          count_space_issues_loop rest
            (if endswith_space ua then S trailing else trailing)
            (if startswith_space ua then S leading else leading)
            (if has_double_space ua then S double else double)
      | Ok _ => Raise AttributeError
      | Raise e => Raise e
      end
  end.

Definition count_space_issues (records : list json)
  : result (nat * nat * nat) :=
  count_space_issues_loop records 0 0 0.

(** [tests/__init__.py], [required_fields_present]. *)
Definition required_keys : list str :=
  [u "useragent"; u "browser"; u "version"; u "os"; u "type"; u "system";
   u "percent"].

Definition required_fields_present (record : json) : result bool :=
  match record with
  | JDict d =>
      Ok (forallb (fun k => existsb (str_eqb k) (keys d)) required_keys)
  | _ => Raise AttributeError
  end.

(** [tests/test_no_trailing_spaces.py], [run]: whether the four checks
    pass, for the contents of [DATA_FILE] and [ORIGINAL_DATA_FILE]. *)
Module TestNoTrailingSpaces.

Definition run (data_file original_data_file : option str) : result bool :=
  fixed_records <- load_jsonl data_file ;;
  original_records <- load_jsonl original_data_file ;;
  '(fixed_trailing, fixed_leading, fixed_double)
     <- count_space_issues fixed_records ;;
  '(orig_trailing, orig_leading, orig_double)
     <- count_space_issues original_records ;;
  let checks :=
    [ (fixed_trailing =? 0); (fixed_leading =? 0); (fixed_double =? 0);
      (fixed_trailing <? orig_trailing) ] in
  let passed := List.length (filter (fun ok : bool => ok) checks) in
  let total := List.length checks in
  Ok (passed =? total).

End TestNoTrailingSpaces.

(** [test_fix.py]: [load_records], [count_trailing] and [main], which
    returns the exit status, for the contents of [FIXED_FILE] and
    [ORIGINAL_FILE]. *)
Module TestFix.

Fixpoint load_records_loop (idx : nat) (lines : list str)
    (records : list json) : result (list json) :=
  match lines with
  | [] => Ok records
  | line :: rest =>
      if is_blank line then load_records_loop (S idx) rest records
      else
        match json_loads line with
        | Raise (JSONDecodeError exc) =>
            Raise (ValueError (InvalidJSONOnLine idx exc))
        | Raise e => Raise e
        | Ok payload => load_records_loop (S idx) rest (records ++ [payload])
        end
  end.

Definition load_records (path : option str) : result (list json) :=
  match path with
  | None => Raise FileNotFoundError
  | Some text => load_records_loop 1 (splitlines (universal_newlines text)) []
  end.

Fixpoint count_trailing (records : list json) : result nat :=
  match records with
  | [] => Ok 0
  | rec :: rest =>
      match get_useragent rec with
      | Ok (JStr ua) =>
          n <- count_trailing rest ;;
          Ok ((if endswith_space ua then 1 else 0) + n)
      | Ok _ => Raise AttributeError
      | Raise e => Raise e
      end
  end.

Definition main (fixed_file original_file : option str) : result nat :=
  match fixed_file with
  | None => Ok 1
  | Some _ =>
      original <- load_records original_file ;;
      fixed <- load_records fixed_file ;;
      orig_trailing <- count_trailing original ;;
      fixed_trailing <- count_trailing fixed ;;
      let checks :=
        [ (List.length fixed =? 165); (fixed_trailing =? 0);
          (List.length fixed =? List.length original);
          (fixed_trailing <? orig_trailing) ] in
      let success := forallb (fun ok : bool => ok) checks in
      Ok (if success then 0 else 1)
  end.

End TestFix.

End Gpt.

(** ** [oswe-large-m5a1s120/issue_project_fixed] *)

Module Oswe.
Import Py Json Common.

(** [fixed_version.py], [load_jsonl]. *)
Fixpoint load_jsonl_loop (idx : nat) (lines : list str) (data : list json)
  : result (list json) :=
  match lines with
  | [] => Ok data
  | line :: rest =>
      if is_blank line then load_jsonl_loop (S idx) rest data
      else
        match json_loads line with
        | Raise (JSONDecodeError exc) =>
            Raise (ValueError (InvalidJSONOnLine idx exc))
        | Raise e => Raise e
        | Ok v => load_jsonl_loop (S idx) rest (data ++ [v])
        end
  end.

Definition load_jsonl (path : option str) : result (list json) :=
  match path with
  | None => Raise FileNotFoundError
  | Some text => load_jsonl_loop 1 (splitlines (universal_newlines text)) []
  end.

(** [save_jsonl(path, records)]: the text the file then holds. *)
Definition save_jsonl (records : list json) : result str :=
  write_text (flat_map (fun obj => json_dumps obj ++ [10%N]) records).

(** [fix_useragents(records)], on records that are dicts as its
    signature says. *)
Fixpoint fix_useragents_loop (records : list dict)
    (fixed_records : list dict) (fixed_count : nat) : list dict * nat :=
  match records with
  | [] => (fixed_records, fixed_count)
  | rec :: rest =>
      let rec_copy := rec in
      match dict_get rec_copy useragent with
      | Some (JStr ua) =>
          let cleaned := rstrip_chars [32%N] ua in
          if negb (str_eqb cleaned ua)
          then fix_useragents_loop rest
                 (fixed_records ++ [dict_set rec_copy useragent (JStr cleaned)])
                 (S fixed_count)
          else fix_useragents_loop rest (fixed_records ++ [rec_copy]) fixed_count
      | _ => fix_useragents_loop rest (fixed_records ++ [rec_copy]) fixed_count
      end
  end.

Definition fix_useragents (records : list dict) : list dict * nat :=
  fix_useragents_loop records [] 0.

(** The body of that loop on one record: the copy appended to
    [fixed_records], and whether [fixed_count] goes up. *)
Definition fix_useragent (rec : dict) : dict * bool :=
  match dict_get rec useragent with
  | Some (JStr ua) =>
      (dict_set rec useragent (JStr (rstrip_chars [32%N] ua)),
       negb (str_eqb (rstrip_chars [32%N] ua) ua))
  | _ => (rec, false)
  end.

(** [tests/test_httpx_compatibility.py], [simple_header_validator]. *)
Definition simple_header_validator (ua : json) : bool :=
  match ua with
  | JStr s =>
      if endswith_space s || startswith_space s then false
      else if existsb (fun ch => existsb (N.eqb ch) s) [13; 10; 0]%N then false
      else true
  | _ => false
  end.

(** [fixed_version.py], [compute_stats] (the same statements stand in
    [tests/__init__.py]).  [ualist] holds what [r.get("useragent", "")]
    returned for each record. *)
Record stats : Type := mkStats {
  total : nat;
  trailing : nat;
  leading : nat;
  double_space : nat;
  unique : nat;
  dups : nat
}.

Fixpoint useragents (records : list json) : result (list json) :=
  match records with
  | [] => Ok []
  | r :: rest =>
      ua <- get_useragent r ;;
      ualist <- useragents rest ;;
      Ok (ua :: ualist)
  end.

(** [sum(1 for ua in ualist if isinstance(ua, str) and p(ua))] *)
Definition count_strings (p : str -> bool) (ualist : list json) : nat :=
  List.length
    (filter (fun ua => match ua with JStr s => p s | _ => false end) ualist).

(** [[ua for ua in ualist if isinstance(ua, str)]] *)
Definition strings (ualist : list json) : list str :=
  flat_map (fun ua => match ua with JStr s => [s] | _ => [] end) ualist.

Definition stats_of (n : nat) (ualist : list json) : stats :=
  let trailing := count_strings endswith_space ualist in
  let leading := count_strings startswith_space ualist in
  let double_space := count_strings has_double_space ualist in
  let unique := count_distinct (strings ualist) in
  let dups := List.length ualist - unique in
  mkStats n trailing leading double_space unique dups.

Definition compute_stats (records : list json) : result stats :=
  ualist <- useragents records ;;
  Ok (stats_of (List.length records) ualist).

(** The dicts of a list of loaded records. *)
Definition dicts (records : list json) : list dict :=
  flat_map (fun r => match r with JDict d => [d] | _ => [] end) records.

(** [fixed_version.py], [main], for the contents of [SRC_ORIGINAL]: the
    text [save_jsonl] wrote to [SRC_FIXED], once it has returned, and how
    [main] ends.  [fix_useragents] is reached only after
    [compute_stats(original_records)] has returned, that is with records
    that are all dicts. *)
Definition main (src_original : option str) : option str * outcome unit :=
  match load_jsonl src_original with
  | Raise e => (None, Raises (Exn e))
  | Ok original_records =>
      match compute_stats original_records with
      | Raise e => (None, Raises (Exn e))
      | Ok stats_before =>
          let '(fixed_records, fixed_count) :=
            fix_useragents (dicts original_records) in
          match compute_stats (List.map JDict fixed_records) with
          | Raise e => (None, Raises (Exn e))
          | Ok stats_after =>
              match save_jsonl (List.map JDict fixed_records) with
              | Raise e => (None, Raises (Exn e))
              | Ok text =>
                  if negb (total stats_after =? 165) then
                    (Some text, Raises (AssertionError Expected165Records))
                  else if negb (trailing stats_after =? 0) then
                    (Some text, Raises (AssertionError TrailingSpacesNotZero))
                  else (Some text, Returns tt)
              end
          end
      end
  end.

(** [tests/__init__.py], [load_jsonl]: the file is read line by line, and
    a line that does not parse raises [AssertionError]. *)
Module Tests.

Fixpoint load_jsonl_loop (idx : nat) (lines : list str) (data : list json)
  : outcome (list json) :=
  match lines with
  | [] => Returns data
  | line0 :: rest =>
      let line := strip_chars [10%N] line0 in
      if is_blank line then load_jsonl_loop (S idx) rest data
      else
        match json_loads line with
        | Raise (JSONDecodeError exc) =>
            Raises (AssertionError (InvalidJSONAtLine idx exc))
        | Raise e => Raises (Exn e)
        | Ok v => load_jsonl_loop (S idx) rest (data ++ [v])
        end
  end.

Definition load_jsonl (path : option str) : outcome (list json) :=
  match path with
  | None => Raises (Exn FileNotFoundError)
  | Some text => load_jsonl_loop 1 (readlines (universal_newlines text)) []
  end.

End Tests.

End Oswe.

(** ** [Claude-Opus-4.5/issue_project_fixed] *)

Module Opus.
Import Py Json Common.

Record stats : Type := mkStats {
  total_uas : nat;
  fixed_uas : nat;
  unchanged_uas : nat;
  errors : nat
}.

(** The loop of [fix_browsers_json]: a line that does not parse is
    counted in [errors] and skipped. *)
Fixpoint fix_browsers_json_loop (lines : list str) (st : stats)
    (fixed_lines : list str) : result (stats * list str) :=
  match lines with
  | [] => Ok (st, fixed_lines)
  | line0 :: rest =>
      let line := strip line0 in
      match line with
      | [] => fix_browsers_json_loop rest st fixed_lines
      | _ :: _ =>
          match json_loads line with
          | Raise (JSONDecodeError _) =>
              fix_browsers_json_loop rest
                (mkStats (total_uas st) (fixed_uas st) (unchanged_uas st)
                   (S (errors st)))
                fixed_lines
          | Raise e => Raise e
          | Ok (JDict data) =>
              match dict_get_default data useragent (JStr []) with
              | JStr ua =>
                  if endswith_space ua then
                    fix_browsers_json_loop rest
                      (mkStats (S (total_uas st)) (S (fixed_uas st))
                         (unchanged_uas st) (errors st))
                      (fixed_lines
                       ++ [json_dumps
                             (JDict (dict_set data useragent (JStr (rstrip ua))))])
                  else
                    fix_browsers_json_loop rest
                      (mkStats (S (total_uas st)) (fixed_uas st)
                         (S (unchanged_uas st)) (errors st))
                      (fixed_lines ++ [json_dumps (JDict data)])
              | _ => Raise AttributeError
              end
          | Ok _ => Raise AttributeError
          end
      end
  end.

(** The same result with one more parse error counted. *)
Definition one_more_error (r : result (stats * list str))
  : result (stats * list str) :=
  match r with
  | Ok (st, fixed_lines) =>
      Ok (mkStats (total_uas st) (fixed_uas st) (unchanged_uas st)
            (S (errors st)), fixed_lines)
  | Raise e => Raise e
  end.

(** [fix_browsers_json(original_path, fixed_path)]: the returned
    statistics and the text written to [fixed_path]. *)
Definition fix_browsers_json (original : option str) : result (stats * str) :=
  match original with
  | None => Raise FileNotFoundError
  | Some text =>
      let lines := readlines (universal_newlines text) in
      match fix_browsers_json_loop lines (mkStats 0 0 0 0) [] with
      | Raise e => Raise e
      | Ok (st, fixed_lines) =>
          match write_text (join [10%N] fixed_lines) with
          | Raise e => Raise e
          | Ok target => Ok (st, target)
          end
      end
  end.

(** [fixed_version.py], [verify_fix(fixed_path)]: the dictionary
    [results]. *)
Module Results.

Record t : Type := mk {
  total_uas : nat;
  with_trailing_spaces : nat;
  without_trailing_spaces : nat;
  valid_json : bool
}.

End Results.

Fixpoint verify_fix_loop (lines : list str) (results : Results.t)
  : result Results.t :=
  match lines with
  | [] => Ok results
  | line0 :: rest =>
      let line := strip line0 in
      match line with
      | [] => verify_fix_loop rest results
      | _ :: _ =>
          match json_loads line with
          | Raise (JSONDecodeError _) =>
              verify_fix_loop rest
                (Results.mk (Results.total_uas results)
                   (Results.with_trailing_spaces results)
                   (Results.without_trailing_spaces results) false)
          | Raise e => Raise e
          | Ok data =>
              match get_useragent data with
              | Ok (JStr ua) =>
                  if endswith_space ua then
                    verify_fix_loop rest
                      (Results.mk (S (Results.total_uas results))
                         (S (Results.with_trailing_spaces results))
                         (Results.without_trailing_spaces results)
                         (Results.valid_json results))
                  else
                    verify_fix_loop rest
                      (Results.mk (S (Results.total_uas results))
                         (Results.with_trailing_spaces results)
                         (S (Results.without_trailing_spaces results))
                         (Results.valid_json results))
              | Ok _ => Raise AttributeError
              | Raise e => Raise e
              end
          end
      end
  end.

Definition verify_fix (fixed : option str) : result Results.t :=
  match fixed with
  | None => Raise FileNotFoundError
  | Some text =>
      verify_fix_loop (readlines (universal_newlines text))
        (Results.mk 0 0 0 true)
  end.

(** [fixed_version.py], [main], for the contents of the original file at
    its first place and at the relative place tried next, and of the fixed
    file: the text [fix_browsers_json] wrote, once it has returned, and
    how [main] ends.  The ratio of the final report is
    [stats['fixed_uas']/stats['total_uas']]. *)
Definition main (original_sibling original_relative fixed : option str)
  : option str * outcome unit :=
  let original :=
    match original_sibling with
    | Some _ => original_sibling
    | None => original_relative
    end in
  match original with
  | None =>
      match fixed with
      | Some _ =>
          match verify_fix fixed with
          | Raise e => (None, Raises (Exn e))
          | Ok _ => (None, Returns tt)
          end
      | None => (None, Returns tt)
      end
  | Some _ =>
      match fix_browsers_json original with
      | Raise e => (None, Raises (Exn e))
      | Ok (st, target) =>
          match verify_fix (Some target) with
          | Raise e => (Some target, Raises (Exn e))
          | Ok verify_results =>
              if (Results.with_trailing_spaces verify_results =? 0)
                 && Results.valid_json verify_results
              then
                if total_uas st =? 0
                then (Some target, Raises ZeroDivisionError)
                else (Some target, Returns tt)
              else (Some target, Returns tt)
          end
      end
  end.

(** [test_fix.py]: [load_browsers_json], which skips the lines that do
    not parse, and [check_trailing_spaces]. *)
Module TestFix.

Fixpoint load_browsers_json_loop (lines : list str) (data : list json)
  : result (list json) :=
  match lines with
  | [] => Ok data
  | line0 :: rest =>
      let line := strip line0 in
      match line with
      | [] => load_browsers_json_loop rest data
      | _ :: _ =>
          match json_loads line with
          | Raise (JSONDecodeError _) => load_browsers_json_loop rest data
          | Raise e => Raise e
          | Ok v => load_browsers_json_loop rest (data ++ [v])
          end
      end
  end.

Definition load_browsers_json (path : option str) : result (list json) :=
  match path with
  | None => Ok []
  | Some text =>
      load_browsers_json_loop (readlines (universal_newlines text)) []
  end.

Record trailing_stats : Type := mkTrailing {
  total : nat;
  with_trailing : nat;
  without_trailing : nat;
  examples_with_trailing : list str
}.

Fixpoint check_trailing_spaces_loop (data : list json) (st : trailing_stats)
  : result trailing_stats :=
  match data with
  | [] => Ok st
  | item :: rest =>
      match get_useragent item with
      | Ok (JStr ua) =>
          if endswith_space ua then
            check_trailing_spaces_loop rest
              (mkTrailing (total st) (S (with_trailing st))
                 (without_trailing st)
                 (if List.length (examples_with_trailing st) <? 3
                  then examples_with_trailing st
                       ++ [firstn 60 ua ++ u "..."]
                  else examples_with_trailing st))
          else
            check_trailing_spaces_loop rest
              (mkTrailing (total st) (with_trailing st)
                 (S (without_trailing st)) (examples_with_trailing st))
      | Ok _ => Raise AttributeError
      | Raise e => Raise e
      end
  end.

Definition check_trailing_spaces (data : list json) : result trailing_stats :=
  check_trailing_spaces_loop data (mkTrailing (List.length data) 0 0 []).

End TestFix.

(** [tests/__init__.py], the class [SimpleTestRunner]: an object is the
    record of its four attributes, a method returns the object it leaves.
    [run_report] prints the summary, whose percentage is
    [self.passed/total*100], and returns [self.failed == 0]. *)
Module SimpleTestRunner.

Record t : Type := mk {
  test_name : str;
  results : list (str * bool * option str);
  passed : nat;
  failed : nat
}.

Definition __init__ (test_name : str) : t := mk test_name [] 0 0.

Definition add_result (self : t) (test_item : str) (ok : bool)
    (details : option str) : t :=
  mk (test_name self) (results self ++ [(test_item, ok, details)])
     (if ok then S (passed self) else passed self)
     (if ok then failed self else S (failed self)).

Definition run_report (self : t) : outcome bool :=
  let total := passed self + failed self in
  if total =? 0 then Raises ZeroDivisionError
  else Returns (failed self =? 0).

End SimpleTestRunner.

End Opus.

(** ** [Claude-sonnet-4.5/issue_project_fixed] *)

Module Sonnet.
Import Py Json Common.

(** [fixed_version.py], [fix_browsers_json(input_file, output_file)]: the
    returned statistics and the text written to [output_file].
    [total_count] is [len(lines)].  Of the statistics, [percentage], the
    float [fixed_count / total_count * 100], is left out: arithmetic on
    floats is outside the model. *)
Record stats : Type := mkStats {
  total : nat;
  fixed : nat;
  unchanged : nat
}.

Fixpoint fix_browsers_json_loop (lines : list str) (fixed_count : nat)
    (fixed_data : list dict) : result (nat * list dict) :=
  match lines with
  | [] => Ok (fixed_count, fixed_data)
  | line0 :: rest =>
      let line := strip line0 in
      match line with
      | [] => fix_browsers_json_loop rest fixed_count fixed_data
      | _ :: _ =>
          match json_loads line with
          | Raise e => Raise e
          | Ok (JDict data) =>
              match dict_get_default data useragent (JStr []) with
              | JStr original_ua =>
                  let fixed_ua := rstrip original_ua in
                  if negb (str_eqb original_ua fixed_ua) then
                    fix_browsers_json_loop rest (S fixed_count)
                      (fixed_data
                       ++ [dict_set data useragent (JStr fixed_ua)])
                  else
                    fix_browsers_json_loop rest fixed_count
                      (fixed_data ++ [data])
              | _ => Raise AttributeError
              end
          | Ok _ => Raise AttributeError
          end
      end
  end.

Definition fix_browsers_json (input_file : option str)
  : result (stats * str) :=
  match input_file with
  | None => Raise FileNotFoundError
  | Some text =>
      let lines := readlines (universal_newlines text) in
      let total_count := List.length lines in
      match fix_browsers_json_loop lines 0 [] with
      | Raise e => Raise e
      | Ok (fixed_count, fixed_data) =>
          match
            write_text
              (flat_map (fun data => json_dumps (JDict data) ++ [10%N])
                 fixed_data)
          with
          | Raise e => Raise e
          | Ok target =>
              Ok (mkStats total_count fixed_count (total_count - fixed_count),
                  target)
          end
      end
  end.

(** [test_fix.py], [verify_fix], for the contents of the fixed and of the
    original file: the returned status. *)
Module TestFix.

Fixpoint load_uas (lines : list str) (uas : list json) : result (list json) :=
  match lines with
  | [] => Ok uas
  | line0 :: rest =>
      let line := strip line0 in
      match line with
      | [] => load_uas rest uas
      | _ :: _ =>
          data <- json_loads line ;;
          ua <- get_useragent data ;;
          load_uas rest (uas ++ [ua])
      end
  end.

(** [sum(1 for ua in uas if ua != ua.rstrip())] *)
Fixpoint count_with_trailing (uas : list json) : result nat :=
  match uas with
  | [] => Ok 0
  | JStr ua :: rest =>
      n <- count_with_trailing rest ;;
      Ok ((if negb (str_eqb ua (rstrip ua)) then 1 else 0) + n)
  | _ :: _ => Raise AttributeError
  end.

Definition verify_fix (fixed_file original_file : option str) : result nat :=
  match fixed_file with
  | None => Raise FileNotFoundError
  | Some fixed_text =>
      fixed_uas <- load_uas (readlines (universal_newlines fixed_text)) [] ;;
      fixed_with_trailing <- count_with_trailing fixed_uas ;;
      _ <- match original_file with
           | None => Ok 0
           | Some original_text =>
               original_uas
                 <- load_uas (readlines (universal_newlines original_text)) [] ;;
               count_with_trailing original_uas
           end ;;
      Ok (if fixed_with_trailing =? 0 then 0 else 1)
  end.

End TestFix.

End Sonnet.

(** ** [test_issue_307.py] *)

Module Issue307.
Import Py Json Common.

(** [check_trailing_spaces], for the contents of the data file: whether
    a user agent with a trailing space was found.  The ratio it prints is
    [trailing_space_count/total_count]. *)
Fixpoint check_trailing_spaces_loop (lines : list str)
    (total_count trailing_space_count : nat) : result (nat * nat) :=
  match lines with
  | [] => Ok (total_count, trailing_space_count)
  | line0 :: rest =>
      let line := strip line0 in
      match line with
      | [] => check_trailing_spaces_loop rest total_count trailing_space_count
      | _ :: _ =>
          match json_loads line with
          | Raise (JSONDecodeError _) =>
              check_trailing_spaces_loop rest total_count trailing_space_count
          | Raise e => Raise e
          | Ok data =>
              match get_useragent data with
              | Ok (JStr ua) =>
                  check_trailing_spaces_loop rest (S total_count)
                    (if endswith_space ua then S trailing_space_count
                     else trailing_space_count)
              | Ok _ => Raise AttributeError
              | Raise e => Raise e
              end
          end
      end
  end.

Definition check_trailing_spaces (data_file : option str) : outcome bool :=
  match data_file with
  | None => Returns false
  | Some text =>
      match
        check_trailing_spaces_loop (readlines (universal_newlines text)) 0 0
      with
      | Raise e => Raises (Exn e)
      | Ok (total_count, trailing_space_count) =>
          if total_count =? 0 then Raises ZeroDivisionError
          else Returns (0 <? trailing_space_count)
      end
  end.

End Issue307.

(** ** The specification's words *)

Module Spec.
Import Py Json Common.

(** "strip all leading and trailing space characters (space character
    only -- not tabs/newlines)" *)
Definition strip_spaces (s : str) : str :=
  lstrip_by is_space_char (rstrip_by is_space_char s).

(** The Field Normalizer of the specification:
    [normalize(record, field_name) -> (new_record, changed)]. *)
Definition normalize (record : dict) (field_name : str) : dict * bool :=
  match dict_get record field_name with
  | Some (JStr original) =>
      let stripped := strip_spaces original in
      (dict_set record field_name (JStr stripped),
       negb (str_eqb stripped original))
  | _ => (record, false)
  end.

(** No character satisfying [p] at the start, resp. at the end. *)
Definition no_leading (p : N -> bool) (s : str) : Prop :=
  forall c r, s = c :: r -> p c = false.

Definition no_trailing (p : N -> bool) (s : str) : Prop :=
  forall r c, s = r ++ [c] -> p c = false.

(** [cleaned] is [original] without its leading and trailing characters
    satisfying [p], resp. without the trailing ones only. *)
Definition stripped_of (p : N -> bool) (original cleaned : str) : Prop :=
  exists pre post,
    original = pre ++ cleaned ++ post
    /\ forallb p pre = true /\ forallb p post = true
    /\ no_leading p cleaned /\ no_trailing p cleaned.

Definition rstripped_of (p : N -> bool) (original cleaned : str) : Prop :=
  exists post,
    original = cleaned ++ post
    /\ forallb p post = true /\ no_trailing p cleaned.

(** [sub] occurs in [s] as a contiguous run of characters. *)
Definition substring_of (sub s : str) : Prop :=
  exists pre post, s = pre ++ sub ++ post.

(** Every field but [k] has the value it had, the fields but [k] come in
    the order they had, and [k] stays where it was if it was there. *)
Definition frame_except (k : str) (before after : dict) : Prop :=
  (forall k', k' <> k -> dict_get after k' = dict_get before k')
  /\ filter (fun kv => negb (str_eqb (fst kv) k)) after
     = filter (fun kv => negb (str_eqb (fst kv) k)) before
  /\ (dict_get before k <> None -> keys after = keys before).

(** A finite float literal as the scanner produces it: digits in the
    fraction and in the exponent, and at least one of the two. *)
Definition wf_float (f : float_lit) : bool :=
  match f with
  | FDec _ _ frac exp =>
      forallb is_digit frac
      && match exp with
         | None => negb (match frac with [] => true | _ => false end)
         | Some (_, ds) =>
             forallb is_digit ds
             && negb (match ds with [] => true | _ => false end)
         end
  | _ => true
  end.

Fixpoint distinct (ks : list str) : bool :=
  match ks with
  | [] => true
  | k :: ks' => negb (existsb (str_eqb k) ks') && distinct ks'
  end.

(** A value of the Python side of [json]: dicts have distinct keys and
    floats are literals as above. *)
Fixpoint wf_json (v : json) : bool :=
  match v with
  | JFloat f => wf_float f
  | JList l => forallb wf_json l
  | JDict d =>
      distinct (List.map fst d) && forallb (fun kv => wf_json (snd kv)) d
  | _ => true
  end.


(** The text after a JSON value inside a document: nothing, or a comma, a
    closing bracket or a closing brace. *)
Definition delimited (rest : str) : bool :=
  match rest with
  | [] => true
  | c :: _ => ((c =? 44) || (c =? 93) || (c =? 125))%N
  end.

(** The characters a JSON text written by [json.dumps] can start with. *)
Definition is_value_start (c : N) : bool :=
  is_digit c
  || existsb (N.eqb c) [45; 34; 91; 123; 110; 116; 102; 78; 73]%N.

(** What the object loop of [json.loads] makes of the pairs it reads. *)
Definition dict_of_pairs (acc : dict) (pairs : list (str * json)) : dict :=
  fold_left (fun a kv => dict_set a (fst kv) (snd kv)) pairs acc.

(** The text of one member of an object. *)
Definition member_text (kv : str * json) : str :=
  encode_basestring (fst kv) ++ key_separator ++ json_dumps (snd kv).

(** The text of the elements of an array after the first. *)
Definition elements_tail (es : list json) (rest : str) : str :=
  match es with
  | [] => 93%N :: rest
  | _ :: _ => 44%N :: 32%N :: join item_separator (List.map json_dumps es)
              ++ 93%N :: rest
  end.

(** The text of the members of an object after the first. *)
Definition members_tail (d : dict) (rest : str) : str :=
  match d with
  | [] => 125%N :: rest
  | _ :: _ => 44%N :: 32%N :: join item_separator (List.map member_text d)
              ++ 125%N :: rest
  end.

(** What [json.dumps] wrote is read back, whatever follows it inside a
    document: the statement proved for every value below. *)
Definition reads_back (v : json) : Prop :=
  wf_json v = true ->
  forall fuel rest,
    delimited rest = true ->
    2 * List.length (json_dumps v ++ rest) < fuel ->
    scan_once fuel (json_dumps v ++ rest) = Ok (v, rest).

(** A line that [splitlines()] leaves in one piece. *)
Definition no_linebreak (s : str) : bool :=
  forallb (fun c => negb (is_linebreak c)) s.

(** Not a control character below U+0020. *)
Definition printable (c : N) : bool := (32 <=? c)%N.

(** None of the three line boundaries of [splitlines()] that
    [json.dumps(..., ensure_ascii=False)] leaves unescaped: U+0085,
    U+2028, U+2029. *)
Definition no_unicode_linebreak (s : str) : bool :=
  forallb (fun c => negb (existsb (N.eqb c) [133; 8232; 8233]%N)) s.

(** A record as [fix_file] writes it: well formed, and left as it is by
    [_clean_record]. *)
Definition stable_record (r : dict) : Prop :=
  wf_json (JDict r) = true /\ Gpt._clean_record (JDict r) = Ok (r, false).

(** A scanner's result on a text of [m] characters: it is no
    [RecursionError], and what it leaves to read is shorter than [m]. *)
Definition consumes {A : Type} (x : result (A * str)) (m : nat) : Prop :=
  match x with
  | Ok (_, r) => List.length r < m
  | Raise e => e <> RecursionError
  end.

(** The text does not go on with a digit. *)
Definition no_digit_head (s : str) : Prop :=
  match s with
  | [] => True
  | c :: _ => is_digit c = false
  end.


(** What [fix_useragents] leaves under [useragent]: a string without its
    trailing spaces, anything else as it was. *)
Definition rstripped_value (v : json) : json :=
  match v with
  | JStr s => JStr (rstrip_chars [32%N] s)
  | _ => v
  end.

(** A record as a fix script writes it: well formed, and what
    [record.get("useragent", "")] returns is a string satisfying [P]. *)
Definition record_with (P : str -> Prop) (d : dict) : Prop :=
  wf_json (JDict d) = true
  /\ exists ua, dict_get_default d useragent (JStr []) = JStr ua /\ P ua.

(** The lines that are not blank. *)
Definition nonblank (lines : list str) : list str :=
  filter (fun line => negb (is_blank line)) lines.

(** The runner after one call of [add_result] for each triple of
    [items], in order, on a new [SimpleTestRunner(test_name)]. *)
Definition recorded (test_name : str)
    (items : list (str * bool * option str)) : Opus.SimpleTestRunner.t :=
  fold_left
    (fun self r =>
       Opus.SimpleTestRunner.add_result self (fst (fst r)) (snd (fst r))
         (snd r))
    items (Opus.SimpleTestRunner.__init__ test_name).

End Spec.

(** ** Inputs of the examples *)

Module Inputs.
Import Py Json Common.

(** The six characters backslash, [u], [2], [0], [2], [8]: the JSON escape
    of the line separator U+2028. *)
Definition escaped_line_separator : str := [92; 117; 50; 48; 50; 56]%N.

(** A source file of one line whose [useragent] is [a], the escaped line
    separator, [b] and a trailing space; and the file [fix_file] writes
    for it, in which the separator is the character U+2028 itself. *)
Definition source_with_separator : str :=
  J "{'useragent': 'a" ++ escaped_line_separator ++ J "b '}".

Definition target_with_separator : str :=
  J "{'useragent': 'a" ++ [8232%N] ++ J "b'}" ++ [10%N].

End Inputs.

(** * Properties *)

Import Py Json Common Spec.

Ltac len :=
  repeat first
    [ progress cbn [List.length] in *
    | match goal with
      | H : context [List.length (_ ++ _)] |- _ => rewrite length_app in H
      | |- context [List.length (_ ++ _)] => rewrite length_app
      end ];
  lia.

(** ** Strings *)

Lemma str_eqb_eq (a b : str) : str_eqb a b = true <-> a = b.
Proof.
  revert b; induction a as [|x a IH]; intros [|y b]; simpl; split;
    try congruence; try reflexivity.
  - intros H. apply andb_true_iff in H as [Hx Hab].
    apply N.eqb_eq in Hx. apply IH in Hab. congruence.
  - intros H. injection H as -> ->.
    rewrite N.eqb_refl. simpl. now apply IH.
Qed.

Lemma str_eqb_refl (a : str) : str_eqb a a = true.
Proof. now apply str_eqb_eq. Qed.

Lemma str_eqb_neq (a b : str) : str_eqb a b = false <-> a <> b.
Proof.
  split.
  - intros H E. apply str_eqb_eq in E. congruence.
  - intros H. destruct (str_eqb a b) eqn:E; [|reflexivity].
    apply str_eqb_eq in E. contradiction.
Qed.

Lemma rstrip_by_split (p : N -> bool) (s : str) :
  exists t, s = rstrip_by p s ++ t /\ forallb p t = true.
Proof.
  induction s as [|c s (t & Hs & Ht)]; simpl.
  - now exists [].
  - destruct (rstrip_by p s) as [|n l] eqn:E.
    + simpl in Hs. subst t. destruct (p c) eqn:Hc.
      * exists (c :: s). simpl. now rewrite Hc, Ht.
      * now exists s.
    + exists t. split; [|assumption]. simpl. now rewrite Hs at 1.
Qed.

Lemma rstrip_by_no_trailing (p : N -> bool) (s : str) :
  no_trailing p (rstrip_by p s).
Proof.
  induction s as [|a s IH]; intros r c; simpl.
  - destruct r; discriminate.
  - destruct (rstrip_by p s) as [|n l] eqn:E.
    + destruct (p a) eqn:Ha.
      * destruct r; discriminate.
      * destruct r as [|? [|? ?]]; simpl; intros H; try discriminate.
        injection H as <-. assumption.
    + destruct r as [|x r]; simpl; intros H.
      * discriminate.
      * injection H as _ H. now apply (IH r c).
Qed.

Lemma rstrip_by_fix (p : N -> bool) (s : str) :
  no_trailing p s -> rstrip_by p s = s.
Proof.
  induction s as [|a s IH]; intros H; simpl; [reflexivity|].
  rewrite IH.
  - destruct s; [|reflexivity]. now rewrite (H [] a eq_refl).
  - intros r c ->. apply (H (a :: r) c). reflexivity.
Qed.

Lemma rstrip_by_idem (p : N -> bool) (s : str) :
  rstrip_by p (rstrip_by p s) = rstrip_by p s.
Proof. apply rstrip_by_fix, rstrip_by_no_trailing. Qed.

Lemma lstrip_by_split (p : N -> bool) (s : str) :
  exists t, s = t ++ lstrip_by p s /\ forallb p t = true.
Proof.
  induction s as [|c s (t & Hs & Ht)]; simpl.
  - now exists [].
  - destruct (p c) eqn:Hc.
    + exists (c :: t). simpl. rewrite Hc, Ht. split; [|reflexivity].
      now rewrite Hs at 1.
    + now exists [].
Qed.

Lemma lstrip_by_no_leading (p : N -> bool) (s : str) :
  no_leading p (lstrip_by p s).
Proof.
  induction s as [|a s IH]; intros c r; simpl; [discriminate|].
  destruct (p a) eqn:Ha.
  - apply IH.
  - intros H. injection H as <- _. assumption.
Qed.

Lemma lstrip_by_fix (p : N -> bool) (s : str) :
  no_leading p s -> lstrip_by p s = s.
Proof.
  destruct s as [|a s]; intros H; simpl; [reflexivity|].
  now rewrite (H a s eq_refl).
Qed.

Lemma lstrip_by_keeps_no_trailing (p q : N -> bool) (s : str) :
  no_trailing q s -> no_trailing q (lstrip_by p s).
Proof.
  intros H r c E. destruct (lstrip_by_split p s) as (t & Hs & _).
  apply (H (t ++ r) c). rewrite Hs at 1. rewrite E. now rewrite app_assoc.
Qed.

Lemma strip_stripped_of (s : str) : stripped_of isspace s (strip s).
Proof.
  unfold strip.
  destruct (rstrip_by_split isspace s) as (post & Hs & Hpost).
  destruct (lstrip_by_split isspace (rstrip_by isspace s)) as (pre & Hr & Hpre).
  exists pre, post. repeat split; try assumption.
  - rewrite Hs at 1. rewrite Hr at 1. now rewrite <- app_assoc.
  - apply lstrip_by_no_leading.
  - apply lstrip_by_keeps_no_trailing, rstrip_by_no_trailing.
Qed.

Lemma strip_idem (s : str) : strip (strip s) = strip s.
Proof.
  unfold strip.
  rewrite (rstrip_by_fix (p := isspace)).
  - apply lstrip_by_fix, lstrip_by_no_leading.
  - apply lstrip_by_keeps_no_trailing, rstrip_by_no_trailing.
Qed.

Lemma rstrip_by_rstripped_of (p : N -> bool) (s : str) :
  rstripped_of p s (rstrip_by p s).
Proof.
  destruct (rstrip_by_split p s) as (post & Hs & Hpost).
  exists post. repeat split; try assumption. apply rstrip_by_no_trailing.
Qed.

Lemma endswith_space_app (r : str) (c : N) :
  endswith_space (r ++ [c]) = is_space_char c.
Proof.
  induction r as [|a r IH]; simpl; [reflexivity|].
  rewrite IH. destruct (r ++ [c]) eqn:E; [|reflexivity].
  destruct r; discriminate.
Qed.

Lemma endswith_space_false (s : str) :
  endswith_space s = false <-> no_trailing is_space_char s.
Proof.
  split.
  - intros H r c ->. now rewrite endswith_space_app in H.
  - intros H. destruct s as [|a s']; [reflexivity|].
    destruct (@exists_last _ (a :: s')) as (r & c & E); [discriminate|].
    rewrite E, endswith_space_app. apply (H r c E).
Qed.

Lemma endswith_space_true (s : str) :
  endswith_space s = true <-> exists r, s = r ++ [32%N].
Proof.
  split.
  - intros H. destruct s as [|a s']; [discriminate|].
    destruct (@exists_last _ (a :: s')) as (r & c & E); [discriminate|].
    rewrite E, endswith_space_app in H. apply N.eqb_eq in H. subst c.
    now exists r.
  - intros (r & ->). now rewrite endswith_space_app.
Qed.

Lemma rstrip_changes_trailing_space (s : str) :
  endswith_space s = true -> rstrip s <> s.
Proof.
  intros H E. apply endswith_space_true in H as (r & Hr).
  pose proof (rstrip_by_no_trailing isspace s) as Hn.
  fold (rstrip s) in Hn. rewrite E in Hn.
  specialize (Hn r 32%N Hr). discriminate.
Qed.

(** ** Dictionaries *)

Lemma dict_get_set_same (d : dict) (k : str) (v : json) :
  dict_get (dict_set d k v) k = Some v.
Proof.
  induction d as [|[k' v'] d IH]; simpl.
  - now rewrite str_eqb_refl.
  - destruct (str_eqb k' k) eqn:E; simpl; rewrite E; [reflexivity|apply IH].
Qed.

Lemma dict_get_set_other (d : dict) (k k' : str) (v : json) :
  k' <> k -> dict_get (dict_set d k v) k' = dict_get d k'.
Proof.
  intros Hk. induction d as [|[k0 v0] d IH]; simpl.
  - destruct (str_eqb k k') eqn:E; [|reflexivity].
    apply str_eqb_eq in E. congruence.
  - destruct (str_eqb k0 k) eqn:E; simpl.
    + apply str_eqb_eq in E. subst k0.
      destruct (str_eqb k k') eqn:E'; [|reflexivity].
      apply str_eqb_eq in E'. congruence.
    + now rewrite IH.
Qed.

Lemma dict_set_same_value (d : dict) (k : str) (v : json) :
  dict_get d k = Some v -> dict_set d k v = d.
Proof.
  induction d as [|[k' v'] d IH]; simpl; [discriminate|].
  destruct (str_eqb k' k) eqn:E.
  - now intros [= ->].
  - intros H. now rewrite IH.
Qed.

Lemma dict_set_absent (d : dict) (k : str) (v : json) :
  dict_get d k = None -> dict_set d k v = d ++ [(k, v)].
Proof.
  induction d as [|[k' v'] d IH]; simpl; [reflexivity|].
  destruct (str_eqb k' k) eqn:E; [discriminate|].
  intros H. now rewrite IH.
Qed.

Lemma dict_set_twice (d : dict) (k : str) (v w : json) :
  dict_set (dict_set d k v) k w = dict_set d k w.
Proof.
  induction d as [|[k' v'] d IH]; simpl.
  - now rewrite str_eqb_refl.
  - destruct (str_eqb k' k) eqn:E; simpl; rewrite E; [reflexivity|].
    now rewrite IH.
Qed.

Lemma keys_dict_set_present (d : dict) (k : str) (v : json) :
  dict_get d k <> None -> keys (dict_set d k v) = keys d.
Proof.
  induction d as [|[k' v'] d IH]; simpl; [congruence|].
  destruct (str_eqb k' k) eqn:E; simpl; [reflexivity|].
  intros H. f_equal. now apply IH.
Qed.

Lemma dict_set_frame (d : dict) (k : str) (v : json) :
  frame_except k d (dict_set d k v).
Proof.
  repeat split.
  - intros k' Hk. now apply dict_get_set_other.
  - induction d as [|[k' v'] d IH]; simpl.
    + now rewrite str_eqb_refl.
    + destruct (str_eqb k' k) eqn:E; simpl; rewrite E; simpl;
        [reflexivity|now rewrite IH].
  - apply keys_dict_set_present.
Qed.

Lemma frame_except_refl (k : str) (d : dict) : frame_except k d d.
Proof. repeat split; reflexivity. Qed.

(** ** The normalizers, record by record *)

Lemma clean_record_present (d : dict) (ua : str) :
  dict_get d useragent = Some (JStr ua) ->
  Gpt._clean_record (JDict d)
  = Ok (dict_set d useragent (JStr (strip ua)), negb (str_eqb (strip ua) ua)).
Proof.
  intros H. unfold Gpt._clean_record, dict_get_default. now rewrite H.
Qed.

Lemma clean_record_absent (d : dict) :
  dict_get d useragent = None ->
  Gpt._clean_record (JDict d) = Ok (d ++ [(useragent, JStr [])], false).
Proof.
  intros H. unfold Gpt._clean_record, dict_get_default. rewrite H.
  change (strip []) with (@nil N). simpl.
  now rewrite dict_set_absent.
Qed.

Lemma clean_record_inv (record : json) (d' : dict) (changed : bool) :
  Gpt._clean_record record = Ok (d', changed) ->
  exists d ua,
    record = JDict d
    /\ dict_get_default d useragent (JStr []) = JStr ua
    /\ d' = dict_set d useragent (JStr (strip ua))
    /\ changed = negb (str_eqb (strip ua) ua).
Proof.
  unfold Gpt._clean_record. destruct record as [| | | | |?|d]; try discriminate.
  destruct (dict_get_default d useragent (JStr [])) as [| | | |ua| |] eqn:E;
    try discriminate.
  intros [= <- <-]. now exists d, ua.
Qed.

Lemma fix_useragents_loop_step (rec : dict) (rest acc : list dict) (n : nat) :
  Oswe.fix_useragents_loop (rec :: rest) acc n
  = Oswe.fix_useragents_loop rest (acc ++ [fst (Oswe.fix_useragent rec)])
      (if snd (Oswe.fix_useragent rec) then S n else n).
Proof.
  simpl. unfold Oswe.fix_useragent.
  destruct (dict_get rec useragent) as [[| | | |ua| |]|] eqn:E; try reflexivity.
  simpl. destruct (str_eqb (rstrip_chars [32%N] ua) ua) eqn:Eq; simpl.
  - apply str_eqb_eq in Eq. rewrite Eq.
    now rewrite (dict_set_same_value _ _ E).
  - reflexivity.
Qed.

Lemma fix_useragents_loop_spec (records acc : list dict) (n : nat) :
  Oswe.fix_useragents_loop records acc n
  = (acc ++ List.map (fun r => fst (Oswe.fix_useragent r)) records,
     n + List.length (filter (fun r => snd (Oswe.fix_useragent r)) records)).
Proof.
  revert acc n. induction records as [|rec rest IH]; intros acc n.
  - simpl. now rewrite app_nil_r, Nat.add_0_r.
  - rewrite fix_useragents_loop_step, IH. simpl.
    rewrite <- app_assoc. simpl. f_equal.
    destruct (snd (Oswe.fix_useragent rec)); simpl; lia.
Qed.

Lemma fix_useragents_spec (records : list dict) :
  Oswe.fix_useragents records
  = (List.map (fun r => fst (Oswe.fix_useragent r)) records,
     List.length (filter (fun r => snd (Oswe.fix_useragent r)) records)).
Proof. unfold Oswe.fix_useragents. now rewrite fix_useragents_loop_spec. Qed.

Lemma rstrip_by_ext (p q : N -> bool) (s : str) :
  (forall c, p c = q c) -> rstrip_by p s = rstrip_by q s.
Proof.
  intros H. induction s as [|c s IH]; simpl; [reflexivity|].
  now rewrite IH, H.
Qed.

Lemma rstrip_chars_space (s : str) :
  rstrip_chars [32%N] s = rstrip_by is_space_char s.
Proof.
  apply rstrip_by_ext. intros c. simpl. apply orb_false_r.
Qed.

Lemma json_loads_nonempty (s : str) (v : json) :
  json_loads s = Ok v -> s <> [].
Proof. intros H ->. discriminate. Qed.

(** One line of [fix_browsers_json] that parses to a record with a string
    under [useragent]. *)
Lemma fix_browsers_json_line (line : str) (d : dict) (ua : str)
    (st : Opus.stats) (fixed_lines : list str) :
  json_loads (strip line) = Ok (JDict d) ->
  dict_get d useragent = Some (JStr ua) ->
  Opus.fix_browsers_json_loop [line] st fixed_lines
  = Ok (if endswith_space ua
        then (Opus.mkStats (S (Opus.total_uas st)) (S (Opus.fixed_uas st))
                (Opus.unchanged_uas st) (Opus.errors st),
              fixed_lines
              ++ [json_dumps (JDict (dict_set d useragent (JStr (rstrip ua))))])
        else (Opus.mkStats (S (Opus.total_uas st)) (Opus.fixed_uas st)
                (S (Opus.unchanged_uas st)) (Opus.errors st),
              fixed_lines ++ [json_dumps (JDict d)])).
Proof.
  intros Hl Hd. pose proof (json_loads_nonempty Hl) as Hne.
  simpl. destruct (strip line) as [|c l] eqn:E; [congruence|].
  rewrite Hl. unfold dict_get_default. rewrite Hd.
  now destruct (endswith_space ua).
Qed.

Lemma stripped_of_substring (p : N -> bool) (s c : str) :
  stripped_of p s c -> substring_of c s /\ List.length c <= List.length s.
Proof.
  intros (pre & post & -> & _). split.
  - now exists pre, post.
  - rewrite !length_app. lia.
Qed.

Lemma rstripped_of_substring (p : N -> bool) (s c : str) :
  rstripped_of p s c -> substring_of c s /\ List.length c <= List.length s.
Proof.
  intros (post & -> & _). split.
  - now exists [], post.
  - rewrite !length_app. lia.
Qed.

Lemma negb_str_eqb_true (a b : str) : negb (str_eqb a b) = true <-> a <> b.
Proof.
  rewrite negb_true_iff. apply str_eqb_neq.
Qed.

Lemma fix_useragent_present (d : dict) (ua : str) :
  dict_get d useragent = Some (JStr ua) ->
  Oswe.fix_useragent d
  = (dict_set d useragent (JStr (rstrip_by is_space_char ua)),
     negb (str_eqb (rstrip_by is_space_char ua) ua)).
Proof.
  intros H. unfold Oswe.fix_useragent. now rewrite H, rstrip_chars_space.
Qed.

Lemma fix_useragent_not_string (d : dict) :
  (forall ua, dict_get d useragent <> Some (JStr ua)) ->
  Oswe.fix_useragent d = (d, false).
Proof.
  intros H. unfold Oswe.fix_useragent.
  destruct (dict_get d useragent) as [[| | | |ua| |]|] eqn:E; try reflexivity.
  now destruct (H ua).
Qed.

(** A record at any place of the list given to [fix_useragents], and a
    line at any place of those given to the loop of [fix_browsers_json]. *)
Lemma fix_useragents_at (pre : list dict) (d : dict) (post : list dict) :
  Oswe.fix_useragents (pre ++ d :: post)
  = (fst (Oswe.fix_useragents pre) ++ fst (Oswe.fix_useragent d)
       :: fst (Oswe.fix_useragents post),
     snd (Oswe.fix_useragents pre)
     + (if snd (Oswe.fix_useragent d) then 1 else 0)
     + snd (Oswe.fix_useragents post)).
Proof.
  rewrite !fix_useragents_spec. cbn [fst snd].
  rewrite map_app, filter_app, length_app. cbn [List.map filter].
  destruct (snd (Oswe.fix_useragent d)); cbn [List.length]; f_equal; lia.
Qed.

Lemma fix_browsers_json_loop_app (pre : list str) :
  forall rest st fixed_lines,
    Opus.fix_browsers_json_loop (pre ++ rest) st fixed_lines
    = match Opus.fix_browsers_json_loop pre st fixed_lines with
      | Ok (st1, lines1) => Opus.fix_browsers_json_loop rest st1 lines1
      | Raise e => Raise e
      end.
Proof.
  induction pre as [|line pre IH]; intros rest st fl; [reflexivity|].
  cbn [app Opus.fix_browsers_json_loop]. cbv zeta.
  destruct (strip line) as [|c l]; [apply IH|].
  destruct (json_loads (c :: l)) as [[| | | | | |data]|[]]; try reflexivity.
  - destruct (dict_get_default data useragent (JStr [])) as [| | | |ua| |];
      try reflexivity.
    destruct (endswith_space ua); apply IH.
  - apply IH.
Qed.

Lemma fix_browsers_json_line_at (pre : list str) (line : str)
    (post : list str) (d : dict) (ua : str)
    (st st1 : Opus.stats) (fixed_lines lines1 : list str) :
  json_loads (strip line) = Ok (JDict d) ->
  dict_get d useragent = Some (JStr ua) ->
  Opus.fix_browsers_json_loop pre st fixed_lines = Ok (st1, lines1) ->
  Opus.fix_browsers_json_loop (pre ++ line :: post) st fixed_lines
  = if endswith_space ua
    then Opus.fix_browsers_json_loop post
           (Opus.mkStats (S (Opus.total_uas st1)) (S (Opus.fixed_uas st1))
              (Opus.unchanged_uas st1) (Opus.errors st1))
           (lines1
            ++ [json_dumps (JDict (dict_set d useragent (JStr (rstrip ua))))])
    else Opus.fix_browsers_json_loop post
           (Opus.mkStats (S (Opus.total_uas st1)) (Opus.fixed_uas st1)
              (S (Opus.unchanged_uas st1)) (Opus.errors st1))
           (lines1 ++ [json_dumps (JDict d)]).
Proof.
  intros Hl Hd Hpre.
  rewrite fix_browsers_json_loop_app, Hpre.
  change (line :: post) with ([line] ++ post).
  rewrite fix_browsers_json_loop_app, (fix_browsers_json_line _ _ _ Hl Hd).
  now destruct (endswith_space ua).
Qed.

(** ** C1 *)

(** C1, as stated, fails: on the value [a<TAB>] the specification keeps
    the tab and reports no change, [_clean_record] removes it; on the value
    [<SPACE>a] the specification removes the leading space,
    [fix_useragents] and [fix_browsers_json] keep it. *)
Lemma C1_counterexample :
  Spec.normalize [(useragent, JStr [97; 9]%N)] useragent
  = ([(useragent, JStr [97; 9]%N)], false)
  /\ Gpt._clean_record (JDict [(useragent, JStr [97; 9]%N)])
     = Ok ([(useragent, JStr [97]%N)], true)
  /\ Spec.normalize [(useragent, JStr [32; 97]%N)] useragent
     = ([(useragent, JStr [97]%N)], true)
  /\ Oswe.fix_useragents [[(useragent, JStr [32; 97]%N)]]
     = ([[(useragent, JStr [32; 97]%N)]], 0)
  /\ Opus.fix_browsers_json_loop
       [json_dumps (JDict [(useragent, JStr [32; 97]%N)])]
       (Opus.mkStats 0 0 0 0) []
     = Ok (Opus.mkStats 1 0 1 0,
           [json_dumps (JDict [(useragent, JStr [32; 97]%N)])]).
Proof. repeat split; vm_compute; reflexivity. Qed.

(** C1 (amended): for every record whose [useragent] is a string,
    [_clean_record] stores the value without its leading and trailing
    whitespace characters (those of [str.strip()], tabs and newlines
    included); [fix_useragents], wherever the record stands in the list,
    stores it without its trailing U+0020 characters only; and
    [fix_browsers_json], wherever the line of the record stands among the
    lines, stores it without its trailing whitespace when it ends with a
    space and as it is otherwise.  Each reports a change exactly when the
    stored value differs from the original. *)
Theorem C1_normalizers_on_strings (d : dict) (ua : str) :
  dict_get d useragent = Some (JStr ua) ->
  (exists cleaned changed,
      Gpt._clean_record (JDict d)
      = Ok (dict_set d useragent (JStr cleaned), changed)
      /\ stripped_of isspace ua cleaned
      /\ (changed = true <-> cleaned <> ua))
  /\ (exists cleaned changed,
      (forall pre post,
          Oswe.fix_useragents (pre ++ d :: post)
          = (fst (Oswe.fix_useragents pre)
             ++ dict_set d useragent (JStr cleaned)
                :: fst (Oswe.fix_useragents post),
             snd (Oswe.fix_useragents pre)
             + (if changed : bool then 1 else 0)
             + snd (Oswe.fix_useragents post)))
      /\ rstripped_of is_space_char ua cleaned
      /\ (changed = true <-> cleaned <> ua))
  /\ (exists cleaned changed,
      (forall pre line post st fixed_lines st1 lines1,
          json_loads (strip line) = Ok (JDict d) ->
          Opus.fix_browsers_json_loop pre st fixed_lines = Ok (st1, lines1) ->
          Opus.fix_browsers_json_loop (pre ++ line :: post) st fixed_lines
          = Opus.fix_browsers_json_loop post
              (Opus.mkStats (S (Opus.total_uas st1))
                 (if changed : bool then S (Opus.fixed_uas st1)
                  else Opus.fixed_uas st1)
                 (if changed then Opus.unchanged_uas st1
                  else S (Opus.unchanged_uas st1))
                 (Opus.errors st1))
              (lines1
               ++ [json_dumps (JDict (dict_set d useragent (JStr cleaned)))]))
      /\ (endswith_space ua = true -> rstripped_of isspace ua cleaned)
      /\ (endswith_space ua = false -> cleaned = ua)
      /\ (changed = true <-> cleaned <> ua)).
Proof.
  intros Hd. split; [|split].
  - exists (strip ua), (negb (str_eqb (strip ua) ua)).
    split; [now apply clean_record_present|].
    split; [apply strip_stripped_of|apply negb_str_eqb_true].
  - exists (rstrip_by is_space_char ua),
      (negb (str_eqb (rstrip_by is_space_char ua) ua)).
    split; [|split; [apply rstrip_by_rstripped_of|apply negb_str_eqb_true]].
    intros pre post.
    now rewrite fix_useragents_at, (fix_useragent_present _ Hd).
  - destruct (endswith_space ua) eqn:E.
    + exists (rstrip ua), true. split.
      * intros pre line post st fl st1 lines1 Hl Hpre.
        now rewrite (@fix_browsers_json_line_at pre line post d ua st st1 fl
                       lines1 Hl Hd Hpre), E.
      * split; [intros _; apply rstrip_by_rstripped_of|].
        split; [discriminate|].
        split; [intros _; now apply rstrip_changes_trailing_space|reflexivity].
    + exists ua, false. split.
      * intros pre line post st fl st1 lines1 Hl Hpre.
        rewrite (@fix_browsers_json_line_at pre line post d ua st st1 fl lines1
                   Hl Hd Hpre), E.
        now rewrite (dict_set_same_value _ _ Hd).
      * split; [discriminate|].
        split; [reflexivity|].
        split; [discriminate|congruence].
Qed.

(** The record [{"useragent": " Mozilla/5.0 <TAB> "}] given to
    [_clean_record], and as the second of three records given to
    [fix_useragents]. *)
Lemma C1_normalizers_on_strings_witness :
  (exists cleaned changed,
      Gpt._clean_record
        (JDict [(useragent, JStr (32 :: u "Mozilla/5.0" ++ [32; 9; 32])%N)])
      = Ok (dict_set
              [(useragent, JStr (32 :: u "Mozilla/5.0" ++ [32; 9; 32])%N)]
              useragent (JStr cleaned), changed)
      /\ stripped_of isspace (32 :: u "Mozilla/5.0" ++ [32; 9; 32])%N cleaned
      /\ (changed = true
          <-> cleaned <> (32 :: u "Mozilla/5.0" ++ [32; 9; 32])%N))
  /\ (exists cleaned changed,
      Oswe.fix_useragents
        ([[(useragent, JStr (u "Safari/1.0 "))]]
         ++ [(useragent, JStr (32 :: u "Mozilla/5.0" ++ [32; 9; 32])%N)]
            :: [[(u "version", JInt 17)]])
      = ([[(useragent, JStr (u "Safari/1.0"))]]
         ++ dict_set
              [(useragent, JStr (32 :: u "Mozilla/5.0" ++ [32; 9; 32])%N)]
              useragent (JStr cleaned)
            :: [[(u "version", JInt 17)]],
         1 + (if changed : bool then 1 else 0) + 0)
      /\ rstripped_of is_space_char
           (32 :: u "Mozilla/5.0" ++ [32; 9; 32])%N cleaned
      /\ (changed = true
          <-> cleaned <> (32 :: u "Mozilla/5.0" ++ [32; 9; 32])%N)).
Proof.
  destruct (C1_normalizers_on_strings
              [(useragent, JStr (32 :: u "Mozilla/5.0" ++ [32; 9; 32])%N)]
              eq_refl) as (Hgpt & (cleaned & changed & Hat & Hc & Hch) & _).
  split; [exact Hgpt|].
  exists cleaned, changed. split; [|split; assumption].
  exact (Hat [[(useragent, JStr (u "Safari/1.0 "))]] [[(u "version", JInt 17)]]).
Defined.

(** ** C5 *)

(** C5, as stated, fails: [_clean_record] gives a record without
    [useragent] that key, with the empty string; the specification leaves
    the record as it is. *)
Lemma C5_counterexample :
  Spec.normalize [(u "browser", JStr (u "chrome"))] useragent
  = ([(u "browser", JStr (u "chrome"))], false)
  /\ Gpt._clean_record (JDict [(u "browser", JStr (u "chrome"))])
     = Ok ([(u "browser", JStr (u "chrome")); (useragent, JStr [])], false).
Proof. split; vm_compute; reflexivity. Qed.

(** C5 (amended): for every record in which [useragent] is absent or its
    value is not a string, [fix_useragents], wherever the record stands in
    the list, returns the record unchanged (no key added or removed) and
    counts no fix for it, raising nothing; [_clean_record], when the field
    is absent, raises nothing and returns [changed = false] with the record
    extended by ["useragent": ""] after its other fields. *)
Theorem C5_absent_or_not_string (d : dict) :
  (forall ua, dict_get d useragent <> Some (JStr ua)) ->
  (forall pre post,
      Oswe.fix_useragents (pre ++ d :: post)
      = (fst (Oswe.fix_useragents pre) ++ d :: fst (Oswe.fix_useragents post),
         snd (Oswe.fix_useragents pre) + snd (Oswe.fix_useragents post)))
  /\ (dict_get d useragent = None ->
      Gpt._clean_record (JDict d) = Ok (d ++ [(useragent, JStr [])], false)).
Proof.
  intros H. split.
  - intros pre post.
    rewrite fix_useragents_at, (fix_useragent_not_string _ H). cbn [fst snd].
    f_equal. lia.
  - apply clean_record_absent.
Qed.

(** A record without [useragent], and one whose [useragent] is the
    number 5, each between a record that is fixed and one that is not. *)
Lemma C5_absent_or_not_string_witness :
  (Oswe.fix_useragents
     ([[(useragent, JStr (u "Safari/1.0 "))]]
      ++ [(u "browser", JStr (u "chrome"))]
         :: [[(useragent, JStr (u "Chrome"))]])
   = ([[(useragent, JStr (u "Safari/1.0"))]]
      ++ [(u "browser", JStr (u "chrome"))]
         :: [[(useragent, JStr (u "Chrome"))]], 1 + 0)
   /\ (dict_get [(u "browser", JStr (u "chrome"))] useragent = None ->
       Gpt._clean_record (JDict [(u "browser", JStr (u "chrome"))])
       = Ok ([(u "browser", JStr (u "chrome"))] ++ [(useragent, JStr [])],
             false)))
  /\ Oswe.fix_useragents
       ([[(useragent, JStr (u "Safari/1.0 "))]]
        ++ [(useragent, JInt 5)] :: [[(useragent, JStr (u "Chrome"))]])
     = ([[(useragent, JStr (u "Safari/1.0"))]]
        ++ [(useragent, JInt 5)] :: [[(useragent, JStr (u "Chrome"))]], 1 + 0).
Proof.
  split.
  - destruct (C5_absent_or_not_string [(u "browser", JStr (u "chrome"))])
      as [Hat Hgpt]; [intros ua; discriminate|].
    split; [|exact Hgpt].
    exact (Hat [[(useragent, JStr (u "Safari/1.0 "))]]
               [[(useragent, JStr (u "Chrome"))]]).
  - destruct (C5_absent_or_not_string [(useragent, JInt 5)])
      as [Hat _]; [intros ua; discriminate|].
    exact (Hat [[(useragent, JStr (u "Safari/1.0 "))]]
               [[(useragent, JStr (u "Chrome"))]]).
Defined.

(** On a value that is not a string [_clean_record] raises
    ([ua.strip()] on a number, list, dict, boolean or [None]). *)
Lemma clean_record_not_string (d : dict) (v : json) :
  dict_get d useragent = Some v ->
  (forall ua, v <> JStr ua) ->
  Gpt._clean_record (JDict d) = Raise AttributeError.
Proof.
  intros H Hv. unfold Gpt._clean_record, dict_get_default. rewrite H.
  destruct v; try reflexivity. now destruct (Hv s).
Qed.

(** ** The loop of [fix_file] and the loop of [load_jsonl] *)

Lemma fix_file_loop_load (lines : list str) :
  forall idx records fixed_count loaded records' fixed_count',
    Gpt.fix_file_loop idx lines records fixed_count
    = Ok (records', fixed_count') ->
    exists payloads cleaned,
      Gpt.load_jsonl_loop idx lines loaded = Ok (loaded ++ payloads)
      /\ records' = records ++ cleaned
      /\ Forall2 (fun p r => exists changed, Gpt._clean_record p = Ok (r, changed))
           payloads cleaned
      /\ fixed_count <= fixed_count'
      /\ fixed_count' <= fixed_count + List.length cleaned.
Proof.
  induction lines as [|line rest IH];
    intros idx records n loaded records' n'; simpl.
  - intros [= <- <-]. exists [], []. rewrite !app_nil_r.
    repeat split; try lia. constructor.
  - destruct (is_blank line); [apply IH|].
    destruct (json_loads line) as [payload|[]]; try discriminate.
    destruct (Gpt._clean_record payload) as [[cleaned changed]|] eqn:Ec;
      [|discriminate].
    intros H.
    apply (IH _ _ _ (loaded ++ [payload])) in H
      as (payloads & cl & Hl & -> & Hall & Hlo & Hhi).
    exists (payload :: payloads), (cleaned :: cl).
    rewrite Hl, <- !app_assoc. simpl. repeat split.
    + constructor; [now exists changed|assumption].
    + destruct changed; lia.
    + destruct changed; lia.
Qed.

(** ** C6 *)

Lemma clean_record_frame (d d' : dict) (changed : bool) :
  Gpt._clean_record (JDict d) = Ok (d', changed) ->
  frame_except useragent d d'.
Proof.
  intros H. apply clean_record_inv in H as (d0 & ua & [= <-] & _ & -> & _).
  apply dict_set_frame.
Qed.

Lemma fix_useragent_frame (d : dict) :
  frame_except useragent d (fst (Oswe.fix_useragent d)).
Proof.
  unfold Oswe.fix_useragent.
  destruct (dict_get d useragent) as [[| | | |ua| |]|];
    try apply frame_except_refl.
  apply dict_set_frame.
Qed.

Lemma cleaned_records_frame (payloads : list json) (cleaned : list dict) :
  Forall2 (fun p r => exists changed, Gpt._clean_record p = Ok (r, changed))
    payloads cleaned ->
  exists before,
    payloads = List.map JDict before
    /\ Forall2 (frame_except useragent) before cleaned.
Proof.
  induction 1 as [|p r ps rs (changed & Hp) _ (before & -> & IH)].
  - exists []. split; [reflexivity|constructor].
  - apply clean_record_inv in Hp as (d & ua & -> & _ & -> & _).
    exists (d :: before). split; [reflexivity|].
    constructor; [apply dict_set_frame|assumption].
Qed.

(** C6: a record that [_clean_record] returns, and every record that
    [fix_useragents] returns, has under every key other than [useragent]
    the value it had, keeps those fields in their order, and keeps the
    whole key order when [useragent] was present; and what [fix_file]
    writes is, line by line, such a record for each record that
    [load_jsonl] reads from the source. *)
Theorem C6_field_isolation :
  (forall d d' changed,
      Gpt._clean_record (JDict d) = Ok (d', changed) ->
      frame_except useragent d d')
  /\ (forall records,
      Forall2 (frame_except useragent) records
        (fst (Oswe.fix_useragents records)))
  /\ (forall text target stats,
      Gpt.fix_file (Some text) = Ok (target, stats) ->
      exists before after,
        Gpt.load_jsonl (Some text) = Ok (List.map JDict before)
        /\ target = Gpt.dump_lines (List.map JDict after)
        /\ Forall2 (frame_except useragent) before after).
Proof.
  split; [|split].
  - apply clean_record_frame.
  - intros records. rewrite fix_useragents_spec. simpl.
    induction records as [|r rs IH]; simpl; constructor.
    + apply fix_useragent_frame.
    + apply IH.
  - intros text target stats. unfold Gpt.fix_file, Gpt.load_jsonl.
    destruct (Gpt.fix_file_loop _ _ _ _) as [[records n]|] eqn:E;
      [|discriminate].
    apply (@fix_file_loop_load _ _ _ _ []) in E
      as (payloads & cleaned & Hl & -> & Hall & _).
    unfold write_text. destruct (utf8_encodable _); [|discriminate].
    intros [= <- _]. simpl in *. rewrite Hl.
    destruct (cleaned_records_frame Hall) as (before & -> & Hfr).
    now exists before, cleaned.
Qed.

(** The first scenario of the specification: a record with six other
    fields and a trailing space. *)
Lemma C6_field_isolation_witness :
  frame_except useragent
    [(useragent, JStr (u "Mozilla/5.0 Chrome ")); (u "browser", JStr (u "chrome"));
     (u "version", JInt 120); (u "os", JStr (u "win10"));
     (u "type", JStr (u "pc")); (u "system", JStr (u "x64"));
     (u "percent", JFloat (FDec false 1 [50%N] None))]
    [(useragent, JStr (u "Mozilla/5.0 Chrome")); (u "browser", JStr (u "chrome"));
     (u "version", JInt 120); (u "os", JStr (u "win10"));
     (u "type", JStr (u "pc")); (u "system", JStr (u "x64"));
     (u "percent", JFloat (FDec false 1 [50%N] None))].
Proof.
  apply (proj1 C6_field_isolation _ _ true). vm_compute. reflexivity.
Defined.

(** ** C10 *)

(** C10: the value each normalizer stores is a contiguous substring of
    the original string, and is not longer: in [_clean_record], in
    [fix_useragents] wherever the record stands in the list, and in the
    loop of [fix_browsers_json] wherever the line of the record stands
    among the lines. *)
Theorem C10_normalized_is_substring (d : dict) (ua : str) :
  dict_get d useragent = Some (JStr ua) ->
  (exists cleaned changed,
      Gpt._clean_record (JDict d)
      = Ok (dict_set d useragent (JStr cleaned), changed)
      /\ substring_of cleaned ua /\ List.length cleaned <= List.length ua)
  /\ (exists cleaned,
      (forall pre post,
          fst (Oswe.fix_useragents (pre ++ d :: post))
          = fst (Oswe.fix_useragents pre)
            ++ dict_set d useragent (JStr cleaned)
               :: fst (Oswe.fix_useragents post))
      /\ substring_of cleaned ua /\ List.length cleaned <= List.length ua)
  /\ (exists cleaned,
      (forall pre line post st fixed_lines st1 lines1,
          json_loads (strip line) = Ok (JDict d) ->
          Opus.fix_browsers_json_loop pre st fixed_lines = Ok (st1, lines1) ->
          exists st2,
            Opus.fix_browsers_json_loop (pre ++ line :: post) st fixed_lines
            = Opus.fix_browsers_json_loop post st2
                (lines1
                 ++ [json_dumps
                       (JDict (dict_set d useragent (JStr cleaned)))]))
      /\ substring_of cleaned ua /\ List.length cleaned <= List.length ua).
Proof.
  intros Hd. split; [|split].
  - exists (strip ua), (negb (str_eqb (strip ua) ua)).
    split; [now apply clean_record_present|].
    apply (stripped_of_substring (strip_stripped_of ua)).
  - exists (rstrip_by is_space_char ua).
    split;
      [|apply (rstripped_of_substring
                 (rstrip_by_rstripped_of is_space_char ua))].
    intros pre post.
    now rewrite fix_useragents_at, (fix_useragent_present _ Hd).
  - destruct (endswith_space ua) eqn:E.
    + exists (rstrip ua).
      split;
        [|apply (rstripped_of_substring (rstrip_by_rstripped_of isspace ua))].
      intros pre line post st fl st1 lines1 Hl Hpre. eexists.
      rewrite (@fix_browsers_json_line_at pre line post d ua st st1 fl lines1
                 Hl Hd Hpre), E.
      reflexivity.
    + exists ua. split.
      * intros pre line post st fl st1 lines1 Hl Hpre. eexists.
        rewrite (@fix_browsers_json_line_at pre line post d ua st st1 fl
                   lines1 Hl Hd Hpre), E.
        now rewrite (dict_set_same_value _ _ Hd).
      * split; [|lia]. exists [], []. simpl. now rewrite app_nil_r.
Qed.

(** The record [{"useragent": " Safari/1.0  "}] as the second of three
    given to [fix_useragents]. *)
Lemma C10_normalized_is_substring_witness :
  exists cleaned,
    fst (Oswe.fix_useragents
           ([[(useragent, JStr (u "Chrome "))]]
            ++ [(useragent, JStr (u " Safari/1.0  "))]
               :: [[(u "version", JInt 17)]]))
    = [[(useragent, JStr (u "Chrome"))]]
      ++ dict_set [(useragent, JStr (u " Safari/1.0  "))] useragent
           (JStr cleaned)
         :: [[(u "version", JInt 17)]]
    /\ substring_of cleaned (u " Safari/1.0  ")
    /\ List.length cleaned <= List.length (u " Safari/1.0  ").
Proof.
  destruct (C10_normalized_is_substring
              [(useragent, JStr (u " Safari/1.0  "))] eq_refl)
    as (_ & (cleaned & Hat & Hsub) & _).
  exists cleaned. split; [|exact Hsub].
  exact (Hat [[(useragent, JStr (u "Chrome "))]] [[(u "version", JInt 17)]]).
Defined.

(** ** C9 *)

Lemma startswith_space_false (s : str) :
  startswith_space s = false <-> no_leading is_space_char s.
Proof.
  split.
  - intros H c r ->. exact H.
  - intros H. destruct s as [|c r]; [reflexivity|]. apply (H c r eq_refl).
Qed.

Lemma existsb_false_Forall (A : Type) (p : A -> bool) (l : list A) :
  existsb p l = false <-> Forall (fun x => p x = false) l.
Proof.
  induction l as [|a l IH]; simpl.
  - split; [constructor|reflexivity].
  - rewrite orb_false_iff, IH. split.
    + intros [Ha Hl]. now constructor.
    + intros H. inversion H; subst. now split.
Qed.

(** C9, as stated, fails for [simple_header_validator]: it accepts
    [a<TAB>b], which holds the control character U+0009. *)
Lemma C9_counterexample :
  Oswe.simple_header_validator (JStr [97; 9; 98]%N) = true
  /\ Gpt._fallback_validator [97; 9; 98]%N = Raise (ValueError ControlCharacter).
Proof. split; reflexivity. Qed.

(** C9 (amended): [_fallback_validator] accepts a string exactly when it
    has no leading space, no trailing space and no character below U+0020
    or equal to U+007F; [simple_header_validator] accepts a string exactly
    when it has no leading space, no trailing space and none of the
    characters CR, LF and NUL. *)
Theorem C9_fallback_validators (ua : str) :
  (Gpt._fallback_validator ua = Ok tt
   <-> no_leading is_space_char ua /\ no_trailing is_space_char ua
       /\ Forall (fun ch => (32 <= ch)%N /\ ch <> 127%N) ua)
  /\ (Oswe.simple_header_validator (JStr ua) = true
      <-> no_leading is_space_char ua /\ no_trailing is_space_char ua
          /\ ~ In 13%N ua /\ ~ In 10%N ua /\ ~ In 0%N ua).
Proof.
  rewrite <- startswith_space_false, <- endswith_space_false. split.
  - unfold Gpt._fallback_validator.
    destruct (startswith_space ua), (endswith_space ua); simpl;
      try (split; [discriminate|intros (? & ? & _); discriminate]).
    destruct (existsb _ ua) eqn:E.
    + split; [discriminate|]. intros (_ & _ & H).
      apply existsb_exists in E as (ch & Hin & Hch).
      rewrite Forall_forall in H. destruct (H ch Hin) as [H1 H2].
      apply orb_true_iff in Hch as [Hch|Hch].
      * apply N.ltb_lt in Hch. lia.
      * apply N.eqb_eq in Hch. contradiction.
    + split; [|reflexivity]. intros _. repeat split.
      apply existsb_false_Forall in E. rewrite Forall_forall in *.
      intros ch Hin. specialize (E ch Hin). apply orb_false_iff in E as [E1 E2].
      apply N.ltb_ge in E1. apply N.eqb_neq in E2. now split.
  - unfold Oswe.simple_header_validator.
    destruct (startswith_space ua), (endswith_space ua); simpl;
      try (split; [discriminate|intros (? & ? & _); discriminate]).
    rewrite !orb_false_r.
    destruct (existsb (N.eqb 13) ua) eqn:E13; simpl.
    { split; [discriminate|]. intros (_ & _ & H & _). exfalso. apply H.
      apply existsb_exists in E13 as (x & Hin & Hx).
      apply N.eqb_eq in Hx. now subst x. }
    destruct (existsb (N.eqb 10) ua) eqn:E10; simpl.
    { split; [discriminate|]. intros (_ & _ & _ & H & _). exfalso. apply H.
      apply existsb_exists in E10 as (x & Hin & Hx).
      apply N.eqb_eq in Hx. now subst x. }
    destruct (existsb (N.eqb 0) ua) eqn:E0; simpl.
    { split; [discriminate|]. intros (_ & _ & _ & _ & H). exfalso. apply H.
      apply existsb_exists in E0 as (x & Hin & Hx).
      apply N.eqb_eq in Hx. now subst x. }
    split; [|reflexivity]. intros _.
    rewrite existsb_false_Forall, Forall_forall in E13, E10, E0.
    repeat split; intros Hin.
    + specialize (E13 _ Hin). now rewrite N.eqb_refl in E13.
    + specialize (E10 _ Hin). now rewrite N.eqb_refl in E10.
    + specialize (E0 _ Hin). now rewrite N.eqb_refl in E0.
Qed.

(** [simple_header_validator] rejects what is not a string. *)
Lemma simple_header_validator_str (v : json) :
  Oswe.simple_header_validator v = true -> exists ua, v = JStr ua.
Proof. destruct v; try discriminate. intros _. now exists s. Qed.

(** ** C2 *)

Lemma is_space_char_isspace (c : N) : is_space_char c = true -> isspace c = true.
Proof. unfold is_space_char. intros H. apply N.eqb_eq in H. now subst c. Qed.

Lemma no_trailing_weaken (p q : N -> bool) (s : str) :
  (forall c, q c = true -> p c = true) -> no_trailing p s -> no_trailing q s.
Proof.
  intros Hpq H r c E. specialize (H r c E).
  destruct (q c) eqn:Hq; [|reflexivity]. apply Hpq in Hq. congruence.
Qed.

Lemma rstrip_no_trailing_space (s : str) : endswith_space (rstrip s) = false.
Proof.
  apply endswith_space_false.
  apply (no_trailing_weaken (p := isspace)); [apply is_space_char_isspace|].
  apply rstrip_by_no_trailing.
Qed.





(** ** C3 *)

Lemma fix_file_loop_malformed (pre : list str) :
  forall idx records fixed_count bad post exc,
    forallb Gpt.line_accepted pre = true ->
    is_blank bad = false ->
    json_loads bad = Raise (JSONDecodeError exc) ->
    Gpt.fix_file_loop idx (pre ++ bad :: post) records fixed_count
    = Raise (ValueError (InvalidJSONOnLine (idx + List.length pre) exc)).
Proof.
  induction pre as [|line pre IH]; intros idx records n bad post exc Hpre Hb Hj.
  - simpl. now rewrite Hb, Hj, Nat.add_0_r.
  - simpl in Hpre. apply andb_true_iff in Hpre as [Hline Hpre].
    simpl. unfold Gpt.line_accepted in Hline.
    replace (idx + S (List.length pre)) with (S idx + List.length pre) by lia.
    destruct (is_blank line); [now apply IH|].
    simpl in Hline.
    destruct (json_loads line) as [payload|]; [|discriminate].
    destruct (Gpt._clean_record payload) as [[cleaned changed]|];
      [|discriminate].
    now apply IH.
Qed.

Lemma load_jsonl_loop_malformed (pre : list str) :
  forall idx records bad post exc,
    forallb Gpt.line_loaded pre = true ->
    is_blank bad = false ->
    json_loads bad = Raise (JSONDecodeError exc) ->
    Gpt.load_jsonl_loop idx (pre ++ bad :: post) records
    = Raise (ValueError (InvalidJSONOnLine (idx + List.length pre) exc)).
Proof.
  induction pre as [|line pre IH]; intros idx records bad post exc Hpre Hb Hj.
  - simpl. now rewrite Hb, Hj, Nat.add_0_r.
  - simpl in Hpre. apply andb_true_iff in Hpre as [Hline Hpre].
    simpl. unfold Gpt.line_loaded in Hline.
    replace (idx + S (List.length pre)) with (S idx + List.length pre) by lia.
    destruct (is_blank line); [now apply IH|].
    simpl in Hline.
    destruct (json_loads line) as [payload|]; [|discriminate].
    now apply IH.
Qed.

Lemma fix_browsers_json_loop_error_count (lines : list str) :
  forall st fixed_lines,
    Opus.fix_browsers_json_loop lines
      (Opus.mkStats (Opus.total_uas st) (Opus.fixed_uas st)
         (Opus.unchanged_uas st) (S (Opus.errors st)))
      fixed_lines
    = Opus.one_more_error (Opus.fix_browsers_json_loop lines st fixed_lines).
Proof.
  induction lines as [|line rest IH]; intros st fl; simpl; [reflexivity|].
  destruct (strip line) as [|c l]; [apply IH|].
  destruct (json_loads (c :: l)) as [[| | | | | |data]|[]]; try reflexivity.
  - destruct (dict_get_default data useragent (JStr [])) as [| | | |ua| |];
      try reflexivity.
    destruct (endswith_space ua).
    + exact (IH (Opus.mkStats _ _ _ _) _).
    + exact (IH (Opus.mkStats _ _ _ _) _).
  - exact (IH (Opus.mkStats _ _ _ _) _).
Qed.

Lemma fix_browsers_json_loop_skips (pre : list str) :
  forall bad post exc st fixed_lines,
    strip bad <> [] ->
    json_loads (strip bad) = Raise (JSONDecodeError exc) ->
    Opus.fix_browsers_json_loop (pre ++ bad :: post) st fixed_lines
    = Opus.one_more_error
        (Opus.fix_browsers_json_loop (pre ++ post) st fixed_lines).
Proof.
  induction pre as [|line pre IH]; intros bad post exc st fl Hne Hj.
  - simpl. destruct (strip bad) as [|c l]; [congruence|]. rewrite Hj.
    apply fix_browsers_json_loop_error_count.
  - simpl. destruct (strip line) as [|c l]; [now apply (IH _ _ exc)|].
    destruct (json_loads (c :: l)) as [[| | | | | |data]|[]]; try reflexivity.
    + destruct (dict_get_default data useragent (JStr [])) as [| | | |ua| |];
        try reflexivity.
      destruct (endswith_space ua); now apply (IH _ _ exc).
    + now apply (IH _ _ exc).
Qed.

(** C3, as stated, fails for [fix_browsers_json]: the second scenario line
    [{"useragent": "X",}] is not valid JSON, and the run succeeds with one
    error counted and the other record written. *)
Lemma C3_counterexample :
  json_loads (J "{'useragent': 'X',}")
  = Raise (JSONDecodeError ExpectingPropertyName)
  /\ Opus.fix_browsers_json
       (Some (J "{'useragent': 'X',}" ++ [10%N] ++ J "{'useragent': 'Y'}"))
     = Ok (Opus.mkStats 1 0 1 1, J "{'useragent': 'Y'}").
Proof. split; vm_compute; reflexivity. Qed.

(** C3 (amended): in [fix_file] and in [load_jsonl], when the lines before
    it pass, a non-blank line that is not valid JSON stops the run with a
    [ValueError] that carries that line's 1-based number and the parser's
    diagnostic, and nothing is returned or written; [fix_browsers_json]
    instead counts the line in [errors], skips it and goes on with the
    lines that follow. *)
Theorem C3_malformed_line :
  (forall pre bad post exc text,
      splitlines (universal_newlines text) = pre ++ bad :: post ->
      forallb Gpt.line_accepted pre = true ->
      is_blank bad = false ->
      json_loads bad = Raise (JSONDecodeError exc) ->
      Gpt.fix_file (Some text)
      = Raise (ValueError (InvalidJSONOnLine (S (List.length pre)) exc)))
  /\ (forall pre bad post exc text,
      splitlines (universal_newlines text) = pre ++ bad :: post ->
      forallb Gpt.line_loaded pre = true ->
      is_blank bad = false ->
      json_loads bad = Raise (JSONDecodeError exc) ->
      Gpt.load_jsonl (Some text)
      = Raise (ValueError (InvalidJSONOnLine (S (List.length pre)) exc)))
  /\ (forall pre bad post exc st fixed_lines,
      strip bad <> [] ->
      json_loads (strip bad) = Raise (JSONDecodeError exc) ->
      Opus.fix_browsers_json_loop (pre ++ bad :: post) st fixed_lines
      = Opus.one_more_error
          (Opus.fix_browsers_json_loop (pre ++ post) st fixed_lines)).
Proof.
  repeat split.
  - intros pre bad post exc text Hl Hpre Hb Hj. unfold Gpt.fix_file.
    rewrite Hl. now rewrite fix_file_loop_malformed with (exc := exc).
  - intros pre bad post exc text Hl Hpre Hb Hj. unfold Gpt.load_jsonl.
    rewrite Hl. now rewrite load_jsonl_loop_malformed with (exc := exc).
  - intros pre bad post exc st fl. apply fix_browsers_json_loop_skips.
Qed.

(** The fourth scenario of the specification, as the third line of a file
    whose second line is blank. *)
Lemma C3_malformed_line_witness :
  Gpt.fix_file
    (Some (J "{'useragent': 'Safari/1.0'}" ++ [10; 10]%N
           ++ J "{'useragent': 'X',}" ++ [10%N] ++ J "{}"))
  = Raise (ValueError (InvalidJSONOnLine 3 ExpectingPropertyName))
  /\ Opus.fix_browsers_json_loop
       ([J "{'useragent': 'Safari/1.0'}"] ++ J "{'useragent': 'X',}" :: [J "{}"])
       (Opus.mkStats 0 0 0 0) []
     = Opus.one_more_error
         (Opus.fix_browsers_json_loop
            ([J "{'useragent': 'Safari/1.0'}"] ++ [J "{}"])
            (Opus.mkStats 0 0 0 0) []).
Proof.
  split.
  - apply (proj1 C3_malformed_line
             [J "{'useragent': 'Safari/1.0'}"; []] (J "{'useragent': 'X',}")
             [J "{}"]); vm_compute; reflexivity.
  - apply (proj2 (proj2 C3_malformed_line)) with (exc := ExpectingPropertyName).
    + vm_compute. discriminate.
    + vm_compute. reflexivity.
Defined.

(** A line that parses to something other than an object stops [fix_file]
    too, with the [AttributeError] of [record.get] and no line number. *)
Lemma fix_file_loop_non_object (pre : list str) :
  forall idx records fixed_count line post v,
    forallb Gpt.line_accepted pre = true ->
    is_blank line = false ->
    json_loads line = Ok v ->
    (forall d, v <> JDict d) ->
    Gpt.fix_file_loop idx (pre ++ line :: post) records fixed_count
    = Raise AttributeError.
Proof.
  induction pre as [|l pre IH]; intros idx records n line post v Hpre Hb Hj Hv.
  - simpl. rewrite Hb, Hj.
    destruct v; try reflexivity. now destruct (Hv d).
  - simpl in Hpre. apply andb_true_iff in Hpre as [Hline Hpre].
    simpl. unfold Gpt.line_accepted in Hline.
    destruct (is_blank l); [now apply (IH _ _ _ _ _ v)|].
    simpl in Hline.
    destruct (json_loads l) as [payload|]; [|discriminate].
    destruct (Gpt._clean_record payload) as [[cleaned changed]|];
      [|discriminate].
    now apply (IH _ _ _ _ _ v).
Qed.

(** ** C7 and C4: a line separator inside a string *)

(** C7 at a failing input: [fix_file] succeeds on the one-line source and
    [load_jsonl] reads one record from it, but the file [fix_file] wrote
    holds the character U+2028 unescaped ([ensure_ascii=False]), where
    [splitlines()] breaks the line: loading it raises instead of returning
    one record. *)
Lemma C7_count_lost_on_line_separator :
  Gpt.fix_file (Some Inputs.source_with_separator)
  = Ok (Inputs.target_with_separator, (1, 1, 0))
  /\ Gpt.load_jsonl (Some Inputs.source_with_separator)
     = Ok [JDict [(useragent, JStr [97; 8232; 98; 32]%N)]]
  /\ Gpt.load_jsonl (Some Inputs.target_with_separator)
     = Raise (ValueError (InvalidJSONOnLine 1 UnterminatedString)).
Proof. repeat split; vm_compute; reflexivity. Qed.

(** C4 at the same input: the second run of [fix_file], on the output of
    the first, raises instead of returning [fixed_count = 0]. *)
Lemma C4_second_run_fails_on_line_separator :
  Gpt.fix_file (Some Inputs.source_with_separator)
  = Ok (Inputs.target_with_separator, (1, 1, 0))
  /\ Gpt.fix_file (Some Inputs.target_with_separator)
     = Raise (ValueError (InvalidJSONOnLine 1 UnterminatedString)).
Proof. split; vm_compute; reflexivity. Qed.

(** *** What does hold: idempotence on records *)

Lemma fix_useragent_idem (r : dict) :
  Oswe.fix_useragent (fst (Oswe.fix_useragent r))
  = (fst (Oswe.fix_useragent r), false).
Proof.
  unfold Oswe.fix_useragent at 2 3.
  destruct (dict_get r useragent) as [[| | | |ua| |]|] eqn:E; simpl;
    try (unfold Oswe.fix_useragent; now rewrite E).
  unfold Oswe.fix_useragent. rewrite dict_get_set_same, dict_set_twice.
  rewrite !rstrip_chars_space, rstrip_by_idem. now rewrite str_eqb_refl.
Qed.

(** [fix_useragents] applied to its own result changes nothing and counts
    no fix. *)
Theorem fix_useragents_idempotent (records : list dict) :
  Oswe.fix_useragents (fst (Oswe.fix_useragents records))
  = (fst (Oswe.fix_useragents records), 0).
Proof.
  rewrite !fix_useragents_spec. simpl. rewrite map_map. f_equal.
  - apply map_ext. intros r. now rewrite fix_useragent_idem.
  - induction records as [|r rs IH]; simpl; [reflexivity|].
    now rewrite fix_useragent_idem.
Qed.

Lemma clean_record_stable (record : json) (d : dict) (changed : bool) :
  Gpt._clean_record record = Ok (d, changed) ->
  Gpt._clean_record (JDict d) = Ok (d, false).
Proof.
  intros H. apply clean_record_inv in H as (d0 & ua & -> & _ & -> & _).
  rewrite clean_record_present with (ua := strip ua).
  - now rewrite dict_set_twice, strip_idem, str_eqb_refl.
  - apply dict_get_set_same.
Qed.

(** [_clean_record] applied to a record it returned returns it again,
    with [changed = False]. *)
Theorem clean_record_idempotent (record : json) (d : dict) (changed : bool) :
  Gpt._clean_record record = Ok (d, changed) ->
  Gpt._clean_record (JDict d) = Ok (d, false).
Proof. apply clean_record_stable. Qed.

Lemma clean_record_idempotent_witness :
  Gpt._clean_record (JDict [(useragent, JStr (u "Safari/1.0"))])
  = Ok ([(useragent, JStr (u "Safari/1.0"))], false).
Proof.
  apply (@clean_record_idempotent
           (JDict [(useragent, JStr (u " Safari/1.0 "))]) _ true).
  vm_compute. reflexivity.
Defined.

(** *** What does hold: the records written are those loaded *)

(** When [fix_file] succeeds, [load_jsonl] succeeds on the same source and
    [fix_file] wrote one line per loaded record, in order, each the
    encoding of what [_clean_record] made of that record; [total] is their
    number and [fixed_count + unchanged = total]. *)
Theorem fix_file_writes_the_loaded_records
    (text target : str) (total fixed_count unchanged : nat) :
  Gpt.fix_file (Some text) = Ok (target, (total, fixed_count, unchanged)) ->
  exists payloads records,
    Gpt.load_jsonl (Some text) = Ok payloads
    /\ Forall2 (fun p r => exists changed, Gpt._clean_record p = Ok (r, changed))
         payloads records
    /\ target = flat_map (fun r => json_dumps (JDict r) ++ [10%N]) records
    /\ total = List.length payloads
    /\ fixed_count + unchanged = total.
Proof.
  unfold Gpt.fix_file, Gpt.load_jsonl.
  destruct (Gpt.fix_file_loop _ _ _ _) as [[records n]|] eqn:E; [|discriminate].
  apply (fix_file_loop_load _ _ _ _ []) in E
    as (payloads & cleaned & Hl & -> & Hall & _ & Hhi).
  unfold write_text. destruct (utf8_encodable _); [|discriminate].
  intros [= <- <- <- <-]. simpl in *. exists payloads, cleaned.
  pose proof (Forall2_length Hall) as Hlen.
  repeat split; try assumption; try lia.
  unfold Gpt.dump_lines. clear.
  induction cleaned as [|r rs IH]; [reflexivity|].
  cbn [List.map flat_map]. now rewrite IH.
Qed.

Lemma fix_file_writes_the_loaded_records_witness :
  exists payloads records,
    Gpt.load_jsonl (Some Inputs.source_with_separator) = Ok payloads
    /\ Forall2 (fun p r => exists changed, Gpt._clean_record p = Ok (r, changed))
         payloads records
    /\ Inputs.target_with_separator
       = flat_map (fun r => json_dumps (JDict r) ++ [10%N]) records
    /\ 1 = List.length payloads
    /\ 1 + 0 = 1.
Proof.
  apply (@fix_file_writes_the_loaded_records Inputs.source_with_separator).
  vm_compute. reflexivity.
Defined.

(** ** [json.loads] after [json.dumps] *)

(** *** Decimal digits *)

#[local] Arguments is_digit : simpl never.
#[local] Arguments is_json_ws : simpl never.
#[local] Arguments str_of_N : simpl never.

Lemma is_digit_spec (c : N) : is_digit c = true <-> (48 <= c <= 57)%N.
Proof.
  unfold is_digit. rewrite andb_true_iff, !N.leb_le. tauto.
Qed.

Lemma dec_digits_digits (f : nat) :
  forall n, forallb is_digit (dec_digits f n) = true.
Proof.
  induction f as [|f IH]; intros n; [reflexivity|].
  change (dec_digits (S f) n)
    with (if (n <? 10)%N then [(48 + n)%N]
          else dec_digits f (n / 10) ++ [(48 + n mod 10)%N]).
  destruct (n <? 10)%N eqn:E.
  - cbn [forallb]. rewrite andb_true_r. apply is_digit_spec.
    apply N.ltb_lt in E. lia.
  - rewrite forallb_app, IH. cbn [forallb andb]. rewrite andb_true_r.
    apply is_digit_spec.
    assert (n mod 10 < 10)%N as Hm by (apply N.mod_lt; discriminate).
    revert Hm. generalize (n mod 10)%N. intros m Hm. lia.
Qed.

Lemma div_mod_10 (n : N) : (10 * (n / 10) + (48 + n mod 10 - 48) = n)%N.
Proof.
  rewrite (N.add_comm 48), N.add_sub. symmetry. apply N.div_mod. discriminate.
Qed.

Lemma div_10_bound (n p : N) : (n < 2 * p -> n / 10 < p)%N.
Proof. intros H. apply N.Div0.div_lt_upper_bound. lia. Qed.

Lemma digits_value_snoc (ds : str) (c : N) :
  digits_value (ds ++ [c]) = (10 * digits_value ds + (c - 48))%N.
Proof. unfold digits_value. now rewrite fold_left_app. Qed.

Lemma dec_digits_value (f : nat) :
  forall n, (n < 2 ^ N.of_nat f)%N -> digits_value (dec_digits (S f) n) = n.
Proof.
  induction f as [|f IH]; intros n Hn.
  - assert (n = 0%N) as -> by (simpl in Hn; lia). reflexivity.
  - change (dec_digits (S (S f)) n)
      with (if (n <? 10)%N then [(48 + n)%N]
            else dec_digits (S f) (n / 10) ++ [(48 + n mod 10)%N]).
    destruct (n <? 10)%N eqn:E.
    + unfold digits_value. cbn [fold_left]. lia.
    + rewrite digits_value_snoc, IH; [apply div_mod_10|].
      rewrite Nat2N.inj_succ, N.pow_succ_r' in Hn. now apply div_10_bound.
Qed.

Lemma dec_digits_head (f : nat) :
  forall n, (n < 2 ^ N.of_nat f)%N -> (0 < n)%N ->
            exists c t, dec_digits (S f) n = c :: t /\ (49 <= c <= 57)%N.
Proof.
  induction f as [|f IH]; intros n Hn Hpos.
  - simpl in Hn. lia.
  - change (dec_digits (S (S f)) n)
      with (if (n <? 10)%N then [(48 + n)%N]
            else dec_digits (S f) (n / 10) ++ [(48 + n mod 10)%N]).
    destruct (n <? 10)%N eqn:E.
    + apply N.ltb_lt in E. exists (48 + n)%N, []. split; [reflexivity|lia].
    + apply N.ltb_ge in E.
      destruct (IH (n / 10)%N) as (c & t & Ht & Hc).
      * rewrite Nat2N.inj_succ, N.pow_succ_r' in Hn. now apply div_10_bound.
      * apply N.div_str_pos. lia.
      * rewrite Ht. now exists c, (t ++ [(48 + n mod 10)%N]).
Qed.

Lemma str_of_N_bound (n : N) : (n < 2 ^ N.of_nat (N.to_nat (N.size n)))%N.
Proof. rewrite N2Nat.id. apply N.size_gt. Qed.

Lemma str_of_N_digits (n : N) : forallb is_digit (str_of_N n) = true.
Proof. apply dec_digits_digits. Qed.

Lemma str_of_N_value (n : N) : digits_value (str_of_N n) = n.
Proof. apply dec_digits_value, str_of_N_bound. Qed.

Lemma str_of_N_zero : str_of_N 0 = [48%N].
Proof. reflexivity. Qed.

Lemma str_of_N_head (n : N) :
  (0 < n)%N -> exists c t, str_of_N n = c :: t /\ (49 <= c <= 57)%N.
Proof. apply dec_digits_head, str_of_N_bound. Qed.

Lemma span_digits_app (ds rest : str) :
  forallb is_digit ds = true ->
  match rest with [] => True | c :: _ => is_digit c = false end ->
  span_digits (ds ++ rest) = (ds, rest).
Proof.
  intros Hds Hrest. induction ds as [|d ds IH]; simpl.
  - destruct rest as [|c r]; simpl in *; [reflexivity|]. now rewrite Hrest.
  - simpl in Hds. apply andb_true_iff in Hds as [Hd Hds].
    now rewrite Hd, IH.
Qed.

(** *** Numbers *)

Lemma delimited_cases (rest : str) :
  delimited rest = true ->
  rest = [] \/ exists c r, rest = c :: r /\ (c = 44 \/ c = 93 \/ c = 125)%N.
Proof.
  destruct rest as [|c r]; [now left|]. simpl. intros H. right.
  exists c, r. split; [reflexivity|].
  apply orb_true_iff in H as [H|H]; [apply orb_true_iff in H as [H|H]|];
    apply N.eqb_eq in H; tauto.
Qed.

Lemma delimited_no_digit (rest : str) :
  delimited rest = true -> no_digit_head rest.
Proof.
  intros H. apply delimited_cases in H as [->|(c & r & -> & Hc)];
    [exact I|].
  simpl. destruct Hc as [->|[->| ->]]; reflexivity.
Qed.

Lemma scan_int_part_str_of_N (n : N) (rest : str) :
  no_digit_head rest ->
  scan_int_part (str_of_N n ++ rest) = Some (str_of_N n, rest).
Proof.
  intros Hrest. destruct (N.eq_dec n 0) as [->|Hn].
  - reflexivity.
  - destruct (@str_of_N_head n) as (c & t & E & Hc); [lia|].
    pose proof (str_of_N_digits n) as Hd.
    pose proof (span_digits_app (str_of_N n) rest Hd Hrest) as Hs.
    rewrite E in *. simpl app in *. unfold scan_int_part.
    replace (c =? 48)%N with false by (symmetry; apply N.eqb_neq; lia).
    replace (is_digit c) with true
      by (symmetry; apply is_digit_spec; lia).
    now rewrite Hs.
Qed.

Lemma scan_frac_none (s : str) :
  match s with [] => True | c :: _ => c <> 46%N end ->
  scan_frac s = ([], s).
Proof.
  destruct s as [|c r]; [reflexivity|]. intros H. unfold scan_frac.
  now replace (c =? 46)%N with false by (symmetry; now apply N.eqb_neq).
Qed.

Lemma scan_frac_some (frac rest : str) :
  frac <> [] -> forallb is_digit frac = true -> no_digit_head rest ->
  scan_frac (46%N :: frac ++ rest) = (frac, rest).
Proof.
  intros Hne Hd Hrest. unfold scan_frac. rewrite N.eqb_refl.
  rewrite (span_digits_app frac rest Hd Hrest).
  destruct frac; [congruence|reflexivity].
Qed.

Lemma scan_exp_none (s : str) :
  match s with [] => True | c :: _ => c <> 101%N /\ c <> 69%N end ->
  scan_exp s = (None, s).
Proof.
  destruct s as [|c r]; [reflexivity|]. intros [H1 H2]. unfold scan_exp.
  replace (c =? 101)%N with false by (symmetry; now apply N.eqb_neq).
  now replace (c =? 69)%N with false by (symmetry; now apply N.eqb_neq).
Qed.

Lemma scan_exp_some (eneg : bool) (ds rest : str) :
  ds <> [] -> forallb is_digit ds = true -> no_digit_head rest ->
  scan_exp (101%N :: (if eneg then 45%N else 43%N) :: ds ++ rest)
  = (Some (eneg, ds), rest).
Proof.
  intros Hne Hd Hrest.
  destruct eneg; unfold scan_exp; simpl;
    rewrite (span_digits_app ds rest Hd Hrest);
    destruct ds; simpl; solve [reflexivity | congruence].
Qed.

Lemma delimited_not_dot (rest : str) :
  delimited rest = true -> match rest with [] => True | c :: _ => c <> 46%N end.
Proof.
  intros H. apply delimited_cases in H as [->|(c & r & -> & Hc)]; [exact I|].
  destruct Hc as [->|[->| ->]]; discriminate.
Qed.

Lemma delimited_not_exp (rest : str) :
  delimited rest = true ->
  match rest with [] => True | c :: _ => c <> 101%N /\ c <> 69%N end.
Proof.
  intros H. apply delimited_cases in H as [->|(c & r & -> & Hc)]; [exact I|].
  destruct Hc as [->|[->| ->]]; split; discriminate.
Qed.

(** The text of a natural number does not start with a minus sign. *)
Lemma str_of_N_cons (n : N) :
  exists c t, str_of_N n = c :: t /\ (48 <= c <= 57)%N.
Proof.
  destruct (N.eq_dec n 0) as [->|Hn].
  - exists 48%N, []. split; [reflexivity|lia].
  - destruct (@str_of_N_head n) as (c & t & E & Hc); [lia|].
    exists c, t. split; [assumption|lia].
Qed.

Lemma match_number_nat (n : N) (rest : str) :
  delimited rest = true ->
  match_number (str_of_N n ++ rest) = Some (JInt (Z.of_N n), rest).
Proof.
  intros Hrest. unfold match_number.
  destruct (str_of_N_cons n) as (c & t & E & Hc).
  pose proof (scan_int_part_str_of_N n rest (delimited_no_digit _ Hrest)) as Hi.
  pose proof (str_of_N_value n) as Hv.
  rewrite E in *. simpl app in *.
  cbv beta iota.
  destruct (N.eqb_spec c 45) as [Hc45|Hc45]; [exfalso; lia|].
  rewrite Hi.
  rewrite scan_frac_none by now apply delimited_not_dot.
  rewrite scan_exp_none by now apply delimited_not_exp.
  now rewrite Hv.
Qed.

Lemma match_number_int (z : Z) (rest : str) :
  delimited rest = true ->
  match_number (int_repr z ++ rest) = Some (JInt z, rest).
Proof.
  intros Hrest. destruct z as [|p|p]; unfold int_repr.
  - apply (match_number_nat 0 rest Hrest).
  - apply (match_number_nat (Npos p) rest Hrest).
  - unfold match_number. simpl app. cbv beta iota.
    rewrite N.eqb_refl. cbv beta iota.
    rewrite scan_int_part_str_of_N by now apply delimited_no_digit.
    rewrite scan_frac_none by now apply delimited_not_dot.
    rewrite scan_exp_none by now apply delimited_not_exp.
    now rewrite str_of_N_value.
Qed.

Lemma float_repr_text (neg : bool) (ipart : N) (frac : str)
    (exp : option (bool * str)) :
  float_repr (FDec neg ipart frac exp)
  = (if neg then [45%N] else [])
    ++ str_of_N ipart ++ frac_text frac ++ exp_text exp.
Proof. reflexivity. Qed.

Lemma wf_float_inv (neg : bool) (ipart : N) (frac : str)
    (exp : option (bool * str)) :
  wf_float (FDec neg ipart frac exp) = true ->
  forallb is_digit frac = true
  /\ match exp with
     | None => frac <> []
     | Some (_, ds) => forallb is_digit ds = true /\ ds <> []
     end.
Proof.
  simpl. intros H. apply andb_true_iff in H as [Hf He]. split; [assumption|].
  destruct exp as [[eneg ds]|].
  - apply andb_true_iff in He as [Hd Hne]. split; [assumption|].
    now destruct ds.
  - now destruct frac.
Qed.

Lemma scan_exp_text (exp : option (bool * str)) (rest : str) :
  match exp with
  | None => True
  | Some (_, ds) => forallb is_digit ds = true /\ ds <> []
  end ->
  delimited rest = true ->
  scan_exp (exp_text exp ++ rest) = (exp, rest).
Proof.
  intros He Hrest. destruct exp as [[eneg ds]|]; simpl exp_text.
  - destruct He as [Hd Hne]. simpl app.
    apply scan_exp_some; try assumption. now apply delimited_no_digit.
  - apply scan_exp_none. now apply delimited_not_exp.
Qed.

Lemma exp_text_head (exp : option (bool * str)) (rest : str) :
  delimited rest = true ->
  no_digit_head (exp_text exp ++ rest)
  /\ match exp_text exp ++ rest with [] => True | c :: _ => c <> 46%N end.
Proof.
  intros Hrest. destruct exp as [[eneg ds]|]; simpl.
  - split; [reflexivity|discriminate].
  - split; [now apply delimited_no_digit|now apply delimited_not_dot].
Qed.

Lemma scan_frac_text (frac tail : str) :
  forallb is_digit frac = true ->
  no_digit_head tail ->
  match tail with [] => True | c :: _ => c <> 46%N end ->
  scan_frac (frac_text frac ++ tail) = (frac, tail).
Proof.
  intros Hd Ht Hdot. destruct frac as [|d frac].
  - simpl. now apply scan_frac_none.
  - apply (@scan_frac_some (d :: frac) tail); [discriminate|assumption..].
Qed.

Lemma frac_text_head (frac tail : str) :
  no_digit_head tail -> no_digit_head (frac_text frac ++ tail).
Proof. destruct frac; [trivial|reflexivity]. Qed.

Lemma match_number_float (neg : bool) (ipart : N) (frac : str)
    (exp : option (bool * str)) (rest : str) :
  wf_float (FDec neg ipart frac exp) = true ->
  delimited rest = true ->
  match_number (float_repr (FDec neg ipart frac exp) ++ rest)
  = Some (JFloat (FDec neg ipart frac exp), rest).
Proof.
  intros Hwf Hrest. apply wf_float_inv in Hwf as [Hf He].
  destruct (@exp_text_head exp rest Hrest) as [Hnd Hdot].
  assert (scan_int_part
            (str_of_N ipart ++ frac_text frac ++ exp_text exp ++ rest)
          = Some (str_of_N ipart, frac_text frac ++ exp_text exp ++ rest))
    as Hi by (apply scan_int_part_str_of_N; now apply frac_text_head).
  assert (scan_frac (frac_text frac ++ exp_text exp ++ rest)
          = (frac, exp_text exp ++ rest))
    as Hfr by now apply scan_frac_text.
  assert (scan_exp (exp_text exp ++ rest) = (exp, rest)) as Hex.
  { apply scan_exp_text; [|assumption]. now destruct exp as [[? ?]|]. }
  assert (match frac, exp with
          | [], None =>
              Some (JInt (if neg
                          then (- Z.of_N (digits_value (str_of_N ipart)))%Z
                          else Z.of_N (digits_value (str_of_N ipart))), rest)
          | _, _ =>
              Some (JFloat (FDec neg (digits_value (str_of_N ipart)) frac exp),
                    rest)
          end = Some (JFloat (FDec neg ipart frac exp), rest)) as Hres.
  { rewrite str_of_N_value. destruct frac; [|reflexivity].
    destruct exp; [reflexivity|congruence]. }
  rewrite float_repr_text, <- !app_assoc. unfold match_number.
  destruct neg.
  - simpl app. cbv beta iota. rewrite N.eqb_refl. cbv beta iota.
    now rewrite Hi, Hfr, Hex.
  - simpl app. destruct (str_of_N_cons ipart) as (c & t & E & Hc).
    rewrite E in *. simpl app in *. cbv beta iota.
    destruct (N.eqb_spec c 45) as [Hc45|Hc45]; [exfalso; lia|].
    now rewrite Hi, Hfr, Hex.
Qed.

(** *** Strings *)

Lemma scanstring_escape_small (c : N) (tail : str) :
  (c < 32)%N -> tail <> [] ->
  scanstring (escape_char c ++ tail) = cons_char c (scanstring tail).
Proof.
  intros Hc Ht. destruct tail as [|t0 tail]; [congruence|].
  destruct c as [|p]; [reflexivity|].
  destruct p as [p|p|]; try reflexivity;
    (destruct p as [p|p|]; try reflexivity;
     (destruct p as [p|p|]; try reflexivity;
      (destruct p as [p|p|]; try reflexivity;
       (destruct p as [p|p|]; try reflexivity; exfalso; lia)))).
Qed.

Lemma scanstring_escape_large (c : N) (tail : str) :
  (32 <= c)%N ->
  scanstring (escape_char c ++ tail) = cons_char c (scanstring tail).
Proof.
  intros Hc. unfold escape_char.
  destruct (N.eqb_spec c 34) as [->|H34]; [reflexivity|].
  destruct (N.eqb_spec c 92) as [->|H92]; [reflexivity|].
  destruct (N.eqb_spec c 10); [lia|].
  destruct (N.eqb_spec c 13); [lia|].
  destruct (N.eqb_spec c 9); [lia|].
  destruct (N.eqb_spec c 12); [lia|].
  destruct (N.eqb_spec c 8); [lia|].
  destruct (N.ltb_spec c 32); [lia|].
  simpl app. cbn [scanstring].
  destruct (N.eqb_spec c 34); [contradiction|].
  destruct (N.eqb_spec c 92); [contradiction|].
  destruct (N.leb_spec c 31); [lia|reflexivity].
Qed.

Lemma scanstring_escape (c : N) (tail : str) :
  tail <> [] ->
  scanstring (escape_char c ++ tail) = cons_char c (scanstring tail).
Proof.
  intros Ht. destruct (N.lt_ge_cases c 32).
  - now apply scanstring_escape_small.
  - now apply scanstring_escape_large.
Qed.

(** [scanstring] reads back what [encode_basestring] wrote. *)
Lemma scanstring_encode (s rest : str) :
  scanstring (flat_map escape_char s ++ 34%N :: rest) = Ok (s, rest).
Proof.
  induction s as [|c s IH]; [reflexivity|].
  simpl flat_map. rewrite <- app_assoc, scanstring_escape, IH.
  - reflexivity.
  - destruct (flat_map escape_char s); discriminate.
Qed.

(** *** Values *)

Unset Implicit Arguments.

Lemma json_ind' (P : json -> Prop) :
  P JNull ->
  (forall b, P (JBool b)) ->
  (forall z, P (JInt z)) ->
  (forall f, P (JFloat f)) ->
  (forall s, P (JStr s)) ->
  (forall l, Forall P l -> P (JList l)) ->
  (forall d, Forall (fun kv => P (snd kv)) d -> P (JDict d)) ->
  forall v, P v.
Proof.
  intros Hn Hb Hi Hf Hs Hl Hd. fix IH 1. intros [|b|z|f|s|l|d].
  - exact Hn.
  - apply Hb.
  - apply Hi.
  - apply Hf.
  - apply Hs.
  - apply Hl. induction l as [|x l IHl]; constructor; [apply IH|exact IHl].
  - apply Hd. induction d as [|[k x] d IHd]; constructor; [apply IH|exact IHd].
Qed.

Lemma is_value_start_cases (c : N) :
  is_value_start c = true ->
  (48 <= c <= 57)%N
  \/ In c [45; 34; 91; 123; 110; 116; 102; 78; 73]%N.
Proof.
  unfold is_value_start. intros H. apply orb_true_iff in H as [H|H].
  - left. now apply is_digit_spec.
  - right. apply existsb_exists in H as (x & Hin & Hx).
    apply N.eqb_eq in Hx. now subst x.
Qed.

Lemma is_value_start_not_ws (c : N) :
  is_value_start c = true -> is_json_ws c = false.
Proof.
  intros H. unfold is_json_ws.
  apply is_value_start_cases in H as [H|H].
  - repeat (apply orb_false_iff; split); apply N.eqb_neq; lia.
  - simpl in H. repeat (destruct H as [<-|H]; [reflexivity|]). contradiction.
Qed.

Lemma is_value_start_not_close (c : N) :
  is_value_start c = true -> c <> 93%N /\ c <> 125%N /\ c <> 65279%N.
Proof.
  intros H. apply is_value_start_cases in H as [H|H].
  - lia.
  - simpl in H.
    repeat (destruct H as [<-|H]; [repeat split; discriminate|]).
    contradiction.
Qed.

Lemma skip_ws_start (c : N) (r : str) :
  is_json_ws c = false -> skip_ws (c :: r) = c :: r.
Proof. intros H. unfold skip_ws. simpl. now rewrite H. Qed.

Lemma str_of_N_start (n : N) (tail : str) :
  exists c t, str_of_N n ++ tail = c :: t /\ is_digit c = true.
Proof.
  destruct (str_of_N_cons n) as (c & t & E & Hc).
  exists c, (t ++ tail). rewrite E. split; [reflexivity|].
  now apply is_digit_spec.
Qed.

Lemma json_dumps_start (v : json) :
  exists c t, json_dumps v = c :: t /\ is_value_start c = true.
Proof.
  destruct v as [|[|]|z|f|s|l|d]; try (eexists _, _; split; reflexivity).
  - simpl. destruct z as [|p|p]; unfold int_repr.
    + eexists _, _; split; reflexivity.
    + destruct (str_of_N_start (Npos p) []) as (c & t & E & Hc).
      rewrite app_nil_r in E. exists c, t. split; [assumption|].
      unfold is_value_start. now rewrite Hc.
    + eexists _, _; split; reflexivity.
  - destruct f as [| | |neg ipart frac exp];
      try (eexists _, _; split; reflexivity).
    simpl. destruct neg; [eexists _, _; split; reflexivity|].
    destruct (str_of_N_start ipart (frac_text frac ++ exp_text exp))
      as (c & t & E & Hc).
    exists c, t. split; [assumption|].
    unfold is_value_start. now rewrite Hc.
Qed.

(** A number is none of the constants [scan_once] tries first. *)
Lemma scan_constant_digit (c : N) (r : str) :
  is_digit c = true -> scan_constant (c :: r) = match_number (c :: r).
Proof.
  intros H. apply is_digit_spec in H. unfold scan_constant.
  cbn [strip_prefix u List.map list_ascii_of_string].
  replace (N_of_ascii "n" =? c)%N with false
    by (symmetry; apply N.eqb_neq; cbv; lia).
  replace (N_of_ascii "t" =? c)%N with false
    by (symmetry; apply N.eqb_neq; cbv; lia).
  replace (N_of_ascii "f" =? c)%N with false
    by (symmetry; apply N.eqb_neq; cbv; lia).
  replace (N_of_ascii "N" =? c)%N with false
    by (symmetry; apply N.eqb_neq; cbv; lia).
  replace (N_of_ascii "I" =? c)%N with false
    by (symmetry; apply N.eqb_neq; cbv; lia).
  replace (N_of_ascii "-" =? c)%N with false
    by (symmetry; apply N.eqb_neq; cbv; lia).
  reflexivity.
Qed.

Lemma scan_constant_minus_digit (c : N) (r : str) :
  is_digit c = true ->
  scan_constant (45%N :: c :: r) = match_number (45%N :: c :: r).
Proof.
  intros H. apply is_digit_spec in H. unfold scan_constant.
  cbn [strip_prefix u List.map list_ascii_of_string].
  change (N_of_ascii "n" =? 45)%N with false.
  change (N_of_ascii "t" =? 45)%N with false.
  change (N_of_ascii "f" =? 45)%N with false.
  change (N_of_ascii "N" =? 45)%N with false.
  change (N_of_ascii "I" =? 45)%N with false.
  change (N_of_ascii "-" =? 45)%N with true.
  cbv beta iota.
  replace (N_of_ascii "I" =? c)%N with false
    by (symmetry; apply N.eqb_neq; cbv; lia).
  reflexivity.
Qed.

Lemma scan_once_digit (f : nat) (c : N) (r : str) (x : json * str) :
  is_digit c = true ->
  match_number (c :: r) = Some x ->
  scan_once (S f) (c :: r) = Ok x.
Proof.
  intros Hc Hm. pose proof (scan_constant_digit c r Hc) as Hs.
  apply is_digit_spec in Hc. cbn [scan_once].
  destruct (N.eqb_spec c 34); [lia|].
  destruct (N.eqb_spec c 123); [lia|].
  destruct (N.eqb_spec c 91); [lia|].
  now rewrite Hs, Hm.
Qed.

Lemma scan_once_minus_digit (f : nat) (c : N) (r : str) (x : json * str) :
  is_digit c = true ->
  match_number (45%N :: c :: r) = Some x ->
  scan_once (S f) (45%N :: c :: r) = Ok x.
Proof.
  intros Hc Hm. pose proof (scan_constant_minus_digit c r Hc) as Hs.
  cbn [scan_once]. change (45 =? 34)%N with false.
  change (45 =? 123)%N with false. change (45 =? 91)%N with false.
  cbv beta iota. now rewrite Hs, Hm.
Qed.

Lemma scan_once_int (f : nat) (z : Z) (rest : str) :
  delimited rest = true ->
  scan_once (S f) (int_repr z ++ rest) = Ok (JInt z, rest).
Proof.
  intros Hrest. pose proof (@match_number_int z rest Hrest) as Hm.
  destruct z as [|p|p]; unfold int_repr in *.
  - destruct (str_of_N_start (Z.to_N 0) rest) as (c & t & E & Hc).
    rewrite E in *. now apply scan_once_digit.
  - destruct (str_of_N_start (Z.to_N (Zpos p)) rest) as (c & t & E & Hc).
    rewrite E in *. now apply scan_once_digit.
  - destruct (str_of_N_start (Npos p) rest) as (c & t & E & Hc).
    simpl app in *. rewrite E in *. now apply scan_once_minus_digit.
Qed.

Lemma scan_once_float (f : nat) (x : float_lit) (rest : str) :
  wf_float x = true ->
  delimited rest = true ->
  scan_once (S f) (float_repr x ++ rest) = Ok (JFloat x, rest).
Proof.
  intros Hwf Hrest. destruct x as [| | |neg ipart frac exp];
    try reflexivity.
  pose proof (@match_number_float neg ipart frac exp rest Hwf Hrest) as Hm.
  rewrite float_repr_text in *. rewrite <- !app_assoc in *.
  destruct (str_of_N_start ipart (frac_text frac ++ exp_text exp ++ rest))
    as (c & t & E & Hc).
  destruct neg; simpl app in *; rewrite E in *.
  - now apply scan_once_minus_digit.
  - now apply scan_once_digit.
Qed.

Lemma scan_once_str (f : nat) (s rest : str) :
  scan_once (S f) (encode_basestring s ++ rest) = Ok (JStr s, rest).
Proof.
  unfold encode_basestring. simpl app. cbn [scan_once].
  rewrite N.eqb_refl, <- app_assoc. simpl app.
  now rewrite scanstring_encode.
Qed.

(** *** Arrays and objects *)

Lemma join_cons (sep p : str) (q : str) (ps : list str) :
  join sep (p :: q :: ps) = p ++ sep ++ join sep (q :: ps).
Proof. reflexivity. Qed.

Lemma dict_get_app_none (a b : dict) (k : str) :
  dict_get a k = None -> dict_get (a ++ b) k = dict_get b k.
Proof.
  induction a as [|[k' v'] a IH]; simpl; [reflexivity|].
  destruct (str_eqb k' k); [discriminate|assumption].
Qed.

Lemma dict_of_pairs_distinct (pairs : list (str * json)) :
  forall acc,
    (forall k, In k (List.map fst pairs) -> dict_get acc k = None) ->
    distinct (List.map fst pairs) = true ->
    dict_of_pairs acc pairs = acc ++ pairs.
Proof.
  unfold dict_of_pairs.
  induction pairs as [|[k v] pairs IH]; intros acc Hacc Hd; simpl.
  - now rewrite app_nil_r.
  - simpl in Hd. apply andb_true_iff in Hd as [Hk Hd].
    rewrite dict_set_absent by (apply Hacc; now left).
    rewrite IH; [now rewrite <- app_assoc| |assumption].
    intros k' Hin. rewrite dict_get_app_none by (apply Hacc; now right).
    simpl. destruct (str_eqb k k') eqn:E; [|reflexivity].
    apply negb_true_iff in Hk.
    assert (existsb (str_eqb k) (List.map fst pairs) = true) as Hx
      by (apply existsb_exists; now exists k').
    congruence.
Qed.

Lemma skip_ws_space (s : str) : skip_ws (32%N :: s) = skip_ws s.
Proof. reflexivity. Qed.

Lemma skip_ws_value (v : json) (tail : str) :
  skip_ws (json_dumps v ++ tail) = json_dumps v ++ tail.
Proof.
  destruct (json_dumps_start v) as (c & t & E & Hc). rewrite E. simpl app.
  apply skip_ws_start. now apply is_value_start_not_ws.
Qed.

Lemma skip_ws_delimited (tail : str) :
  delimited tail = true -> skip_ws tail = tail.
Proof.
  intros H. apply delimited_cases in H as [->|(c & r & -> & Hc)];
    [reflexivity|].
  apply skip_ws_start. destruct Hc as [->|[->| ->]]; reflexivity.
Qed.

Lemma elements_text (e : json) (es : list json) (rest : str) :
  join item_separator (List.map json_dumps (e :: es)) ++ 93%N :: rest
  = json_dumps e ++ elements_tail es rest.
Proof.
  destruct es as [|e2 es]; [reflexivity|].
  cbn [List.map]. rewrite join_cons. unfold elements_tail, item_separator.
  now rewrite <- !app_assoc.
Qed.

Lemma elements_tail_delimited (es : list json) (rest : str) :
  delimited (elements_tail es rest) = true.
Proof. destruct es; reflexivity. Qed.

Lemma parse_array_elements (es : list json) :
  Forall reads_back es ->
  forallb wf_json es = true ->
  forall e, reads_back e -> wf_json e = true ->
  forall acc fuel rest,
    2 * List.length (json_dumps e ++ elements_tail es rest) + 1 < fuel ->
    parse_array fuel (json_dumps e ++ elements_tail es rest) acc
    = Ok (JList (acc ++ e :: es), rest).
Proof.
  induction es as [|e2 es IH]; intros Hall Hwf e He Hwe acc fuel rest Hfuel.
  - destruct fuel as [|f]; [lia|]. cbn [parse_array].
    rewrite (He Hwe f (elements_tail [] rest)); [|reflexivity|lia].
    reflexivity.
  - destruct fuel as [|f]; [lia|]. cbn [parse_array].
    rewrite (He Hwe f (elements_tail (e2 :: es) rest)); [|reflexivity|lia].
    rewrite skip_ws_delimited by reflexivity.
    unfold elements_tail at 1. change (44 =? 93)%N with false.
    change (44 =? 44)%N with true. cbv beta iota.
    rewrite skip_ws_space, elements_text, skip_ws_value.
    inversion Hall as [|? ? He2 Hes]; subst.
    cbn [forallb] in Hwf. apply andb_true_iff in Hwf as [Hw2 Hwes].
    rewrite (IH Hes Hwes e2 He2 Hw2).
    + now rewrite <- app_assoc.
    + unfold elements_tail at 1 in Hfuel. rewrite elements_text in Hfuel. len.
Qed.

Lemma members_text (kv : str * json) (d : dict) (rest : str) :
  join item_separator (List.map member_text (kv :: d)) ++ 125%N :: rest
  = 34%N :: flat_map escape_char (fst kv)
    ++ 34%N :: 58%N :: 32%N :: json_dumps (snd kv) ++ members_tail d rest.
Proof.
  assert (forall tail,
             member_text kv ++ tail
             = 34%N :: flat_map escape_char (fst kv)
               ++ 34%N :: 58%N :: 32%N :: json_dumps (snd kv) ++ tail) as H.
  { intros tail. unfold member_text, encode_basestring, key_separator.
    simpl app. now rewrite <- !app_assoc. }
  destruct d as [|kv2 d].
  - cbn [List.map join]. apply H.
  - cbn [List.map]. rewrite join_cons. unfold members_tail, item_separator.
    rewrite <- !app_assoc. apply H.
Qed.

Lemma members_tail_delimited (d : dict) (rest : str) :
  delimited (members_tail d rest) = true.
Proof. destruct d; reflexivity. Qed.

Lemma parse_object_members (d : dict) :
  Forall (fun kv => reads_back (snd kv)) d ->
  forallb (fun kv => wf_json (snd kv)) d = true ->
  forall kv, reads_back (snd kv) -> wf_json (snd kv) = true ->
  forall acc fuel rest,
    2 * List.length
          (join item_separator (List.map member_text (kv :: d)) ++ 125%N :: rest)
    + 1 < fuel ->
    parse_object fuel
      (join item_separator (List.map member_text (kv :: d)) ++ 125%N :: rest)
      acc
    = Ok (JDict (dict_of_pairs acc (kv :: d)), rest).
Proof.
  induction d as [|kv2 d IH]; intros Hall Hwf [k v] Hv Hwv acc fuel rest Hfuel;
    rewrite members_text in *; cbn [fst snd] in *.
  - destruct fuel as [|f]; [lia|]. cbn [parse_object].
    change (negb (34 =? 34)%N) with false. cbv beta iota.
    rewrite scanstring_encode.
    rewrite skip_ws_start by reflexivity.
    change (negb (58 =? 58)%N) with false. cbv beta iota.
    rewrite skip_ws_space, skip_ws_value.
    rewrite (Hv Hwv f (members_tail [] rest)); [|reflexivity|len].
    reflexivity.
  - destruct fuel as [|f]; [lia|]. cbn [parse_object].
    change (negb (34 =? 34)%N) with false. cbv beta iota.
    rewrite scanstring_encode.
    rewrite skip_ws_start by reflexivity.
    change (negb (58 =? 58)%N) with false. cbv beta iota.
    rewrite skip_ws_space, skip_ws_value.
    rewrite (Hv Hwv f (members_tail (kv2 :: d) rest)); [|reflexivity|len].
    rewrite skip_ws_delimited by reflexivity.
    unfold members_tail at 1. change (44 =? 125)%N with false.
    change (44 =? 44)%N with true. cbv beta iota.
    rewrite skip_ws_space.
    assert (skip_ws
              (join item_separator (List.map member_text (kv2 :: d))
               ++ 125%N :: rest)
            = join item_separator (List.map member_text (kv2 :: d))
              ++ 125%N :: rest) as ->
      by (rewrite members_text; now apply skip_ws_start).
    inversion Hall as [|? ? Hv2 Hd]; subst.
    cbn [forallb] in Hwf. apply andb_true_iff in Hwf as [Hw2 Hwd].
    rewrite (IH Hd Hwd kv2 Hv2 Hw2); [reflexivity|].
    unfold members_tail at 1 in Hfuel. len.
Qed.

Lemma json_dumps_dict_text (d : dict) :
  json_dumps (JDict d)
  = 123%N :: join item_separator (List.map member_text d) ++ [125%N].
Proof. reflexivity. Qed.

Lemma json_dumps_list_text (l : list json) :
  json_dumps (JList l)
  = 91%N :: join item_separator (List.map json_dumps l) ++ [93%N].
Proof. reflexivity. Qed.

Lemma scan_once_reads_back (v : json) : reads_back v.
Proof.
  induction v as [|b|z|x|s|l IHl|d IHd] using json_ind';
    intros Hwf fuel rest Hrest Hfuel;
    (destruct fuel as [|f]; [lia|]).
  - reflexivity.
  - destruct b; reflexivity.
  - now apply scan_once_int.
  - now apply scan_once_float.
  - apply scan_once_str.
  - rewrite json_dumps_list_text in *. simpl app in *.
    rewrite <- app_assoc in *. simpl app in *.
    destruct l as [|e es].
    + reflexivity.
    + rewrite elements_text in *.
      cbn [scan_once]. change (91 =? 34)%N with false.
      change (91 =? 123)%N with false. change (91 =? 91)%N with true.
      cbv beta iota. rewrite skip_ws_value.
      destruct (json_dumps_start e) as (c & t & E & Hc).
      destruct (is_value_start_not_close c Hc) as (H93 & _ & _).
      inversion IHl as [|? ? He Hes]; subst.
      cbn [wf_json forallb] in Hwf. apply andb_true_iff in Hwf as [Hwe Hwes].
      pose proof (parse_array_elements es Hes Hwes e He Hwe [] f rest) as Hp.
      rewrite E in *. simpl app in *. cbv beta iota.
      destruct (N.eqb_spec c 93); [contradiction|].
      apply Hp. cbn [List.length] in *. lia.
  - rewrite json_dumps_dict_text in *. simpl app in *.
    rewrite <- app_assoc in *. simpl app in *.
    destruct d as [|kv d].
    + reflexivity.
    + cbn [wf_json] in Hwf. apply andb_true_iff in Hwf as [Hdist Hwf].
      cbn [forallb] in Hwf. apply andb_true_iff in Hwf as [Hwv Hwd].
      inversion IHd as [|? ? Hv Hd]; subst.
      pose proof (parse_object_members d Hd Hwd kv Hv Hwv [] f rest) as Hp.
      cbn [scan_once]. change (123 =? 34)%N with false.
      change (123 =? 123)%N with true. cbv beta iota.
      rewrite members_text in *.
      rewrite skip_ws_start by reflexivity.
      change (34 =? 125)%N with false. cbv beta iota.
      rewrite Hp by (cbn [List.length] in *; lia).
      rewrite dict_of_pairs_distinct; [reflexivity| |assumption].
      reflexivity.
Qed.

(** [json.loads(json.dumps(v, ensure_ascii=False)) == v] for every value
    whose dicts have distinct keys. *)
Theorem json_loads_dumps (v : json) :
  wf_json v = true -> json_loads (json_dumps v) = Ok v.
Proof.
  intros Hwf. unfold json_loads.
  destruct (json_dumps_start v) as (c & t & E & Hc).
  destruct (is_value_start_not_close c Hc) as (_ & _ & Hbom).
  pose proof (skip_ws_value v []) as Hs.
  pose proof (scan_once_reads_back v Hwf (2 * S (List.length (json_dumps v)))
                [] eq_refl) as Hr.
  rewrite app_nil_r in *. rewrite Hs.
  rewrite Hr by lia.
  rewrite E. destruct c as [|p]; [reflexivity|].
  destruct (Pos.eq_dec p 65279) as [->|Hp]; [now elim Hbom|].
  assert (forall A (x y : A),
             match Npos p :: t with
             | 65279%N :: _ => x
             | _ => y
             end = y) as Hm.
  { intros A x y. 
    do 16 (destruct p as [p|p|]; try reflexivity). congruence. }
  apply Hm.
Qed.

(** ** C8: a line separator inside a string, written by [save_jsonl] *)


(** ** Files: what is written, read again *)

Lemma universal_newlines_id (s : str) :
  forallb (fun c => negb (c =? 13)%N) s = true -> universal_newlines s = s.
Proof.
  induction s as [|c s IH]; simpl; [reflexivity|].
  intros H. apply andb_true_iff in H as [Hc Hs].
  apply negb_true_iff in Hc. rewrite Hc. now rewrite IH.
Qed.

Lemma splitlines_line (l rest : str) :
  no_linebreak l = true ->
  splitlines (l ++ 10%N :: rest) = l :: splitlines rest.
Proof.
  induction l as [|c l IH]; intros H.
  - reflexivity.
  - simpl in H. apply andb_true_iff in H as [Hc Hl].
    apply negb_true_iff in Hc. simpl app. cbn [splitlines].
    now rewrite Hc, IH.
Qed.

Lemma splitlines_lines (lines : list str) :
  forallb no_linebreak lines = true ->
  splitlines (flat_map (fun l => l ++ [10%N]) lines) = lines.
Proof.
  induction lines as [|l lines IH]; intros H; [reflexivity|].
  simpl in H. apply andb_true_iff in H as [Hl Hls].
  simpl flat_map. rewrite <- app_assoc. simpl app.
  now rewrite splitlines_line, IH.
Qed.

Lemma no_linebreak_no_cr (l : str) :
  no_linebreak l = true -> forallb (fun c => negb (c =? 13)%N) l = true.
Proof.
  unfold no_linebreak. rewrite !forallb_forall. intros H c Hin.
  specialize (H c Hin). apply negb_true_iff in H. apply negb_true_iff.
  destruct (N.eqb_spec c 13) as [->|]; [discriminate|reflexivity].
Qed.

Lemma lines_no_cr (lines : list str) :
  forallb no_linebreak lines = true ->
  forallb (fun c => negb (c =? 13)%N) (flat_map (fun l => l ++ [10%N]) lines)
  = true.
Proof.
  induction lines as [|l lines IH]; intros H; [reflexivity|].
  simpl in H. apply andb_true_iff in H as [Hl Hls].
  simpl flat_map. rewrite !forallb_app, (no_linebreak_no_cr l Hl), IH by assumption.
  reflexivity.
Qed.

(** The lines written, one [\n] after each, are the lines read. *)
Lemma read_lines_written (lines : list str) :
  forallb no_linebreak lines = true ->
  splitlines (universal_newlines (flat_map (fun l => l ++ [10%N]) lines))
  = lines.
Proof.
  intros H. rewrite universal_newlines_id by now apply lines_no_cr.
  now apply splitlines_lines.
Qed.

Lemma flat_map_map (A B C : Type) (g : A -> B) (f : B -> list C)
    (l : list A) :
  flat_map f (List.map g l) = flat_map (fun x => f (g x)) l.
Proof. induction l as [|x l IH]; simpl; [reflexivity|now rewrite IH]. Qed.

Lemma is_value_start_not_space (c : N) :
  is_value_start c = true -> isspace c = false.
Proof.
  intros H. apply is_value_start_cases in H as [H|H].
  - unfold isspace.
    repeat (apply orb_false_iff; split);
      try (apply N.eqb_neq; lia);
      try (apply andb_false_iff; left; apply N.leb_gt; lia);
      try (apply andb_false_iff; right; apply N.leb_gt; lia).
  - simpl in H. repeat (destruct H as [<-|H]; [reflexivity|]). contradiction.
Qed.

Lemma not_blank_start (c : N) (t : str) :
  isspace c = false -> is_blank (c :: t) = false.
Proof.
  intros Hc. unfold is_blank, strip. cbn [rstrip_by].
  destruct (rstrip_by isspace t); rewrite ?Hc; simpl; now rewrite Hc.
Qed.

Lemma json_dumps_not_blank (v : json) : is_blank (json_dumps v) = false.
Proof.
  destruct (json_dumps_start v) as (c & t & -> & Hc).
  now apply not_blank_start, is_value_start_not_space.
Qed.

Lemma load_jsonl_loop_dumped (records : list json) :
  forallb wf_json records = true ->
  forall idx data,
    Oswe.load_jsonl_loop idx (List.map json_dumps records) data
    = Ok (data ++ records).
Proof.
  induction records as [|v records IH]; intros Hwf idx data.
  - simpl. now rewrite app_nil_r.
  - simpl in Hwf. apply andb_true_iff in Hwf as [Hv Hwf].
    cbn [List.map Oswe.load_jsonl_loop].
    rewrite json_dumps_not_blank, (json_loads_dumps v Hv), IH by assumption.
    now rewrite <- app_assoc.
Qed.

(** ** What [json.loads] returns is well formed *)

Lemma span_digits_digits (s : str) :
  forallb is_digit (fst (span_digits s)) = true.
Proof.
  induction s as [|c s IH]; simpl; [reflexivity|].
  destruct (is_digit c) eqn:E; [|reflexivity].
  destruct (span_digits s) as [ds r]. simpl in *. now rewrite E, IH.
Qed.

Lemma scan_frac_digits (s : str) :
  forallb is_digit (fst (scan_frac s)) = true.
Proof.
  unfold scan_frac. destruct s as [|d r]; [reflexivity|].
  destruct (d =? 46)%N; [|reflexivity].
  pose proof (span_digits_digits r) as H.
  destruct (span_digits r) as [[|x fs] rf]; [reflexivity|exact H].
Qed.

Lemma scan_exp_digits (s : str) :
  match fst (scan_exp s) with
  | None => True
  | Some (_, ds) => forallb is_digit ds = true /\ ds <> []
  end.
Proof.
  unfold scan_exp. destruct s as [|e r]; [exact I|].
  destruct ((e =? 101) || (e =? 69))%N; [|exact I].
  destruct (match r with
            | [] => (false, r)
            | sg :: t =>
                if (sg =? 45)%N then (true, t)
                else if (sg =? 43)%N then (false, t) else (false, r)
            end) as [eneg rs].
  pose proof (span_digits_digits rs) as H.
  destruct (span_digits rs) as [[|x es] re]; [exact I|].
  simpl. split; [exact H|discriminate].
Qed.

Lemma match_number_wf (s : str) (v : json) (r : str) :
  match_number s = Some (v, r) -> wf_json v = true.
Proof.
  unfold match_number.
  destruct (match s with
            | [] => (false, s)
            | c :: r0 => if (c =? 45)%N then (true, r0) else (false, s)
            end) as [neg s1].
  destruct (scan_int_part s1) as [[ds r1]|]; [|discriminate].
  pose proof (scan_frac_digits r1) as Hf.
  destruct (scan_frac r1) as [frac r2].
  pose proof (scan_exp_digits r2) as He.
  destruct (scan_exp r2) as [exp r3]. simpl in Hf, He.
  destruct frac as [|d frac].
  - destruct exp as [[eneg es]|]; intros [= <- _]; [|reflexivity].
    destruct He as [Hd Hne]. simpl. rewrite Hd. now destruct es.
  - intros [= <- _]. cbn [wf_json wf_float]. rewrite Hf.
    destruct exp as [[eneg es]|]; [|reflexivity].
    destruct He as [Hd Hne]. rewrite Hd. now destruct es.
Qed.

Lemma scan_constant_wf (s : str) (v : json) (r : str) :
  scan_constant s = Some (v, r) -> wf_json v = true.
Proof.
  unfold scan_constant.
  repeat match goal with
         | |- context [strip_prefix ?p s] => destruct (strip_prefix p s)
         end;
    try (intros [= <- _]; reflexivity).
  apply match_number_wf.
Qed.

Lemma str_eqb_sym (a b : str) : str_eqb a b = str_eqb b a.
Proof.
  destruct (str_eqb a b) eqn:E.
  - apply str_eqb_eq in E. subst. symmetry. apply str_eqb_refl.
  - destruct (str_eqb b a) eqn:E'; [|reflexivity].
    apply str_eqb_eq in E'. subst. now rewrite str_eqb_refl in E.
Qed.

Lemma keys_dict_set_mem (a : str) (d : dict) (k : str) (v : json) :
  existsb (str_eqb a) (List.map fst (dict_set d k v)) = true ->
  existsb (str_eqb a) (List.map fst d) = true \/ str_eqb a k = true.
Proof.
  induction d as [|[k' v'] d IH]; simpl.
  - rewrite orb_false_r. now right.
  - destruct (str_eqb k' k) eqn:E; simpl.
    + now left.
    + intros H. apply orb_true_iff in H as [H|H].
      * left. now rewrite H.
      * apply IH in H as [H|H]; [left; rewrite H; apply orb_true_r|now right].
Qed.

Lemma wf_dict_set (d : dict) (k : str) (v : json) :
  wf_json (JDict d) = true -> wf_json v = true ->
  wf_json (JDict (dict_set d k v)) = true.
Proof.
  cbn [wf_json]. intros Hd Hv. apply andb_true_iff in Hd as [Hdist Hall].
  induction d as [|[k' v'] d IH]; simpl.
  - now rewrite Hv.
  - simpl in Hdist, Hall.
    apply andb_true_iff in Hdist as [Hk Hdist].
    apply andb_true_iff in Hall as [Hv' Hall].
    specialize (IH Hdist Hall). apply andb_true_iff in IH as [IH1 IH2].
    destruct (str_eqb k' k) eqn:E; simpl.
    + now rewrite Hk, Hdist, Hv, Hall.
    + rewrite IH1, IH2, Hv'. rewrite !andb_true_r. apply negb_true_iff.
      destruct (existsb (str_eqb k') (List.map fst (dict_set d k v))) eqn:Ex;
        [|reflexivity].
      apply keys_dict_set_mem in Ex as [Ex|Ex].
      * apply negb_true_iff in Hk. congruence.
      * congruence.
Qed.

Lemma scan_once_wf (fuel : nat) :
  (forall s v r, scan_once fuel s = Ok (v, r) -> wf_json v = true)
  /\ (forall s acc v r,
         wf_json (JDict acc) = true ->
         parse_object fuel s acc = Ok (v, r) -> wf_json v = true)
  /\ (forall s acc v r,
         wf_json (JList acc) = true ->
         parse_array fuel s acc = Ok (v, r) -> wf_json v = true).
Proof.
  induction fuel as [|f (IHs & IHo & IHa)];
    [repeat split; intros; discriminate|].
  repeat split.
  - intros s v r. cbn [scan_once]. destruct s as [|c r0]; [discriminate|].
    destruct (c =? 34)%N.
    { destruct (scanstring r0) as [[x r']|]; [|discriminate].
      now intros [= <- _]. }
    destruct (c =? 123)%N.
    { destruct (skip_ws r0) as [|c' r'] eqn:E.
      - now apply IHo.
      - destruct (c' =? 125)%N; [now intros [= <- _]|]. now apply IHo. }
    destruct (c =? 91)%N.
    { destruct (skip_ws r0) as [|c' r'] eqn:E.
      - now apply IHa.
      - destruct (c' =? 93)%N; [now intros [= <- _]|]. now apply IHa. }
    destruct (scan_constant (c :: r0)) as [[x r']|] eqn:E; [|discriminate].
    intros [= <- _]. now apply scan_constant_wf in E.
  - intros s acc v r Hacc. cbn [parse_object].
    destruct s as [|c r0]; [discriminate|].
    destruct (negb (c =? 34)%N); [discriminate|].
    destruct (scanstring r0) as [[k r1]|]; [|discriminate].
    destruct (skip_ws r1) as [|c2 r2]; [discriminate|].
    destruct (negb (c2 =? 58)%N); [discriminate|].
    destruct (scan_once f (skip_ws r2)) as [[x r3]|] eqn:E; [|discriminate].
    apply IHs in E.
    destruct (skip_ws r3) as [|c4 r4]; [discriminate|].
    destruct (c4 =? 125)%N.
    { intros [= <- _]. now apply wf_dict_set. }
    destruct (c4 =? 44)%N; [|discriminate].
    apply IHo. now apply wf_dict_set.
  - intros s acc v r Hacc. cbn [parse_array].
    destruct (scan_once f s) as [[x r1]|] eqn:E; [|discriminate].
    apply IHs in E.
    assert (wf_json (JList (acc ++ [x])) = true) as Hacc'.
    { cbn [wf_json] in *. rewrite forallb_app, Hacc. simpl. now rewrite E. }
    destruct (skip_ws r1) as [|c r2]; [discriminate|].
    destruct (c =? 93)%N; [now intros [= <- _]|].
    destruct (c =? 44)%N; [|discriminate].
    now apply IHa.
Qed.

(** Every value [json.loads] returns has distinct keys in its dicts and
    digits in its floats. *)
Lemma json_loads_wf (s : str) (v : json) :
  json_loads s = Ok v -> wf_json v = true.
Proof.
  unfold json_loads.
  assert (match scan_once (2 * S (List.length s)) (skip_ws s) with
          | Ok (v0, r) =>
              match skip_ws r with
              | [] => Ok v0
              | _ :: _ => Raise (JSONDecodeError ExtraData)
              end
          | Raise e => Raise e
          end = Ok v -> wf_json v = true) as H.
  { destruct (scan_once _ _) as [[v0 r]|] eqn:E; [|discriminate].
    destruct (skip_ws r); [|discriminate]. intros [= <-].
    now apply (proj1 (scan_once_wf _)) in E. }
  destruct s as [|c t]; [exact H|].
  destruct c as [|p]; [exact H|].
  do 16 (destruct p as [p|p|]; try exact H). discriminate.
Qed.

(** ** [json.dumps] writes no control character *)

Lemma forallb_impl (A : Type) (p q : A -> bool) (l : list A) :
  (forall x, p x = true -> q x = true) ->
  forallb p l = true -> forallb q l = true.
Proof.
  intros H. rewrite !forallb_forall. intros Hl x Hin. apply H, Hl, Hin.
Qed.

Lemma is_digit_printable (c : N) : is_digit c = true -> printable c = true.
Proof.
  intros H. apply is_digit_spec in H. apply N.leb_le. lia.
Qed.

Lemma hex_digit_printable (n : N) : printable (hex_digit n) = true.
Proof.
  unfold hex_digit, printable. destruct (n <? 10)%N; apply N.leb_le; lia.
Qed.

Lemma escape_char_printable (c : N) :
  forallb printable (escape_char c) = true.
Proof.
  unfold escape_char.
  repeat match goal with
         | |- context [(c =? ?k)%N] => destruct (c =? k)%N; [reflexivity|]
         end.
  destruct (N.ltb_spec c 32).
  - cbn [forallb]. now rewrite !hex_digit_printable.
  - cbn [forallb]. rewrite andb_true_r. now apply N.leb_le.
Qed.

Lemma encode_basestring_printable (s : str) :
  forallb printable (encode_basestring s) = true.
Proof.
  unfold encode_basestring. cbn [forallb]. rewrite forallb_app.
  assert (forallb printable (flat_map escape_char s) = true) as ->.
  { induction s as [|c s IH]; [reflexivity|].
    simpl flat_map. now rewrite forallb_app, escape_char_printable, IH. }
  reflexivity.
Qed.

Lemma str_of_N_printable (n : N) : forallb printable (str_of_N n) = true.
Proof.
  apply (forallb_impl _ is_digit); [apply is_digit_printable|].
  apply str_of_N_digits.
Qed.

Lemma float_repr_printable (x : float_lit) :
  wf_float x = true -> forallb printable (float_repr x) = true.
Proof.
  destruct x as [| | |neg ipart frac exp]; try reflexivity.
  intros H. apply wf_float_inv in H as [Hf He].
  rewrite float_repr_text, !forallb_app, str_of_N_printable.
  assert (forallb printable (frac_text frac) = true) as ->.
  { pose proof (forallb_impl _ is_digit printable frac is_digit_printable Hf)
      as Hp.
    destruct frac; [reflexivity|]. unfold frac_text.
    change (forallb printable (46%N :: n :: frac))
      with (printable 46 && forallb printable (n :: frac)).
    now rewrite Hp. }
  assert (forallb printable (exp_text exp) = true) as ->.
  { destruct exp as [[eneg ds]|]; [|reflexivity]. destruct He as [Hd _].
    unfold exp_text. cbn [forallb].
    rewrite (forallb_impl _ is_digit printable ds is_digit_printable Hd).
    now destruct eneg. }
  now destruct neg.
Qed.

Lemma join_printable (parts : list str) :
  forallb (forallb printable) parts = true ->
  forallb printable (join item_separator parts) = true.
Proof.
  induction parts as [|p ps IH]; [reflexivity|].
  intros H. cbn [forallb] in H. apply andb_true_iff in H as [Hp Hps].
  destruct ps as [|q ps]; [exact Hp|].
  rewrite join_cons, !forallb_app, Hp, IH by assumption. reflexivity.
Qed.

Lemma json_dumps_printable (v : json) :
  wf_json v = true -> forallb printable (json_dumps v) = true.
Proof.
  induction v as [|b|z|x|s|l IHl|d IHd] using json_ind'; intros Hwf.
  - reflexivity.
  - now destruct b.
  - destruct z; cbn [json_dumps int_repr forallb];
      now rewrite ?str_of_N_printable.
  - now apply float_repr_printable.
  - apply encode_basestring_printable.
  - rewrite json_dumps_list_text. cbn [forallb]. rewrite forallb_app.
    rewrite join_printable; [reflexivity|].
    cbn [wf_json] in Hwf. rewrite forallb_forall in *.
    intros t Hin. apply in_map_iff in Hin as (e & <- & Hin).
    rewrite Forall_forall in IHl. now apply IHl, Hwf.
  - rewrite json_dumps_dict_text. cbn [forallb]. rewrite forallb_app.
    rewrite join_printable; [reflexivity|].
    cbn [wf_json] in Hwf. apply andb_true_iff in Hwf as [_ Hwf].
    rewrite forallb_forall in *.
    intros t Hin. apply in_map_iff in Hin as (kv & <- & Hin).
    rewrite Forall_forall in IHd. unfold member_text, key_separator.
    rewrite !forallb_app, encode_basestring_printable.
    now rewrite (IHd kv Hin (Hwf kv Hin)).
Qed.

Lemma printable_no_linebreak (s : str) :
  forallb printable s = true ->
  no_unicode_linebreak s = true ->
  no_linebreak s = true.
Proof.
  unfold no_unicode_linebreak, no_linebreak. rewrite !forallb_forall.
  intros Hp Hu c Hin. specialize (Hp c Hin). specialize (Hu c Hin).
  apply N.leb_le in Hp. apply negb_true_iff in Hu. simpl in Hu.
  apply orb_false_iff in Hu as [H1 Hu]. apply orb_false_iff in Hu as [H2 Hu].
  apply orb_false_iff in Hu as [H3 _].
  apply negb_true_iff. unfold is_linebreak. rewrite H1, H2, H3.
  repeat (apply orb_false_iff; split); try reflexivity;
    apply andb_false_iff.
  - right. apply N.leb_gt. lia.
  - right. apply N.leb_gt. lia.
Qed.

(** ** The second run of [fix_file] *)

Lemma fix_file_loop_stable_records (lines : list str) :
  forall idx records fixed_count records' fixed_count',
    Gpt.fix_file_loop idx lines records fixed_count
    = Ok (records', fixed_count') ->
    exists cleaned,
      records' = records ++ cleaned /\ Forall stable_record cleaned.
Proof.
  induction lines as [|line rest IH]; intros idx records n records' n'; simpl.
  - intros [= <- _]. exists []. now rewrite app_nil_r.
  - destruct (is_blank line); [apply IH|].
    destruct (json_loads line) as [payload|[]] eqn:Ej; try discriminate.
    destruct (Gpt._clean_record payload) as [[cleaned changed]|] eqn:Ec;
      [|discriminate].
    intros H. apply IH in H as (cl & -> & Hall).
    exists (cleaned :: cl). rewrite <- app_assoc. split; [reflexivity|].
    constructor; [|assumption]. split.
    + apply json_loads_wf in Ej.
      apply clean_record_inv in Ec as (d & ua & -> & _ & -> & _).
      now apply wf_dict_set.
    + now apply clean_record_stable in Ec.
Qed.

Lemma fix_file_loop_on_stable (records : list dict) :
  Forall stable_record records ->
  forall idx acc fixed_count,
    Gpt.fix_file_loop idx
      (List.map json_dumps (List.map JDict records)) acc fixed_count
    = Ok (acc ++ records, fixed_count).
Proof.
  induction 1 as [|r rs [Hwf Hclean] _ IH]; intros idx acc n.
  - simpl. now rewrite app_nil_r.
  - cbn [List.map Gpt.fix_file_loop].
    rewrite json_dumps_not_blank, (json_loads_dumps _ Hwf), Hclean, IH.
    now rewrite <- app_assoc.
Qed.

Lemma lines_no_unicode_linebreak (lines : list str) :
  no_unicode_linebreak (flat_map (fun l => l ++ [10%N]) lines) = true ->
  forallb no_unicode_linebreak lines = true.
Proof.
  unfold no_unicode_linebreak at 1.
  induction lines as [|l lines IH]; [reflexivity|].
  simpl flat_map. rewrite !forallb_app. intros H.
  apply andb_true_iff in H as [H Hls]. apply andb_true_iff in H as [Hl _].
  cbn [forallb]. unfold no_unicode_linebreak at 1. now rewrite Hl, IH.
Qed.

Lemma dump_lines_text (records : list json) :
  Gpt.dump_lines records
  = flat_map (fun l => l ++ [10%N]) (List.map json_dumps records).
Proof. unfold Gpt.dump_lines. symmetry. apply flat_map_map. Qed.

(** When the file [fix_file] wrote holds none of U+0085, U+2028 and
    U+2029, running [fix_file] on it fixes nothing and writes the same
    file again: [(total, 0, total)]. *)
Theorem fix_file_second_run
    (text target : str) (total fixed_count unchanged : nat) :
  Gpt.fix_file (Some text) = Ok (target, (total, fixed_count, unchanged)) ->
  no_unicode_linebreak target = true ->
  Gpt.fix_file (Some target) = Ok (target, (total, 0, total)).
Proof.
  unfold Gpt.fix_file at 1.
  destruct (Gpt.fix_file_loop _ _ _ _) as [[records n]|] eqn:E; [|discriminate].
  apply fix_file_loop_stable_records in E as (cleaned & -> & Hall).
  simpl app. unfold write_text.
  destruct (utf8_encodable _) eqn:Hu; [|discriminate].
  intros [= <- <- _ _] Hnl. rewrite dump_lines_text in *.
  assert (forallb no_linebreak (List.map json_dumps (List.map JDict cleaned))
          = true) as Hlines.
  { apply lines_no_unicode_linebreak in Hnl.
    rewrite forallb_forall in *. intros l Hin.
    apply printable_no_linebreak; [|now apply Hnl].
    apply in_map_iff in Hin as (v & <- & Hin).
    apply in_map_iff in Hin as (r & <- & Hin).
    rewrite Forall_forall in Hall. apply json_dumps_printable.
    now apply (Hall r Hin). }
  unfold Gpt.fix_file. rewrite (read_lines_written _ Hlines).
  rewrite (fix_file_loop_on_stable cleaned Hall 1 [] 0). simpl app.
  unfold write_text. rewrite dump_lines_text, Hu.
  now rewrite Nat.sub_0_r.
Qed.

Lemma fix_file_second_run_witness :
  Gpt.fix_file
    (Some (J "{'useragent': 'Mozilla/5.0 Chrome ', 'version': 120}" ++ [10%N]))
  = Ok (J "{'useragent': 'Mozilla/5.0 Chrome', 'version': 120}" ++ [10%N],
        (1, 1, 0))
  /\ Gpt.fix_file
       (Some (J "{'useragent': 'Mozilla/5.0 Chrome', 'version': 120}" ++ [10%N]))
     = Ok (J "{'useragent': 'Mozilla/5.0 Chrome', 'version': 120}" ++ [10%N],
           (1, 0, 1)).
Proof.
  split; [vm_compute; reflexivity|].
  apply (fix_file_second_run
           (J "{'useragent': 'Mozilla/5.0 Chrome ', 'version': 120}" ++ [10%N])
           _ 1 1 0); vm_compute; reflexivity.
Defined.

(** ** Loading what [save_jsonl] wrote *)

(** When [save_jsonl] has written a list of records and the file holds
    none of U+0085, U+2028 and U+2029, [load_jsonl] of that file returns
    the same records, in the same order. *)
Theorem load_jsonl_reads_what_save_jsonl_wrote
    (records : list json) (text : str) :
  forallb wf_json records = true ->
  Oswe.save_jsonl records = Ok text ->
  no_unicode_linebreak text = true ->
  Oswe.load_jsonl (Some text) = Ok records.
Proof.
  intros Hwf. unfold Oswe.save_jsonl, write_text.
  assert (flat_map (fun obj => json_dumps obj ++ [10%N]) records
          = flat_map (fun l => l ++ [10%N]) (List.map json_dumps records)) as ->
    by (symmetry; apply flat_map_map).
  destruct (utf8_encodable _); [|discriminate]. intros [= <-] Hnl.
  assert (forallb no_linebreak (List.map json_dumps records) = true)
    as Hlines.
  { apply lines_no_unicode_linebreak in Hnl.
    rewrite forallb_forall in *. intros l Hin.
    apply printable_no_linebreak; [|now apply Hnl].
    apply in_map_iff in Hin as (v & <- & Hin).
    apply json_dumps_printable. now apply Hwf. }
  unfold Oswe.load_jsonl. rewrite (read_lines_written _ Hlines).
  apply (load_jsonl_loop_dumped records Hwf 1 []).
Qed.

Lemma load_jsonl_reads_what_save_jsonl_wrote_witness :
  Oswe.load_jsonl
    (Some (J "{'useragent': 'Safari/1.0', 'version': 17}" ++ [10%N]
           ++ J "{'useragent': 'Chrom" ++ [233%N] ++ J "'}" ++ [10%N]))
  = Ok [JDict [(useragent, JStr (u "Safari/1.0")); (u "version", JInt 17)];
        JDict [(useragent, JStr (u "Chrom" ++ [233%N]))]].
Proof.
  apply load_jsonl_reads_what_save_jsonl_wrote; vm_compute; reflexivity.
Defined.

(** ** [json.loads] never runs out of fuel *)

Lemma skip_ws_length (s : str) : List.length (skip_ws s) <= List.length s.
Proof.
  unfold skip_ws. induction s as [|c s IH]; simpl; [lia|].
  destruct (is_json_ws c); simpl; lia.
Qed.

Lemma consumes_le (A : Type) (x : result (A * str)) (m m' : nat) :
  consumes x m' -> m' <= m -> consumes x m.
Proof. destruct x as [[a r]|e]; simpl; [lia|trivial]. Qed.

Lemma cons_char_consumes (c : N) (x : result (str * str)) (m : nat) :
  consumes x m -> consumes (cons_char c x) m.
Proof. now destruct x as [[v r]|e]. Qed.

Lemma scanstring_consumes (n : nat) :
  forall s, List.length s <= n -> consumes (scanstring s) (List.length s).
Proof.
  induction n as [|n IH]; intros s Hn.
  - destruct s; [discriminate|simpl in Hn; lia].
  - destruct s as [|c s]; [discriminate|]. cbn [scanstring List.length] in *.
    assert (forall t x, List.length t <= List.length s ->
                        consumes (cons_char x (scanstring t))
                          (S (List.length s))) as Hrec.
    { intros t x Ht. apply cons_char_consumes.
      apply (consumes_le _ _ _ (List.length t)); [apply IH|]; lia. }
    destruct (c =? 34)%N; [simpl; lia|].
    destruct (c =? 92)%N.
    + destruct s as [|e r1]; [discriminate|]. cbn [List.length] in *.
      destruct (e =? 117)%N.
      * destruct r1 as [|h1 [|h2 [|h3 [|h4 [|x r2]]]]]; try discriminate.
        cbn [List.length] in *.
        destruct (hex4 h1 h2 h3 h4) as [c1|]; [|discriminate].
        destruct (is_high_surrogate c1);
          [|apply Hrec; cbn [List.length]; lia].
        destruct r2 as [|x1 [|x2 [|x3 [|x4 [|x5 [|x6 r3]]]]]];
          cbn [List.length] in *;
          try (apply Hrec; cbn [List.length]; lia).
        destruct ((x =? 92)%N && (x1 =? 117)%N);
          [|apply Hrec; cbn [List.length]; lia].
        destruct (hex4 x2 x3 x4 x5) as [c2|]; [|discriminate].
        destruct (is_low_surrogate c2); apply Hrec; cbn [List.length]; lia.
      * destruct (unescape e) as [c'|]; [|discriminate]. apply Hrec. lia.
    + destruct (c <=? 31)%N; [discriminate|]. apply Hrec. lia.
Qed.

Lemma span_digits_length (s : str) :
  List.length (snd (span_digits s)) <= List.length s.
Proof.
  induction s as [|c s IH]; simpl; [lia|].
  destruct (is_digit c); [|simpl; lia].
  destruct (span_digits s). simpl in *. lia.
Qed.

Lemma scan_int_part_length (s ds r : str) :
  scan_int_part s = Some (ds, r) -> List.length r < List.length s.
Proof.
  unfold scan_int_part. destruct s as [|c s]; [discriminate|].
  destruct (c =? 48)%N; [intros [= _ <-]; simpl; lia|].
  destruct (is_digit c) eqn:E; [|discriminate].
  cbn [span_digits]. rewrite E.
  pose proof (span_digits_length s) as H.
  destruct (span_digits s). intros [= _ <-]. simpl in *. lia.
Qed.

Lemma scan_frac_length (s : str) :
  List.length (snd (scan_frac s)) <= List.length s.
Proof.
  unfold scan_frac. destruct s as [|d r]; [simpl; lia|].
  destruct (d =? 46)%N; [|simpl; lia].
  pose proof (span_digits_length r) as H.
  destruct (span_digits r) as [[|x fs] rf]; simpl in *; lia.
Qed.

Lemma scan_exp_length (s : str) :
  List.length (snd (scan_exp s)) <= List.length s.
Proof.
  unfold scan_exp. destruct s as [|e r]; [simpl; lia|].
  destruct ((e =? 101) || (e =? 69))%N; [|simpl; lia].
  destruct (match r with
            | [] => (false, r)
            | sg :: t =>
                if (sg =? 45)%N then (true, t)
                else if (sg =? 43)%N then (false, t) else (false, r)
            end) as [eneg rs] eqn:Ep.
  assert (List.length rs <= List.length r) as Hrs.
  { destruct r as [|sg t]; [injection Ep as _ <-; lia|].
    destruct (sg =? 45)%N; [injection Ep as _ <-; simpl; lia|].
    destruct (sg =? 43)%N; injection Ep as _ <-; simpl; lia. }
  pose proof (span_digits_length rs) as Hs.
  destruct (span_digits rs) as [[|x es] re]; simpl in *; lia.
Qed.

Lemma match_number_length (s : str) (v : json) (r : str) :
  match_number s = Some (v, r) -> List.length r < List.length s.
Proof.
  unfold match_number.
  assert (forall (neg : bool) s1,
             List.length s1 <= List.length s ->
             match scan_int_part s1 with
             | Some (ds, r1) =>
                 let (frac, r2) := scan_frac r1 in
                 let (exp, r3) := scan_exp r2 in
                 match frac, exp with
                 | [], None =>
                     let n := Z.of_N (digits_value ds) in
                     Some (JInt (if neg then (- n)%Z else n), r3)
                 | _, _ =>
                     Some (JFloat (FDec neg (digits_value ds) frac exp), r3)
                 end
             | None => None
             end = Some (v, r) -> List.length r < List.length s) as H.
  { intros neg s1 Hs1.
    destruct (scan_int_part s1) as [[ds r1]|] eqn:Ei; [|discriminate].
    apply scan_int_part_length in Ei.
    pose proof (scan_frac_length r1) as Hf.
    destruct (scan_frac r1) as [frac r2].
    pose proof (scan_exp_length r2) as He.
    destruct (scan_exp r2) as [exp r3]. simpl in Hf, He.
    destruct frac; destruct exp; intros [= _ <-]; lia. }
  destruct s as [|c s0]; [apply H; lia|].
  destruct (c =? 45)%N; apply H; simpl; lia.
Qed.

Lemma strip_prefix_length (p s r : str) :
  strip_prefix p s = Some r -> List.length r + List.length p = List.length s.
Proof.
  revert s. induction p as [|a p IH]; intros s; simpl.
  - intros [= <-]. lia.
  - destruct s as [|b s]; [discriminate|].
    destruct (a =? b)%N; [|discriminate]. intros H. apply IH in H.
    simpl. lia.
Qed.

Lemma scan_constant_length (s : str) (v : json) (r : str) :
  scan_constant s = Some (v, r) -> List.length r < List.length s.
Proof.
  unfold scan_constant.
  repeat match goal with
         | |- context [strip_prefix ?p s] =>
             let E := fresh "E" in
             destruct (strip_prefix p s) eqn:E;
             [apply strip_prefix_length in E; cbn in E;
              intros [= _ <-]; lia|]
         end.
  apply match_number_length.
Qed.

Lemma scan_once_consumes (fuel : nat) :
  (forall s, 2 * List.length s < fuel ->
             consumes (scan_once fuel s) (List.length s))
  /\ (forall s acc, 2 * List.length s + 1 < fuel ->
                    consumes (parse_object fuel s acc) (List.length s))
  /\ (forall s acc, 2 * List.length s + 1 < fuel ->
                    consumes (parse_array fuel s acc) (List.length s)).
Proof.
  induction fuel as [|f (IHs & IHo & IHa)];
    [repeat split; intros; lia|].
  repeat split.
  - intros s Hf. cbn [scan_once]. destruct s as [|c r0]; [discriminate|].
    cbn [List.length] in *. pose proof (skip_ws_length r0) as Hw.
    destruct (c =? 34)%N.
    { pose proof (scanstring_consumes _ r0 (le_n _)) as H.
      destruct (scanstring r0) as [[x r']|e]; simpl in *; [lia|exact H]. }
    destruct (c =? 123)%N.
    { destruct (skip_ws r0) as [|c' r'] eqn:E.
      - apply (consumes_le _ _ _ 0); [apply IHo; simpl; lia|lia].
      - destruct (c' =? 125)%N; [simpl in *; lia|].
        apply (consumes_le _ _ _ (List.length (c' :: r'))); [apply IHo|]; lia. }
    destruct (c =? 91)%N.
    { destruct (skip_ws r0) as [|c' r'] eqn:E.
      - apply (consumes_le _ _ _ 0); [apply IHa; simpl; lia|lia].
      - destruct (c' =? 93)%N; [simpl in *; lia|].
        apply (consumes_le _ _ _ (List.length (c' :: r'))); [apply IHa|]; lia. }
    destruct (scan_constant (c :: r0)) as [[x r']|] eqn:E; [|discriminate].
    apply scan_constant_length in E. exact E.
  - intros s acc Hf. cbn [parse_object]. destruct s as [|c r0]; [discriminate|].
    cbn [List.length] in *.
    destruct (negb (c =? 34)%N); [discriminate|].
    pose proof (scanstring_consumes _ r0 (le_n _)) as Hk.
    destruct (scanstring r0) as [[k r1]|e]; [|exact Hk]. simpl in Hk.
    pose proof (skip_ws_length r1) as Hw1.
    destruct (skip_ws r1) as [|c2 r2]; [discriminate|].
    destruct (negb (c2 =? 58)%N); [discriminate|].
    pose proof (skip_ws_length r2) as Hw2. cbn [List.length] in *.
    assert (consumes (scan_once f (skip_ws r2)) (List.length (skip_ws r2)))
      as Hv by (apply IHs; lia).
    destruct (scan_once f (skip_ws r2)) as [[x r3]|e]; [|exact Hv].
    simpl in Hv. pose proof (skip_ws_length r3) as Hw3.
    destruct (skip_ws r3) as [|c4 r4]; [discriminate|].
    cbn [List.length] in *.
    destruct (c4 =? 125)%N; [simpl; lia|].
    destruct (c4 =? 44)%N; [|discriminate].
    pose proof (skip_ws_length r4) as Hw4.
    apply (consumes_le _ _ _ (List.length (skip_ws r4))); [apply IHo|]; lia.
  - intros s acc Hf. cbn [parse_array].
    assert (consumes (scan_once f s) (List.length s)) as Hv
        by (apply IHs; lia).
    destruct (scan_once f s) as [[x r1]|e]; [|exact Hv].
    simpl in Hv. pose proof (skip_ws_length r1) as Hw1.
    destruct (skip_ws r1) as [|c r2]; [discriminate|].
    cbn [List.length] in *.
    destruct (c =? 93)%N; [simpl; lia|].
    destruct (c =? 44)%N; [|discriminate].
    pose proof (skip_ws_length r2) as Hw2.
    apply (consumes_le _ _ _ (List.length (skip_ws r2))); [apply IHa|]; lia.
Qed.

(** The fuel [json_loads] gives is enough: its [RecursionError] never
    shows. *)
Lemma json_loads_no_recursion_error (s : str) :
  json_loads s <> Raise RecursionError.
Proof.
  unfold json_loads.
  assert (match scan_once (2 * S (List.length s)) (skip_ws s) with
          | Ok (v0, r) =>
              match skip_ws r with
              | [] => Ok v0
              | _ :: _ => Raise (JSONDecodeError ExtraData)
              end
          | Raise e => Raise e
          end <> Raise RecursionError) as H.
  { pose proof (skip_ws_length s) as Hw.
    pose proof (proj1 (scan_once_consumes (2 * S (List.length s)))
                  (skip_ws s)) as Hc.
    destruct (scan_once _ _) as [[v0 r]|e].
    - destruct (skip_ws r); discriminate.
    - intros [= ->]. apply Hc; [lia|reflexivity]. }
  destruct s as [|c t]; [exact H|].
  destruct c as [|p]; [exact H|].
  do 16 (destruct p as [p|p|]; try exact H). discriminate.
Qed.

(** ** Loading what [fix_file] wrote *)

Lemma gpt_load_jsonl_loop_dumped (records : list json) :
  forallb wf_json records = true ->
  forall idx loaded,
    Gpt.load_jsonl_loop idx (List.map json_dumps records) loaded
    = Ok (loaded ++ records).
Proof.
  induction records as [|v records IH]; intros Hwf idx loaded.
  - simpl. now rewrite app_nil_r.
  - simpl in Hwf. apply andb_true_iff in Hwf as [Hv Hwf].
    cbn [List.map Gpt.load_jsonl_loop].
    rewrite json_dumps_not_blank, (json_loads_dumps v Hv), IH by assumption.
    now rewrite <- app_assoc.
Qed.

(** When the file [fix_file] wrote holds none of U+0085, U+2028 and
    U+2029, [load_jsonl] reads from it as many records as from the source:
    the records [_clean_record] returned, in order. *)
Theorem fix_file_output_loads
    (text target : str) (total fixed_count unchanged : nat) :
  Gpt.fix_file (Some text) = Ok (target, (total, fixed_count, unchanged)) ->
  no_unicode_linebreak target = true ->
  exists before after,
    Gpt.load_jsonl (Some text) = Ok before
    /\ Gpt.load_jsonl (Some target) = Ok (List.map JDict after)
    /\ Forall2 (fun p r => exists changed, Gpt._clean_record p = Ok (r, changed))
         before after
    /\ List.length after = List.length before
    /\ List.length before = total.
Proof.
  unfold Gpt.fix_file at 1. unfold Gpt.load_jsonl at 1.
  destruct (Gpt.fix_file_loop _ _ _ _) as [[records n]|] eqn:E; [|discriminate].
  pose proof E as E'.
  apply (@fix_file_loop_load _ _ _ _ []) in E
    as (payloads & cleaned & Hl & -> & Hall & _).
  apply fix_file_loop_stable_records in E' as (cleaned' & [= <-] & Hst).
  simpl app in *. unfold write_text.
  destruct (utf8_encodable _) eqn:Hu; [|discriminate].
  intros [= <- <- _ _] Hnl. rewrite dump_lines_text in *.
  assert (forallb wf_json (List.map JDict cleaned) = true) as Hwf.
  { rewrite forallb_forall. intros v Hin.
    apply in_map_iff in Hin as (r & <- & Hin).
    rewrite Forall_forall in Hst. now apply (Hst r Hin). }
  assert (forallb no_linebreak (List.map json_dumps (List.map JDict cleaned))
          = true) as Hlines.
  { apply lines_no_unicode_linebreak in Hnl.
    rewrite forallb_forall in *. intros l Hin.
    apply printable_no_linebreak; [|now apply Hnl].
    apply in_map_iff in Hin as (v & <- & Hin).
    apply json_dumps_printable. now apply Hwf. }
  exists payloads, cleaned. unfold Gpt.load_jsonl.
  rewrite (read_lines_written _ Hlines).
  rewrite (gpt_load_jsonl_loop_dumped _ Hwf 1 []).
  pose proof (Forall2_length Hall) as Hlen.
  split; [exact Hl|]. split; [reflexivity|]. split; [exact Hall|].
  split; [symmetry; exact Hlen|exact Hlen].
Qed.

Lemma fix_file_output_loads_witness :
  exists before after,
    Gpt.load_jsonl
      (Some (J "{'useragent': 'Mozilla/5.0 Chrome ', 'version': 120}"
             ++ [10; 10]%N ++ J "{'useragent': 'Safari/1.0'}"))
    = Ok before
    /\ Gpt.load_jsonl
         (Some (J "{'useragent': 'Mozilla/5.0 Chrome', 'version': 120}"
                ++ [10%N] ++ J "{'useragent': 'Safari/1.0'}" ++ [10%N]))
       = Ok (List.map JDict after)
    /\ Forall2 (fun p r => exists changed, Gpt._clean_record p = Ok (r, changed))
         before after
    /\ List.length after = List.length before
    /\ List.length before = 2.
Proof.
  apply (fix_file_output_loads
           (J "{'useragent': 'Mozilla/5.0 Chrome ', 'version': 120}"
            ++ [10; 10]%N ++ J "{'useragent': 'Safari/1.0'}")
           _ 2 1 1); vm_compute; reflexivity.
Defined.

(** * Further properties of the scripts and of their tests *)

(** ** The statistics of [compute_stats] around [fix_useragents] *)

Lemma get_useragent_dict (d : dict) :
  get_useragent (JDict d) = Ok (dict_get_default d useragent (JStr [])).
Proof. reflexivity. Qed.

Lemma useragents_dicts (records : list dict) :
  Oswe.useragents (List.map JDict records)
  = Ok (List.map (fun d => dict_get_default d useragent (JStr [])) records).
Proof.
  induction records as [|d records IH]; [reflexivity|].
  cbn [List.map Oswe.useragents]. rewrite get_useragent_dict, IH. reflexivity.
Qed.

(** What [fix_useragents] makes of the value under [useragent], and when
    it counts the record as fixed. *)
Lemma fix_useragent_value (d : dict) :
  dict_get_default (fst (Oswe.fix_useragent d)) useragent (JStr [])
  = rstripped_value (dict_get_default d useragent (JStr [])).
Proof.
  unfold Oswe.fix_useragent, dict_get_default.
  destruct (dict_get d useragent) as [v|] eqn:E.
  - destruct v; cbn [fst]; rewrite ?E; try reflexivity.
    rewrite dict_get_set_same by congruence. reflexivity.
  - cbn [fst]. rewrite E. reflexivity.
Qed.

Lemma rstrip_space_changed (s : str) :
  negb (str_eqb (rstrip_chars [32%N] s) s) = endswith_space s.
Proof.
  rewrite rstrip_chars_space.
  destruct (endswith_space s) eqn:E.
  - apply negb_str_eqb_true. intros Heq.
    apply endswith_space_true in E as (r & ->).
    pose proof (rstrip_by_no_trailing is_space_char (r ++ [32%N])) as H.
    rewrite Heq in H. specialize (H r 32%N eq_refl). discriminate.
  - apply negb_false_iff, str_eqb_eq, rstrip_by_fix.
    now apply endswith_space_false.
Qed.

Lemma fix_useragent_changed (d : dict) :
  snd (Oswe.fix_useragent d)
  = match dict_get_default d useragent (JStr []) with
    | JStr s => endswith_space s
    | _ => false
    end.
Proof.
  unfold Oswe.fix_useragent, dict_get_default.
  destruct (dict_get d useragent) as [v|] eqn:E; [|reflexivity].
  destruct v; try reflexivity. cbn [snd]. apply rstrip_space_changed.
Qed.

Lemma count_strings_le (p q : str -> bool) (f : json -> json) (l : list json) :
  (forall v, match f v with
             | JStr s => p s
             | _ => false
             end = true ->
             match v with
             | JStr s => q s
             | _ => false
             end = true) ->
  Oswe.count_strings p (List.map f l) <= Oswe.count_strings q l.
Proof.
  intros H. unfold Oswe.count_strings.
  induction l as [|v l IH]; [reflexivity|].
  cbn [List.map filter]. specialize (H v).
  destruct (match f v with JStr s => p s | _ => false end).
  - rewrite H by reflexivity. simpl. lia.
  - destruct (match v with JStr s => q s | _ => false end); simpl; lia.
Qed.

Lemma rstrip_by_prefix (p : N -> bool) (s : str) :
  exists t, s = rstrip_by p s ++ t.
Proof. destruct (rstrip_by_split p s) as (t & H & _). now exists t. Qed.

Lemma startswith_space_prefix (s t : str) :
  startswith_space s = true -> startswith_space (s ++ t) = true.
Proof. destruct s; [discriminate|trivial]. Qed.

Lemma has_double_space_prefix (s t : str) :
  has_double_space s = true -> has_double_space (s ++ t) = true.
Proof.
  induction s as [|c s IH]; [discriminate|].
  destruct s as [|d s]; [discriminate|].
  cbn [has_double_space app] in *. intros H.
  apply orb_true_iff in H as [H|H]; apply orb_true_iff; [now left|right].
  now apply IH.
Qed.

Lemma strings_map_rstripped (l : list json) :
  Oswe.strings (List.map rstripped_value l)
  = List.map (rstrip_chars [32%N]) (Oswe.strings l).
Proof.
  unfold Oswe.strings. induction l as [|v l IH]; [reflexivity|].
  cbn [List.map flat_map]. rewrite IH. now destruct v.
Qed.

Lemma existsb_str_eqb_In (x : str) (l : list str) :
  existsb (str_eqb x) l = true <-> In x l.
Proof.
  rewrite existsb_exists. split.
  - intros (y & Hin & Heq). now apply str_eqb_eq in Heq as ->.
  - intros Hin. exists x. split; [assumption|apply str_eqb_refl].
Qed.

Lemma count_distinct_map (f : str -> str) (l : list str) :
  count_distinct (List.map f l) <= count_distinct l.
Proof.
  induction l as [|x l IH]; [reflexivity|].
  cbn [List.map count_distinct].
  destruct (existsb (str_eqb x) l) eqn:E.
  - apply existsb_str_eqb_In in E.
    assert (existsb (str_eqb (f x)) (List.map f l) = true) as ->
      by now apply existsb_str_eqb_In, in_map.
    exact IH.
  - destruct (existsb (str_eqb (f x)) (List.map f l)); lia.
Qed.

Lemma count_distinct_le (l : list str) : count_distinct l <= List.length l.
Proof.
  induction l as [|x l IH]; [reflexivity|]. cbn [count_distinct List.length].
  destruct (existsb (str_eqb x) l); lia.
Qed.

Lemma strings_le (l : list json) :
  List.length (Oswe.strings l) <= List.length l.
Proof.
  unfold Oswe.strings. induction l as [|v l IH]; [reflexivity|].
  cbn [flat_map]. rewrite length_app. destruct v; simpl; lia.
Qed.

(** The statistics of the records [fix_useragents] takes and of those it
    returns. *)
Lemma compute_stats_around_fix (records : list dict) :
  let ualist :=
    List.map (fun d => dict_get_default d useragent (JStr [])) records in
  Oswe.compute_stats (List.map JDict records)
  = Ok (Oswe.stats_of (List.length records) ualist)
  /\ Oswe.compute_stats
       (List.map JDict (fst (Oswe.fix_useragents records)))
     = Ok (Oswe.stats_of (List.length records)
             (List.map rstripped_value ualist))
  /\ snd (Oswe.fix_useragents records)
     = Oswe.count_strings endswith_space ualist.
Proof.
  intros ualist. rewrite fix_useragents_spec. cbn [fst snd].
  unfold Oswe.compute_stats. rewrite !useragents_dicts, !length_map.
  split; [reflexivity|]. split.
  - cbn [bind]. do 2 f_equal. subst ualist. rewrite !map_map.
    apply map_ext. intros d. apply fix_useragent_value.
  - subst ualist. unfold Oswe.count_strings.
    induction records as [|d records IH]; [reflexivity|].
    cbn [List.map filter]. rewrite fix_useragent_changed.
    destruct (dict_get_default d useragent (JStr [])) as [| | | |s| |];
      try exact IH.
    destruct (endswith_space s); [|exact IH]. cbn [List.length]. now rewrite IH.
Qed.

Lemma no_trailing_after_rstrip (l : list json) :
  Oswe.count_strings endswith_space (List.map rstripped_value l) = 0.
Proof.
  unfold Oswe.count_strings. induction l as [|v l IH]; [reflexivity|].
  cbn [List.map filter].
  destruct v as [| | | |s| |]; try exact IH. cbn [rstripped_value].
  assert (endswith_space (rstrip_chars [32%N] s) = false) as ->; [|exact IH].
  rewrite rstrip_chars_space. apply endswith_space_false, rstrip_by_no_trailing.
Qed.

(** [fix_useragents] counts as fixed exactly the records that
    [compute_stats] counts under [trailing]; the records it returns have
    none left, and are as many. *)
Theorem fix_useragents_fixes_what_compute_stats_counts (records : list dict) :
  exists before after,
    Oswe.compute_stats (List.map JDict records) = Ok before
    /\ Oswe.compute_stats (List.map JDict (fst (Oswe.fix_useragents records)))
       = Ok after
    /\ snd (Oswe.fix_useragents records) = Oswe.trailing before
    /\ Oswe.trailing after = 0
    /\ Oswe.total after = Oswe.total before.
Proof.
  destruct (compute_stats_around_fix records) as (Hb & Ha & Hn).
  eexists. eexists. split; [exact Hb|]. split; [exact Ha|].
  split; [exact Hn|]. split; [|reflexivity].
  cbn [Oswe.stats_of Oswe.trailing]. apply no_trailing_after_rstrip.
Qed.

(** Fixing increases none of the other statistics: not the number of user
    agents with a leading space or with a double space, and not the number
    of distinct user agents, so that the number of duplicates does not go
    down. *)
Theorem fix_useragents_increases_no_count (records : list dict) :
  exists before after,
    Oswe.compute_stats (List.map JDict records) = Ok before
    /\ Oswe.compute_stats (List.map JDict (fst (Oswe.fix_useragents records)))
       = Ok after
    /\ Oswe.leading after <= Oswe.leading before
    /\ Oswe.double_space after <= Oswe.double_space before
    /\ Oswe.unique after <= Oswe.unique before
    /\ Oswe.unique before <= Oswe.total before
    /\ Oswe.dups before <= Oswe.dups after.
Proof.
  destruct (compute_stats_around_fix records) as (Hb & Ha & _).
  eexists. eexists. split; [exact Hb|]. split; [exact Ha|].
  cbn [Oswe.stats_of Oswe.leading Oswe.double_space Oswe.unique Oswe.dups
       Oswe.total].
  set (ualist := List.map _ records).
  assert (count_distinct (Oswe.strings (List.map rstripped_value ualist))
          <= count_distinct (Oswe.strings ualist)) as Hu.
  { rewrite strings_map_rstripped. apply count_distinct_map. }
  assert (count_distinct (Oswe.strings ualist) <= List.length records) as Ht.
  { etransitivity; [apply count_distinct_le|].
    etransitivity; [apply strings_le|]. subst ualist. now rewrite length_map. }
  repeat split.
  - apply count_strings_le. intros [| | | |s| |]; try discriminate.
    cbn [rstripped_value]. rewrite rstrip_chars_space.
    destruct (rstrip_by_prefix is_space_char s) as (t & Hs).
    intros H. rewrite Hs. now apply startswith_space_prefix.
  - apply count_strings_le. intros [| | | |s| |]; try discriminate.
    cbn [rstripped_value]. rewrite rstrip_chars_space.
    destruct (rstrip_by_prefix is_space_char s) as (t & Hs).
    intros H. rewrite Hs. now apply has_double_space_prefix.
  - exact Hu.
  - exact Ht.
  - rewrite !length_map. lia.
Qed.

(** ** [main] of the oswe script *)

(** [compute_stats] returns on dicts only: past it, [main] passes
    [fix_useragents] the records it loaded. *)
Lemma compute_stats_only_dicts (records : list json) (st : Oswe.stats) :
  Oswe.compute_stats records = Ok st ->
  List.map JDict (Oswe.dicts records) = records.
Proof.
  unfold Oswe.compute_stats.
  destruct (Oswe.useragents records) as [ualist|] eqn:E; [|discriminate].
  intros _. revert ualist E.
  induction records as [|r records IH]; intros ualist; [reflexivity|].
  cbn [Oswe.useragents]. destruct r; try discriminate. cbn [get_useragent bind].
  destruct (Oswe.useragents records) as [l|]; [|discriminate]. intros _.
  unfold Oswe.dicts in *. cbn [flat_map app List.map]. f_equal.
  now apply (IH l).
Qed.

Lemma dicts_map_JDict (records : list dict) :
  Oswe.dicts (List.map JDict records) = records.
Proof.
  unfold Oswe.dicts. induction records as [|d records IH]; [reflexivity|].
  cbn [List.map flat_map app]. now rewrite IH.
Qed.

(** The second assertion of [main], "Trailing spaces should be zero
    after fix", never fails, whatever the original file holds. *)
Theorem oswe_main_never_fails_on_trailing_spaces (src_original : option str) :
  snd (Oswe.main src_original)
  <> Raises (AssertionError TrailingSpacesNotZero).
Proof.
  unfold Oswe.main.
  destruct (Oswe.load_jsonl src_original) as [original_records|];
    [|discriminate].
  destruct (Oswe.compute_stats original_records); [|discriminate].
  destruct (compute_stats_around_fix (Oswe.dicts original_records))
    as (_ & Ha & _).
  destruct (Oswe.fix_useragents _) as [fixed_records fixed_count].
  cbn [fst] in Ha. rewrite Ha.
  destruct (Oswe.save_jsonl _); [|discriminate].
  cbn [Oswe.stats_of Oswe.total Oswe.trailing].
  rewrite no_trailing_after_rstrip.
  destruct (negb _); discriminate.
Qed.

(** When the original file holds dicts only and the fixed records can
    be written, [main] has written them by the time it checks their
    number: it returns when they are 165 and raises [AssertionError]
    otherwise, with the fixed file saved in both cases. *)
Theorem oswe_main_saves_then_counts
    (text : str) (records : list dict) (saved : str) :
  Oswe.load_jsonl (Some text) = Ok (List.map JDict records) ->
  Oswe.save_jsonl (List.map JDict (fst (Oswe.fix_useragents records)))
  = Ok saved ->
  Oswe.main (Some text)
  = (Some saved,
     if List.length records =? 165 then Returns tt
     else Raises (AssertionError Expected165Records)).
Proof.
  intros Hload Hsave. unfold Oswe.main. rewrite Hload.
  destruct (compute_stats_around_fix records) as (Hb & Ha & _).
  rewrite Hb, dicts_map_JDict.
  destruct (Oswe.fix_useragents records) as [fixed_records fixed_count].
  cbn [fst] in *. rewrite Ha, Hsave.
  cbn [Oswe.stats_of Oswe.total Oswe.trailing].
  rewrite no_trailing_after_rstrip.
  now destruct (List.length records =? 165).
Qed.

Lemma oswe_main_saves_then_counts_witness :
  Oswe.main
    (Some (J "{'useragent': 'Mozilla/5.0 Chrome ', 'version': 120}" ++ [10%N]))
  = (Some (J "{'useragent': 'Mozilla/5.0 Chrome', 'version': 120}" ++ [10%N]),
     Raises (AssertionError Expected165Records)).
Proof.
  apply (oswe_main_saves_then_counts
           (J "{'useragent': 'Mozilla/5.0 Chrome ', 'version': 120}" ++ [10%N])
           [[(useragent, JStr (u "Mozilla/5.0 Chrome "));
             (u "version", JInt 120)]]);
    vm_compute; reflexivity.
Defined.

(** ** Reading a written file line by line *)

Lemma rstrip_by_snoc (p : N -> bool) (s : str) (c : N) :
  p c = true -> rstrip_by p (s ++ [c]) = rstrip_by p s.
Proof.
  intros Hc. induction s as [|d s IH]; simpl; [now rewrite Hc|].
  now rewrite IH.
Qed.

Lemma rstrip_by_none (p : N -> bool) (s : str) :
  forallb (fun c => negb (p c)) s = true -> rstrip_by p s = s.
Proof.
  intros H. apply rstrip_by_fix. intros r c ->.
  rewrite forallb_app in H. apply andb_true_iff in H as [_ H].
  simpl in H. now destruct (p c).
Qed.

Lemma lstrip_by_none (p : N -> bool) (s : str) :
  forallb (fun c => negb (p c)) s = true -> lstrip_by p s = s.
Proof.
  intros H. apply lstrip_by_fix. intros c r ->.
  simpl in H. now destruct (p c).
Qed.

Lemma printable_not_newline (s : str) :
  forallb printable s = true ->
  forallb (fun c => negb (existsb (N.eqb c) [10%N])) s = true.
Proof.
  apply forallb_impl. intros c H. apply N.leb_le in H. simpl.
  destruct (N.eqb_spec c 10); [lia|reflexivity].
Qed.

Lemma printable_no_cr (s : str) :
  forallb printable s = true -> forallb (fun c => negb (c =? 13)%N) s = true.
Proof.
  apply forallb_impl. intros c H. apply N.leb_le in H.
  destruct (N.eqb_spec c 13); [lia|reflexivity].
Qed.

Lemma readlines_line (l rest : str) :
  forallb printable l = true ->
  readlines (l ++ 10%N :: rest) = (l ++ [10%N]) :: readlines rest.
Proof.
  induction l as [|c l IH]; intros H; [reflexivity|].
  simpl in H. apply andb_true_iff in H as [Hc Hl]. apply N.leb_le in Hc.
  cbn [app readlines]. rewrite (IH Hl).
  destruct (N.eqb_spec c 10); [lia|reflexivity].
Qed.

Lemma readlines_lines (lines : list str) :
  forallb (forallb printable) lines = true ->
  readlines (flat_map (fun l => l ++ [10%N]) lines)
  = List.map (fun l => l ++ [10%N]) lines.
Proof.
  induction lines as [|l lines IH]; intros H; [reflexivity|].
  simpl in H. apply andb_true_iff in H as [Hl Hls].
  cbn [flat_map List.map]. rewrite <- app_assoc. cbn [app].
  now rewrite readlines_line, IH.
Qed.

Lemma printable_lines_no_cr (lines : list str) :
  forallb (forallb printable) lines = true ->
  forallb (fun c => negb (c =? 13)%N) (flat_map (fun l => l ++ [10%N]) lines)
  = true.
Proof.
  induction lines as [|l lines IH]; intros H; [reflexivity|].
  simpl in H. apply andb_true_iff in H as [Hl Hls].
  cbn [flat_map].
  rewrite !forallb_app, (printable_no_cr l Hl), IH by assumption.
  reflexivity.
Qed.

(** The lines written, one [\n] after each, are the lines a file
    iteration yields, each with its [\n]. *)
Lemma iterate_lines_written (lines : list str) :
  forallb (forallb printable) lines = true ->
  readlines (universal_newlines (flat_map (fun l => l ++ [10%N]) lines))
  = List.map (fun l => l ++ [10%N]) lines.
Proof.
  intros H. rewrite universal_newlines_id by now apply printable_lines_no_cr.
  now apply readlines_lines.
Qed.

Lemma dumped_lines_printable (records : list json) :
  forallb wf_json records = true ->
  forallb (forallb printable) (List.map json_dumps records) = true.
Proof.
  rewrite !forallb_forall. intros H l Hin.
  apply in_map_iff in Hin as (v & <- & Hin).
  now apply json_dumps_printable, H.
Qed.

Lemma strip_newline_written (l : str) :
  forallb printable l = true -> strip_chars [10%N] (l ++ [10%N]) = l.
Proof.
  intros H. unfold strip_chars. rewrite rstrip_by_snoc by reflexivity.
  apply printable_not_newline in H.
  now rewrite (rstrip_by_none _ _ H), (lstrip_by_none _ _ H).
Qed.

Lemma tests_load_jsonl_loop_dumped (records : list json) :
  forallb wf_json records = true ->
  forall idx data,
    Oswe.Tests.load_jsonl_loop idx
      (List.map (fun l => l ++ [10%N]) (List.map json_dumps records)) data
    = Returns (data ++ records).
Proof.
  induction records as [|v records IH]; intros Hwf idx data.
  - simpl. now rewrite app_nil_r.
  - simpl in Hwf. apply andb_true_iff in Hwf as [Hv Hwf].
    cbn [List.map Oswe.Tests.load_jsonl_loop].
    rewrite strip_newline_written by now apply json_dumps_printable.
    rewrite json_dumps_not_blank, (json_loads_dumps v Hv), IH by assumption.
    now rewrite <- app_assoc.
Qed.

(** The loader of the tests package reads back every list of records
    [save_jsonl] wrote, whatever characters their strings hold: it cuts
    the file at [\n] only. *)
Theorem tests_load_jsonl_reads_what_save_jsonl_wrote
    (records : list json) (text : str) :
  forallb wf_json records = true ->
  Oswe.save_jsonl records = Ok text ->
  Oswe.Tests.load_jsonl (Some text) = Returns records.
Proof.
  intros Hwf. unfold Oswe.save_jsonl, write_text.
  assert (flat_map (fun obj => json_dumps obj ++ [10%N]) records
          = flat_map (fun l => l ++ [10%N]) (List.map json_dumps records)) as ->
    by (symmetry; apply flat_map_map).
  destruct (utf8_encodable _); [|discriminate]. intros [= <-].
  unfold Oswe.Tests.load_jsonl.
  rewrite iterate_lines_written by now apply dumped_lines_printable.
  apply (tests_load_jsonl_loop_dumped records Hwf 1 []).
Qed.

Lemma tests_load_jsonl_reads_what_save_jsonl_wrote_witness :
  Oswe.Tests.load_jsonl
    (Some (J "{'useragent': 'a" ++ [8232%N] ++ J "b'}" ++ [10%N]
           ++ J "{'useragent': 'Chrom" ++ [233%N] ++ J "', 'version': 17}"
           ++ [10%N]))
  = Returns
      [JDict [(useragent, JStr (u "a" ++ [8232%N] ++ u "b"))];
       JDict [(useragent, JStr (u "Chrom" ++ [233%N]));
              (u "version", JInt 17)]].
Proof.
  apply tests_load_jsonl_reads_what_save_jsonl_wrote; vm_compute; reflexivity.
Defined.

(** ** The tests of the gpt script on what [fix_file] wrote *)

Lemma fix_file_loop_results (lines : list str) :
  forall idx records fixed_count loaded records' fixed_count',
    Gpt.fix_file_loop idx lines records fixed_count
    = Ok (records', fixed_count') ->
    exists payloads results,
      Gpt.load_jsonl_loop idx lines loaded = Ok (loaded ++ payloads)
      /\ Forall2 (fun p r => Gpt._clean_record p = Ok r) payloads results
      /\ records' = records ++ List.map fst results
      /\ fixed_count'
         = fixed_count + List.length (filter snd results).
Proof.
  induction lines as [|line rest IH];
    intros idx records n loaded records' n'; simpl.
  - intros [= <- <-]. exists [], []. rewrite !app_nil_r.
    repeat split; [constructor|simpl; lia].
  - destruct (is_blank line); [apply IH|].
    destruct (json_loads line) as [payload|[]]; try discriminate.
    destruct (Gpt._clean_record payload) as [[cleaned changed]|] eqn:Ec;
      [|discriminate].
    intros H.
    apply (IH _ _ _ (loaded ++ [payload])) in H
      as (payloads & results & Hl & Hall & -> & ->).
    exists (payload :: payloads), ((cleaned, changed) :: results).
    rewrite Hl, <- !app_assoc. simpl. repeat split.
    + now constructor.
    + destruct changed; simpl; lia.
Qed.

Lemma strip_no_space_at_ends (s : str) :
  endswith_space (strip s) = false /\ startswith_space (strip s) = false.
Proof.
  destruct (strip_stripped_of s) as (pre & post & _ & _ & _ & Hl & Ht).
  split.
  - apply endswith_space_false.
    apply (no_trailing_weaken (p := isspace)); [|assumption].
    apply is_space_char_isspace.
  - apply startswith_space_false. intros c r E.
    specialize (Hl c r E). unfold is_space_char.
    destruct (N.eqb_spec c 32) as [->|]; [discriminate|reflexivity].
Qed.

Lemma strip_changes_trailing_space (s : str) :
  endswith_space s = true -> negb (str_eqb (strip s) s) = true.
Proof.
  intros H. apply negb_str_eqb_true. intros E.
  destruct (strip_no_space_at_ends s) as [H' _]. congruence.
Qed.

Lemma clean_record_value (p : json) (r : dict * bool) :
  Gpt._clean_record p = Ok r ->
  exists ua,
    get_useragent p = Ok (JStr ua)
    /\ get_useragent (JDict (fst r)) = Ok (JStr (strip ua))
    /\ snd r = negb (str_eqb (strip ua) ua).
Proof.
  destruct r as [d changed]. intros H.
  apply clean_record_inv in H as (d0 & ua & -> & Hua & -> & ->).
  exists ua. cbn [get_useragent fst snd]. rewrite Hua.
  repeat split. unfold dict_get_default.
  now rewrite dict_get_set_same.
Qed.

(** The counts of [count_space_issues] on the records [fix_file] read and
    on those it wrote. *)
Lemma count_space_issues_cleaned (payloads : list json)
    (results : list (dict * bool)) :
  Forall2 (fun p r => Gpt._clean_record p = Ok r) payloads results ->
  forall trailing leading double,
  exists t l d d',
    Gpt.count_space_issues_loop payloads trailing leading double
    = Ok (trailing + t, leading + l, double + d)
    /\ Gpt.count_space_issues_loop
         (List.map (fun r => JDict (fst r)) results) trailing leading double
       = Ok (trailing, leading, double + d')
    /\ t <= List.length (filter snd results).
Proof.
  induction 1 as [|p r payloads results Hc _ IH];
    intros trailing leading double.
  - exists 0, 0, 0, 0. simpl. rewrite !Nat.add_0_r. repeat split. lia.
  - apply clean_record_value in Hc as (ua & Hp & Hr & Hch).
    destruct r as [cleaned changed]. cbn [fst snd] in *.
    cbn [List.map Gpt.count_space_issues_loop fst]. rewrite Hp, Hr.
    destruct (strip_no_space_at_ends ua) as [-> ->].
    pose proof (strip_changes_trailing_space ua) as Hts.
    destruct (IH (if endswith_space ua then S trailing else trailing)
                 (if startswith_space ua then S leading else leading)
                 (if has_double_space ua then S double else double))
      as (t & l & d & _ & -> & _ & Hle).
    destruct (IH trailing leading
                 (if has_double_space (strip ua) then S double else double))
      as (_ & _ & _ & d' & _ & -> & _).
    exists ((if endswith_space ua then 1 else 0) + t),
           ((if startswith_space ua then 1 else 0) + l),
           ((if has_double_space ua then 1 else 0) + d),
           ((if has_double_space (strip ua) then 1 else 0) + d').
    repeat split.
    + f_equal. f_equal; [f_equal|].
      * destruct (endswith_space ua); lia.
      * destruct (startswith_space ua); lia.
      * destruct (has_double_space ua); lia.
    + f_equal. f_equal. destruct (has_double_space (strip ua)); lia.
    + cbn [filter]. rewrite Hch.
      destruct (endswith_space ua).
      * rewrite Hts by reflexivity. simpl. lia.
      * destruct (negb _); simpl; lia.
Qed.

(** What [fix_file] read and wrote: the records of the source, what
    [_clean_record] returned for each, and the file read again. *)
Lemma fix_file_results
    (text target : str) (total fixed_count unchanged : nat) :
  Gpt.fix_file (Some text) = Ok (target, (total, fixed_count, unchanged)) ->
  exists payloads results,
    Gpt.load_jsonl (Some text) = Ok payloads
    /\ Forall2 (fun p r => Gpt._clean_record p = Ok r) payloads results
    /\ total = List.length results
    /\ fixed_count = List.length (filter snd results)
    /\ target
       = flat_map (fun l => l ++ [10%N])
           (List.map json_dumps (List.map (fun r => JDict (fst r)) results))
    /\ forallb wf_json (List.map (fun r => JDict (fst r)) results) = true
    /\ (no_unicode_linebreak target = true ->
        Gpt.load_jsonl (Some target)
        = Ok (List.map (fun r => JDict (fst r)) results)).
Proof.
  unfold Gpt.fix_file at 1. unfold Gpt.load_jsonl at 1.
  destruct (Gpt.fix_file_loop _ _ _ _) as [[records n]|] eqn:E; [|discriminate].
  pose proof E as E'.
  apply (@fix_file_loop_results _ _ _ _ []) in E
    as (payloads & results & Hl & Hall & -> & ->).
  apply fix_file_loop_stable_records in E' as (cleaned' & [= <-] & Hst).
  simpl app in *. unfold write_text.
  destruct (utf8_encodable _) eqn:Hu; [|discriminate].
  rewrite dump_lines_text in *.
  assert (List.map JDict (List.map fst results)
          = List.map (fun r => JDict (fst r)) results) as Hm by apply map_map.
  rewrite Hm in *. rewrite length_map.
  intros [= <- <- <- _].
  assert (forallb wf_json (List.map (fun r => JDict (fst r)) results) = true)
    as Hwf.
  { rewrite forallb_forall. intros v Hin.
    apply in_map_iff in Hin as (r & <- & Hin).
    rewrite Forall_forall in Hst. apply (Hst (fst r)). now apply in_map. }
  clear Hm.
  exists payloads, results.
  split; [exact Hl|]. split; [exact Hall|].
  split; [reflexivity|]. split; [reflexivity|].
  split; [reflexivity|]. split; [exact Hwf|].
  intros Hnl.
  assert (forallb no_linebreak
            (List.map json_dumps (List.map (fun r => JDict (fst r)) results))
          = true) as Hlines.
  { apply lines_no_unicode_linebreak in Hnl.
    rewrite forallb_forall in *. intros l Hin.
    apply printable_no_linebreak; [|now apply Hnl].
    apply in_map_iff in Hin as (v & <- & Hin).
    apply json_dumps_printable. now apply Hwf. }
  unfold Gpt.load_jsonl. rewrite (read_lines_written _ Hlines).
  apply (gpt_load_jsonl_loop_dumped _ Hwf 1 []).
Qed.

(** On the file [fix_file] wrote, when it holds none of U+0085, U+2028
    and U+2029, [count_space_issues] finds no trailing and no leading
    space, and [run] of the whitespace test returns [True] exactly when
    the source had a user agent ending with a space and no cleaned user
    agent holds two consecutive spaces. *)
Theorem whitespace_test_on_what_fix_file_wrote
    (text target : str) (total fixed_count unchanged : nat) :
  Gpt.fix_file (Some text) = Ok (target, (total, fixed_count, unchanged)) ->
  no_unicode_linebreak target = true ->
  exists trailing leading double double',
    bind (Gpt.load_jsonl (Some text)) Gpt.count_space_issues
    = Ok (trailing, leading, double)
    /\ bind (Gpt.load_jsonl (Some target)) Gpt.count_space_issues
       = Ok (0, 0, double')
    /\ Gpt.TestNoTrailingSpaces.run (Some target) (Some text)
       = Ok ((0 <? trailing) && (double' =? 0)).
Proof.
  intros Hfix Hnl.
  apply fix_file_results in Hfix
    as (payloads & results & Hl & Hall & _ & _ & _ & _ & Hload).
  specialize (Hload Hnl).
  destruct (count_space_issues_cleaned _ _ Hall 0 0 0)
    as (t & l & d & d' & Hp & Hr & _).
  exists t, l, d, d'. unfold Gpt.TestNoTrailingSpaces.run.
  rewrite Hl, Hload. cbn [bind]. unfold Gpt.count_space_issues.
  rewrite Hp, Hr. cbn [bind Nat.add]. repeat split.
  cbn [Nat.eqb filter]. f_equal.
  destruct (d' =? 0), (0 <? t); reflexivity.
Qed.

Lemma whitespace_test_on_what_fix_file_wrote_witness :
  exists trailing leading double double',
    bind (Gpt.load_jsonl
            (Some (J "{'useragent': 'Mozilla/5.0 Chrome ', 'version': 120}"
                   ++ [10; 10]%N ++ J "{'useragent': ' Safari/1.0'}")))
      Gpt.count_space_issues
    = Ok (trailing, leading, double)
    /\ bind (Gpt.load_jsonl
               (Some (J "{'useragent': 'Mozilla/5.0 Chrome', 'version': 120}"
                      ++ [10%N] ++ J "{'useragent': 'Safari/1.0'}" ++ [10%N])))
         Gpt.count_space_issues
       = Ok (0, 0, double')
    /\ Gpt.TestNoTrailingSpaces.run
         (Some (J "{'useragent': 'Mozilla/5.0 Chrome', 'version': 120}"
                ++ [10%N] ++ J "{'useragent': 'Safari/1.0'}" ++ [10%N]))
         (Some (J "{'useragent': 'Mozilla/5.0 Chrome ', 'version': 120}"
                ++ [10; 10]%N ++ J "{'useragent': ' Safari/1.0'}"))
       = Ok ((0 <? trailing) && (double' =? 0)).
Proof.
  apply (whitespace_test_on_what_fix_file_wrote
           (J "{'useragent': 'Mozilla/5.0 Chrome ', 'version': 120}"
            ++ [10; 10]%N ++ J "{'useragent': ' Safari/1.0'}")
           _ 2 2 0); vm_compute; reflexivity.
Defined.

Lemma load_records_loop_eq (lines : list str) :
  forall idx records,
    Gpt.TestFix.load_records_loop idx lines records
    = Gpt.load_jsonl_loop idx lines records.
Proof.
  induction lines as [|line rest IH]; intros idx records; [reflexivity|].
  cbn [Gpt.TestFix.load_records_loop Gpt.load_jsonl_loop].
  destruct (is_blank line); [apply IH|].
  destruct (json_loads line) as [v|e]; [apply IH|reflexivity].
Qed.

Lemma load_records_eq (path : option str) :
  Gpt.TestFix.load_records path = Gpt.load_jsonl path.
Proof. destruct path; [apply load_records_loop_eq|reflexivity]. Qed.

Lemma count_trailing_cleaned (payloads : list json)
    (results : list (dict * bool)) :
  Forall2 (fun p r => Gpt._clean_record p = Ok r) payloads results ->
  exists n,
    Gpt.TestFix.count_trailing payloads = Ok n
    /\ n <= List.length (filter snd results)
    /\ Gpt.TestFix.count_trailing (List.map (fun r => JDict (fst r)) results)
       = Ok 0.
Proof.
  induction 1 as [|p r payloads results Hc _ (n & Hp & Hle & Hr)].
  - exists 0. repeat split. simpl. lia.
  - apply clean_record_value in Hc as (ua & Hpu & Hru & Hch).
    destruct r as [cleaned changed]. cbn [fst snd] in *.
    cbn [List.map Gpt.TestFix.count_trailing fst]. rewrite Hpu, Hru, Hp, Hr.
    destruct (strip_no_space_at_ends ua) as [-> _].
    pose proof (strip_changes_trailing_space ua) as Hts.
    exists ((if endswith_space ua then 1 else 0) + n).
    repeat split. cbn [filter snd]. rewrite Hch.
    destruct (endswith_space ua).
    + rewrite Hts by reflexivity. simpl. lia.
    + destruct (negb _); simpl; lia.
Qed.

(** On the file [fix_file] wrote, when it holds none of U+0085, U+2028
    and U+2029, the quick verification exits with 0 exactly when the file
    holds 165 records and the source had a user agent ending with a
    space; [fix_file] has counted as fixed at least the records the
    verification counts in the source. *)
Theorem quick_verification_of_what_fix_file_wrote
    (text target : str) (total fixed_count unchanged : nat) :
  Gpt.fix_file (Some text) = Ok (target, (total, fixed_count, unchanged)) ->
  no_unicode_linebreak target = true ->
  exists orig_trailing,
    bind (Gpt.TestFix.load_records (Some text)) Gpt.TestFix.count_trailing
    = Ok orig_trailing
    /\ orig_trailing <= fixed_count
    /\ Gpt.TestFix.main (Some target) (Some text)
       = Ok (if (total =? 165) && (0 <? orig_trailing) then 0 else 1).
Proof.
  intros Hfix Hnl.
  apply fix_file_results in Hfix
    as (payloads & results & Hl & Hall & -> & -> & _ & _ & Hload).
  specialize (Hload Hnl).
  destruct (count_trailing_cleaned _ _ Hall) as (n & Hp & Hle & Hr).
  exists n. unfold Gpt.TestFix.main. rewrite load_records_eq, Hl.
  cbn [bind]. rewrite load_records_eq, Hload. cbn [bind].
  rewrite Hp, Hr. cbn [bind].
  split; [reflexivity|]. split; [exact Hle|].
  rewrite length_map, (Forall2_length Hall).
  cbn [forallb Nat.eqb]. rewrite Nat.eqb_refl, !andb_true_r. reflexivity.
Qed.

Lemma quick_verification_of_what_fix_file_wrote_witness :
  exists orig_trailing,
    bind (Gpt.TestFix.load_records
            (Some (J "{'useragent': 'Mozilla/5.0 Chrome ', 'version': 120}"
                   ++ [10; 10]%N ++ J "{'useragent': ' Safari/1.0'}")))
      Gpt.TestFix.count_trailing
    = Ok orig_trailing
    /\ orig_trailing <= 2
    /\ Gpt.TestFix.main
         (Some (J "{'useragent': 'Mozilla/5.0 Chrome', 'version': 120}"
                ++ [10%N] ++ J "{'useragent': 'Safari/1.0'}" ++ [10%N]))
         (Some (J "{'useragent': 'Mozilla/5.0 Chrome ', 'version': 120}"
                ++ [10; 10]%N ++ J "{'useragent': ' Safari/1.0'}"))
       = Ok (if (2 =? 165) && (0 <? orig_trailing) then 0 else 1).
Proof.
  apply (quick_verification_of_what_fix_file_wrote
           (J "{'useragent': 'Mozilla/5.0 Chrome ', 'version': 120}"
            ++ [10; 10]%N ++ J "{'useragent': ' Safari/1.0'}")
           _ 2 2 0); vm_compute; reflexivity.
Defined.

Lemma existsb_app_l (A : Type) (p : A -> bool) (l l' : list A) :
  existsb p l = true -> existsb p (l ++ l') = true.
Proof. intros H. rewrite existsb_app, H. reflexivity. Qed.

(** [_clean_record] loses no required field: a record that passes
    [required_fields_present] passes it when cleaned, and with the same
    answer when it had a [useragent]. *)
Theorem clean_record_keeps_required_fields
    (record d : dict) (changed : bool) :
  Gpt._clean_record (JDict record) = Ok (d, changed) ->
  exists b b',
    Gpt.required_fields_present (JDict record) = Ok b
    /\ Gpt.required_fields_present (JDict d) = Ok b'
    /\ (b = true -> b' = true)
    /\ (dict_get record useragent <> None -> b' = b).
Proof.
  intros H. apply clean_record_inv in H as (d0 & ua & [= <-] & Hua & -> & _).
  eexists. eexists. split; [reflexivity|]. split; [reflexivity|].
  destruct (dict_get record useragent) as [v|] eqn:E.
  - rewrite keys_dict_set_present by congruence. split; [trivial|reflexivity].
  - rewrite dict_set_absent by assumption. split; [|congruence].
    apply forallb_impl. intros k Hk. unfold keys. rewrite map_app.
    now apply existsb_app_l.
Qed.

Lemma clean_record_keeps_required_fields_witness :
  exists b b',
    Gpt.required_fields_present
      (JDict [(u "browser", JStr (u "chrome")); (u "version", JInt 120);
              (u "os", JStr (u "linux")); (u "type", JStr (u "pc"));
              (u "system", JStr (u "Chrome 120 Linux"));
              (u "percent", JInt 1)])
    = Ok b
    /\ Gpt.required_fields_present
         (JDict [(u "browser", JStr (u "chrome")); (u "version", JInt 120);
                 (u "os", JStr (u "linux")); (u "type", JStr (u "pc"));
                 (u "system", JStr (u "Chrome 120 Linux"));
                 (u "percent", JInt 1); (useragent, JStr [])])
       = Ok b'
    /\ (b = true -> b' = true)
    /\ (dict_get
          [(u "browser", JStr (u "chrome")); (u "version", JInt 120);
           (u "os", JStr (u "linux")); (u "type", JStr (u "pc"));
           (u "system", JStr (u "Chrome 120 Linux"));
           (u "percent", JInt 1)] useragent <> None -> b' = b).
Proof.
  apply (clean_record_keeps_required_fields _ _ false). reflexivity.
Defined.

(** A user agent as [_clean_record] leaves it is never refused by
    [_fallback_validator] for surrounding spaces: the validator returns,
    or raises for a control character when the value holds one. *)
Theorem fallback_validator_on_cleaned_record
    (record : json) (d : dict) (changed : bool) :
  Gpt._clean_record record = Ok (d, changed) ->
  exists ua,
    dict_get d useragent = Some (JStr ua)
    /\ Gpt._fallback_validator ua
       = if existsb (fun ch => (ch <? 32)%N || (ch =? 127)%N) ua
         then Raise (ValueError ControlCharacter)
         else Ok tt.
Proof.
  intros H. apply clean_record_inv in H as (d0 & ua & -> & _ & -> & _).
  exists (strip ua). split; [now rewrite dict_get_set_same|].
  unfold Gpt._fallback_validator.
  destruct (strip_no_space_at_ends ua) as [-> ->]. reflexivity.
Qed.

Lemma fallback_validator_on_cleaned_record_witness :
  exists ua,
    dict_get
      [(useragent, JStr (u "Mozilla/5.0 Chrome")); (u "version", JInt 120)]
      useragent
    = Some (JStr ua)
    /\ Gpt._fallback_validator ua
       = if existsb (fun ch => (ch <? 32)%N || (ch =? 127)%N) ua
         then Raise (ValueError ControlCharacter)
         else Ok tt.
Proof.
  apply (fallback_validator_on_cleaned_record
           (JDict [(useragent, JStr (u " Mozilla/5.0 Chrome  "));
                   (u "version", JInt 120)]) _ true).
  reflexivity.
Defined.

(** ** Files read with [readlines] and stripped lines *)

Lemma strip_line_end (l : str) : strip (l ++ [10%N]) = strip l.
Proof. unfold strip. now rewrite rstrip_by_snoc. Qed.

Lemma strip_tight (c e : N) (m : str) :
  isspace c = false -> isspace e = false ->
  strip (c :: m ++ [e]) = c :: m ++ [e].
Proof.
  intros Hc He. unfold strip. rewrite rstrip_by_fix.
  - cbn [lstrip_by]. now rewrite Hc.
  - intros r x E. change (c :: m ++ [e]) with ((c :: m) ++ [e]) in E.
    apply app_inj_tail in E as [_ <-]. exact He.
Qed.

Lemma strip_dumped_dict (d : dict) :
  strip (json_dumps (JDict d)) = json_dumps (JDict d).
Proof. rewrite json_dumps_dict_text. now apply strip_tight. Qed.

Lemma dumped_dict_not_empty (d : dict) : json_dumps (JDict d) <> [].
Proof. rewrite json_dumps_dict_text. discriminate. Qed.

Lemma readlines_last (l : str) :
  forallb printable l = true -> l <> [] -> readlines l = [l].
Proof.
  induction l as [|c l IH]; intros H Hne; [congruence|].
  simpl in H. apply andb_true_iff in H as [Hc Hl]. apply N.leb_le in Hc.
  cbn [readlines]. destruct (N.eqb_spec c 10); [lia|].
  destruct l as [|d l]; [reflexivity|].
  rewrite IH by (assumption || discriminate).
  reflexivity.
Qed.

Lemma readlines_joined (lines : list str) :
  forallb (forallb printable) lines = true ->
  Forall (fun l => l <> []) lines ->
  List.map strip (readlines (join [10%N] lines)) = List.map strip lines.
Proof.
  induction lines as [|p lines IH]; intros H Hne; [reflexivity|].
  simpl in H. apply andb_true_iff in H as [Hp Hps].
  inversion Hne as [|? ? Hp' Hne']; subst.
  destruct lines as [|q lines].
  - cbn [join]. now rewrite readlines_last.
  - rewrite join_cons. cbn [app]. rewrite readlines_line by assumption.
    cbn [List.map]. rewrite strip_line_end. f_equal. now apply IH.
Qed.

Lemma joined_no_cr (lines : list str) :
  forallb (forallb printable) lines = true ->
  forallb (fun c => negb (c =? 13)%N) (join [10%N] lines) = true.
Proof.
  induction lines as [|p lines IH]; intros H; [reflexivity|].
  simpl in H. apply andb_true_iff in H as [Hp Hps].
  destruct lines as [|q lines].
  - cbn [join]. now apply printable_no_cr.
  - rewrite join_cons, !forallb_app, (printable_no_cr p Hp), IH by assumption.
    reflexivity.
Qed.

(** What the loops make of a file written with [\n] between its lines,
    and of one written with [\n] after each line. *)
Lemma stripped_lines_joined (lines : list str) :
  forallb (forallb printable) lines = true ->
  Forall (fun l => l <> []) lines ->
  List.map strip (readlines (universal_newlines (join [10%N] lines)))
  = List.map strip lines.
Proof.
  intros H Hne. rewrite universal_newlines_id by now apply joined_no_cr.
  now apply readlines_joined.
Qed.

Lemma stripped_lines_written (lines : list str) :
  forallb (forallb printable) lines = true ->
  List.map strip
    (readlines (universal_newlines (flat_map (fun l => l ++ [10%N]) lines)))
  = List.map strip lines.
Proof.
  intros H. rewrite iterate_lines_written, map_map by assumption.
  apply map_ext. intros l. apply strip_line_end.
Qed.

Lemma dumped_dicts (records : list dict) :
  Forall (fun d => wf_json (JDict d) = true) records ->
  forallb (forallb printable)
    (List.map (fun d => json_dumps (JDict d)) records) = true
  /\ Forall (fun l => l <> [])
       (List.map (fun d => json_dumps (JDict d)) records)
  /\ List.map strip (List.map (fun d => json_dumps (JDict d)) records)
     = List.map (fun d => json_dumps (JDict d)) records.
Proof.
  induction 1 as [|d records Hd _ (Hp & Hne & Hs)].
  - repeat split. constructor.
  - cbn [List.map forallb]. rewrite Hp, Hs, strip_dumped_dict.
    rewrite json_dumps_printable by assumption.
    repeat split. constructor; [apply dumped_dict_not_empty|assumption].
Qed.

Lemma record_with_wf (P : str -> Prop) (records : list dict) :
  Forall (record_with P) records ->
  Forall (fun d => wf_json (JDict d) = true) records.
Proof. apply Forall_impl. now intros d [H _]. Qed.

Lemma record_with_impl (P Q : str -> Prop) (records : list dict) :
  (forall ua, P ua -> Q ua) ->
  Forall (record_with P) records -> Forall (record_with Q) records.
Proof.
  intros H. apply Forall_impl. intros d (Hwf & ua & Hua & Hp).
  split; [assumption|]. exists ua. auto.
Qed.

(** Each loop looks at a line through [line.strip()] only. *)
Ltac by_stripped_lines loop :=
  let lines := fresh "lines" in
  let IH := fresh "IH" in
  intros lines; induction lines as [|? ? IH]; intros [|? ?] H; intros;
  try discriminate H; [reflexivity|];
  injection H as H ?; cbn [loop]; cbv zeta; rewrite H; try unfold bind;
  repeat match goal with
         | |- context [match ?x with _ => _ end] => destruct x
         end;
  try reflexivity; now apply IH.

Lemma opus_fix_stripped :
  forall lines lines', List.map strip lines = List.map strip lines' ->
  forall st fixed_lines,
    Opus.fix_browsers_json_loop lines st fixed_lines
    = Opus.fix_browsers_json_loop lines' st fixed_lines.
Proof. by_stripped_lines Opus.fix_browsers_json_loop. Qed.

Lemma opus_verify_stripped :
  forall lines lines', List.map strip lines = List.map strip lines' ->
  forall results,
    Opus.verify_fix_loop lines results = Opus.verify_fix_loop lines' results.
Proof. by_stripped_lines Opus.verify_fix_loop. Qed.

(** ** The Opus script: what it writes, checked and fixed again *)

Lemma is_blank_strip (line : str) :
  is_blank line = match strip line with [] => true | _ :: _ => false end.
Proof. reflexivity. Qed.

(** What the loop of [fix_browsers_json] returns: the lines are the
    records it found, every line that is not blank is counted once, as a
    record or as an error, and every record as fixed or as unchanged. *)
Lemma fix_browsers_json_loop_written (lines : list str) :
  forall st fixed_lines st' fixed_lines',
    Opus.fix_browsers_json_loop lines st fixed_lines = Ok (st', fixed_lines') ->
    exists records,
      fixed_lines'
      = fixed_lines ++ List.map (fun d => json_dumps (JDict d)) records
      /\ Forall (record_with (fun ua => endswith_space ua = false)) records
      /\ Opus.total_uas st' = Opus.total_uas st + List.length records
      /\ Opus.fixed_uas st' + Opus.unchanged_uas st'
         = Opus.fixed_uas st + Opus.unchanged_uas st + List.length records
      /\ Opus.total_uas st' + Opus.errors st'
         = Opus.total_uas st + Opus.errors st
           + List.length (nonblank lines).
Proof.
  unfold nonblank.
  induction lines as [|line rest IH]; intros st fl st' fl';
    cbn [Opus.fix_browsers_json_loop filter]; cbv zeta.
  - intros [= <- <-]. exists []. simpl. rewrite app_nil_r.
    repeat split; [constructor|lia..].
  - rewrite is_blank_strip.
    destruct (strip line) as [|c l] eqn:El; [apply IH|]. cbn [negb List.length].
    destruct (json_loads (c :: l)) as [[| | | | | |data]|[]] eqn:Ej;
      try discriminate.
    + apply json_loads_wf in Ej.
      destruct (dict_get_default data useragent (JStr [])) as [| | | |ua| |]
        eqn:Eu; try discriminate.
      destruct (endswith_space ua) eqn:Ee; intros H;
        apply IH in H as (records & -> & Hall & Htot & Hfu & Herr);
        cbn [Opus.total_uas Opus.fixed_uas Opus.unchanged_uas Opus.errors]
          in Htot, Hfu, Herr.
      * exists (dict_set data useragent (JStr (rstrip ua)) :: records).
        cbn [List.map List.length]. rewrite <- app_assoc.
        repeat split; [|lia..].
        constructor; [|assumption]. split; [now apply wf_dict_set|].
        exists (rstrip ua). unfold dict_get_default.
        rewrite dict_get_set_same.
        split; [reflexivity|apply rstrip_no_trailing_space].
      * exists (data :: records).
        cbn [List.map List.length]. rewrite <- app_assoc.
        repeat split; [|lia..].
        constructor; [|assumption]. split; [assumption|]. now exists ua.
    + intros H. apply IH in H as (records & -> & Hall & Htot & Hfu & Herr).
      cbn [Opus.total_uas Opus.fixed_uas Opus.unchanged_uas Opus.errors]
        in Htot, Hfu, Herr.
      exists records. repeat split; try assumption; lia.
Qed.

(** The statistics [fix_browsers_json] returns add up: every user
    agent is counted as fixed or as unchanged, and every line of the
    original file that is not blank as a user agent or as an error. *)
Theorem fix_browsers_json_statistics_add_up
    (text target : str) (st : Opus.stats) :
  Opus.fix_browsers_json (Some text) = Ok (st, target) ->
  Opus.total_uas st = Opus.fixed_uas st + Opus.unchanged_uas st
  /\ Opus.total_uas st + Opus.errors st
     = List.length (nonblank (readlines (universal_newlines text))).
Proof.
  unfold Opus.fix_browsers_json.
  destruct (Opus.fix_browsers_json_loop _ _ _) as [[st' fixed_lines]|] eqn:E;
    [|discriminate].
  destruct (write_text _); [|discriminate]. intros [= <- _].
  apply fix_browsers_json_loop_written in E
    as (records & _ & _ & Htot & Hfu & Herr).
  cbn [Opus.total_uas Opus.fixed_uas Opus.unchanged_uas Opus.errors]
    in Htot, Hfu, Herr.
  split; lia.
Qed.

Lemma fix_browsers_json_statistics_add_up_witness :
  Opus.total_uas (Opus.mkStats 2 1 1 1)
  = Opus.fixed_uas (Opus.mkStats 2 1 1 1)
    + Opus.unchanged_uas (Opus.mkStats 2 1 1 1)
  /\ Opus.total_uas (Opus.mkStats 2 1 1 1) + Opus.errors (Opus.mkStats 2 1 1 1)
     = List.length
         (nonblank
            (readlines
               (universal_newlines
                  (J "{'useragent': 'X '}" ++ [13; 10; 10]%N
                   ++ J "{'useragent': 'Y',}" ++ [10%N]
                   ++ J "{'useragent': 'Z'}")))).
Proof.
  apply (fix_browsers_json_statistics_add_up
           (J "{'useragent': 'X '}" ++ [13; 10; 10]%N
            ++ J "{'useragent': 'Y',}" ++ [10%N] ++ J "{'useragent': 'Z'}")
           (J "{'useragent': 'X'}" ++ [10%N] ++ J "{'useragent': 'Z'}")).
  vm_compute. reflexivity.
Defined.

(** The file [fix_browsers_json] wrote, as its loops see it. *)
Lemma fix_browsers_json_written (text target : str) (st : Opus.stats) :
  Opus.fix_browsers_json (Some text) = Ok (st, target) ->
  exists records,
    Forall (record_with (fun ua => endswith_space ua = false)) records
    /\ Opus.total_uas st = List.length records
    /\ target = join [10%N] (List.map (fun d => json_dumps (JDict d)) records)
    /\ utf8_encodable target = true
    /\ List.map strip (readlines (universal_newlines target))
       = List.map strip (List.map (fun d => json_dumps (JDict d)) records).
Proof.
  unfold Opus.fix_browsers_json.
  destruct (Opus.fix_browsers_json_loop _ _ _) as [[st' fixed_lines]|] eqn:E;
    [|discriminate].
  unfold write_text. destruct (utf8_encodable _) eqn:Hu; [|discriminate].
  intros [= <- <-].
  apply fix_browsers_json_loop_written in E
    as (records & -> & Hall & Htot & _ & _).
  cbn [app Opus.total_uas Nat.add] in *.
  exists records. repeat split; try assumption.
  destruct (dumped_dicts records (record_with_wf _ _ Hall)) as (Hp & Hne & Hs).
  now rewrite stripped_lines_joined.
Qed.

(** The loops on lines that are written records. *)
Lemma verify_fix_loop_written (records : list dict) :
  Forall (record_with (fun ua => endswith_space ua = false)) records ->
  forall results,
    Opus.verify_fix_loop
      (List.map (fun d => json_dumps (JDict d)) records) results
    = Ok (Opus.Results.mk
            (Opus.Results.total_uas results + List.length records)
            (Opus.Results.with_trailing_spaces results)
            (Opus.Results.without_trailing_spaces results
             + List.length records)
            (Opus.Results.valid_json results)).
Proof.
  induction 1 as [|d records (Hwf & ua & Hua & Hend) _ IH]; intros results.
  - simpl. rewrite !Nat.add_0_r. now destruct results.
  - cbn [List.map Opus.verify_fix_loop]. cbv zeta.
    rewrite strip_dumped_dict.
    destruct (json_dumps (JDict d)) as [|c l] eqn:Ed;
      [now apply dumped_dict_not_empty in Ed|].
    rewrite <- Ed, (json_loads_dumps _ Hwf). cbn [get_useragent].
    rewrite Hua, Hend, IH. cbn [Opus.Results.total_uas
      Opus.Results.with_trailing_spaces Opus.Results.without_trailing_spaces
      Opus.Results.valid_json List.length].
    f_equal. f_equal; lia.
Qed.

Lemma fix_browsers_json_loop_on_written (records : list dict) :
  Forall (record_with (fun ua => endswith_space ua = false)) records ->
  forall st fixed_lines,
    Opus.fix_browsers_json_loop
      (List.map (fun d => json_dumps (JDict d)) records) st fixed_lines
    = Ok (Opus.mkStats (Opus.total_uas st + List.length records)
            (Opus.fixed_uas st)
            (Opus.unchanged_uas st + List.length records) (Opus.errors st),
          fixed_lines ++ List.map (fun d => json_dumps (JDict d)) records).
Proof.
  induction 1 as [|d records (Hwf & ua & Hua & Hend) _ IH]; intros st fl.
  - simpl. rewrite !Nat.add_0_r, app_nil_r. now destruct st.
  - cbn [List.map Opus.fix_browsers_json_loop]. cbv zeta.
    rewrite strip_dumped_dict.
    destruct (json_dumps (JDict d)) as [|c l] eqn:Ed;
      [now apply dumped_dict_not_empty in Ed|].
    rewrite <- Ed, (json_loads_dumps _ Hwf), Hua, Hend, IH.
    cbn [Opus.total_uas Opus.fixed_uas Opus.unchanged_uas Opus.errors
         List.length].
    rewrite <- app_assoc. cbn [List.map app].
    do 2 f_equal. f_equal; lia.
Qed.

(** What [verify_fix] returns on the file [fix_browsers_json] wrote. *)
Lemma verify_fix_on_written_file
    (text target : str) (st : Opus.stats) :
  Opus.fix_browsers_json (Some text) = Ok (st, target) ->
  Opus.verify_fix (Some target)
  = Ok (Opus.Results.mk (Opus.total_uas st) 0 (Opus.total_uas st) true).
Proof.
  intros H. apply fix_browsers_json_written in H
    as (records & Hall & -> & _ & _ & Hlines).
  unfold Opus.verify_fix.
  rewrite (opus_verify_stripped _ _ Hlines).
  now rewrite verify_fix_loop_written.
Qed.

(** [verify_fix] finds in the file [fix_browsers_json] wrote every user
    agent the fix counted, none of them with a trailing space, and no
    invalid line. *)
Theorem verify_fix_passes_what_fix_browsers_json_wrote
    (text target : str) (st : Opus.stats) :
  Opus.fix_browsers_json (Some text) = Ok (st, target) ->
  Opus.verify_fix (Some target)
  = Ok (Opus.Results.mk (Opus.total_uas st) 0 (Opus.total_uas st) true).
Proof. apply verify_fix_on_written_file. Qed.

Lemma verify_fix_passes_what_fix_browsers_json_wrote_witness :
  Opus.verify_fix
    (Some (J "{'useragent': 'a" ++ [8232%N] ++ J "b'}" ++ [10%N]
           ++ J "{'version': 17}"))
  = Ok (Opus.Results.mk 2 0 2 true).
Proof.
  apply (verify_fix_passes_what_fix_browsers_json_wrote
           (J "{'useragent': 'a" ++ Inputs.escaped_line_separator ++ J "b '}"
            ++ [10%N] ++ J "{'useragent': 'Y',}" ++ [10%N]
            ++ J "{'version': 17}")
           _ (Opus.mkStats 2 1 1 1)).
  vm_compute. reflexivity.
Defined.

(** [fix_browsers_json] run on the file it wrote finds every user
    agent unchanged, counts no error and writes the same file. *)
Theorem fix_browsers_json_second_run
    (text target : str) (st : Opus.stats) :
  Opus.fix_browsers_json (Some text) = Ok (st, target) ->
  Opus.fix_browsers_json (Some target)
  = Ok (Opus.mkStats (Opus.total_uas st) 0 (Opus.total_uas st) 0, target).
Proof.
  intros H. apply fix_browsers_json_written in H
    as (records & Hall & -> & -> & Hu & Hlines).
  unfold Opus.fix_browsers_json.
  rewrite (opus_fix_stripped _ _ Hlines).
  rewrite fix_browsers_json_loop_on_written by assumption.
  cbn [app Opus.total_uas Opus.fixed_uas Opus.unchanged_uas Opus.errors
       Nat.add].
  unfold write_text. now rewrite Hu.
Qed.

Lemma fix_browsers_json_second_run_witness :
  Opus.fix_browsers_json
    (Some (J "{'useragent': 'a" ++ [8232%N] ++ J "b'}" ++ [10%N]
           ++ J "{'version': 17}"))
  = Ok (Opus.mkStats 2 0 2 0,
        J "{'useragent': 'a" ++ [8232%N] ++ J "b'}" ++ [10%N]
        ++ J "{'version': 17}").
Proof.
  apply (fix_browsers_json_second_run
           (J "{'useragent': 'a" ++ Inputs.escaped_line_separator ++ J "b '}"
            ++ [10%N] ++ J "{'useragent': 'Y',}" ++ [10%N]
            ++ J "{'version': 17}")
           _ (Opus.mkStats 2 1 1 1)).
  vm_compute. reflexivity.
Defined.

(** When [fix_browsers_json] succeeds on the original file, [main]
    takes the success branch of its final report, whose ratio divides by
    the number of user agents: [main] raises [ZeroDivisionError] when the
    original file held none, with the fixed file written, and returns
    otherwise. *)
Theorem opus_main_divides_by_the_number_of_user_agents
    (original_sibling original_relative fixed : option str)
    (text target : str) (st : Opus.stats) :
  match original_sibling with
  | Some _ => original_sibling
  | None => original_relative
  end = Some text ->
  Opus.fix_browsers_json (Some text) = Ok (st, target) ->
  Opus.main original_sibling original_relative fixed
  = (Some target,
     if Opus.total_uas st =? 0 then Raises ZeroDivisionError
     else Returns tt).
Proof.
  intros Ho Hfix. unfold Opus.main. rewrite Ho, Hfix.
  pose proof Hfix as Hv.
  apply verify_fix_on_written_file in Hv.
  rewrite Hv. cbn. now destruct (Opus.total_uas st =? 0).
Qed.

Lemma opus_main_divides_by_the_number_of_user_agents_witness :
  Opus.main None (Some (J "{'useragent': 'Y',}" ++ [10; 10]%N)) None
  = (Some [], Raises ZeroDivisionError).
Proof.
  apply (opus_main_divides_by_the_number_of_user_agents None _ None
           (J "{'useragent': 'Y',}" ++ [10; 10]%N) [] (Opus.mkStats 0 0 0 1));
    reflexivity.
Defined.

(** ** The quick verification of the Opus script *)

Lemma check_trailing_spaces_loop_counts (data : list json) :
  forall st st',
    Opus.TestFix.check_trailing_spaces_loop data st = Ok st' ->
    Opus.TestFix.total st' = Opus.TestFix.total st
    /\ Opus.TestFix.with_trailing st' + Opus.TestFix.without_trailing st'
       = Opus.TestFix.with_trailing st + Opus.TestFix.without_trailing st
         + List.length data
    /\ (List.length (Opus.TestFix.examples_with_trailing st)
        = Nat.min 3 (Opus.TestFix.with_trailing st) ->
        List.length (Opus.TestFix.examples_with_trailing st')
        = Nat.min 3 (Opus.TestFix.with_trailing st'))
    /\ (Forall (fun e => List.length e <= 63)
          (Opus.TestFix.examples_with_trailing st) ->
        Forall (fun e => List.length e <= 63)
          (Opus.TestFix.examples_with_trailing st')).
Proof.
  induction data as [|item rest IH]; intros st st';
    cbn [Opus.TestFix.check_trailing_spaces_loop].
  - intros [= <-]. cbn [List.length]. repeat split; auto; lia.
  - destruct (get_useragent item) as [[| | | |ua| |]|]; try discriminate.
    destruct (endswith_space ua); intros H;
      apply IH in H as (Ht & Hw & He & Hf);
      cbn [Opus.TestFix.total Opus.TestFix.with_trailing
           Opus.TestFix.without_trailing Opus.TestFix.examples_with_trailing
           List.length] in *.
    + split; [exact Ht|]. split; [lia|]. split.
      * intros Hl. apply He.
        destruct (Nat.ltb_spec
                    (List.length (Opus.TestFix.examples_with_trailing st)) 3);
          [rewrite length_app; cbn [List.length]|]; lia.
      * intros Hl. apply Hf.
        destruct (_ <? 3); [|exact Hl].
        apply Forall_app. split; [exact Hl|]. constructor; [|constructor].
        rewrite length_app. pose proof (firstn_le_length 60 ua).
        cbn [List.length u list_ascii_of_string List.map]. lia.
    + split; [exact Ht|]. split; [lia|]. split; assumption.
Qed.

(** The statistics of [check_trailing_spaces] add up: every item is
    counted with or without a trailing space, and the examples kept are
    those of the first items with one, three at most, each cut to 60
    characters before the dots. *)
Theorem check_trailing_spaces_statistics_add_up
    (data : list json) (st : Opus.TestFix.trailing_stats) :
  Opus.TestFix.check_trailing_spaces data = Ok st ->
  Opus.TestFix.total st = List.length data
  /\ Opus.TestFix.with_trailing st + Opus.TestFix.without_trailing st
     = Opus.TestFix.total st
  /\ List.length (Opus.TestFix.examples_with_trailing st)
     = Nat.min 3 (Opus.TestFix.with_trailing st)
  /\ Forall (fun e => List.length e <= 63)
       (Opus.TestFix.examples_with_trailing st).
Proof.
  intros H. apply check_trailing_spaces_loop_counts in H as (Ht & Hw & He & Hf).
  cbn [Opus.TestFix.total Opus.TestFix.with_trailing
       Opus.TestFix.without_trailing Opus.TestFix.examples_with_trailing] in *.
  split; [exact Ht|]. split; [lia|]. split; [now apply He|].
  apply Hf. constructor.
Qed.

Lemma check_trailing_spaces_statistics_add_up_witness :
  Opus.TestFix.total
    (Opus.TestFix.mkTrailing 2 1 1 [u "Mozilla/5.0 Chrome ..."])
  = List.length
      [JDict [(useragent, JStr (u "Mozilla/5.0 Chrome "))];
       JDict [(u "version", JInt 17)]]
  /\ Opus.TestFix.with_trailing
       (Opus.TestFix.mkTrailing 2 1 1 [u "Mozilla/5.0 Chrome ..."])
     + Opus.TestFix.without_trailing
         (Opus.TestFix.mkTrailing 2 1 1 [u "Mozilla/5.0 Chrome ..."])
     = Opus.TestFix.total
         (Opus.TestFix.mkTrailing 2 1 1 [u "Mozilla/5.0 Chrome ..."])
  /\ List.length
       (Opus.TestFix.examples_with_trailing
          (Opus.TestFix.mkTrailing 2 1 1 [u "Mozilla/5.0 Chrome ..."]))
     = Nat.min 3
         (Opus.TestFix.with_trailing
            (Opus.TestFix.mkTrailing 2 1 1 [u "Mozilla/5.0 Chrome ..."]))
  /\ Forall (fun e => List.length e <= 63)
       (Opus.TestFix.examples_with_trailing
          (Opus.TestFix.mkTrailing 2 1 1 [u "Mozilla/5.0 Chrome ..."])).
Proof.
  apply (check_trailing_spaces_statistics_add_up
           [JDict [(useragent, JStr (u "Mozilla/5.0 Chrome "))];
            JDict [(u "version", JInt 17)]]).
  reflexivity.
Defined.

Lemma opus_load_stripped :
  forall lines lines', List.map strip lines = List.map strip lines' ->
  forall data,
    Opus.TestFix.load_browsers_json_loop lines data
    = Opus.TestFix.load_browsers_json_loop lines' data.
Proof. by_stripped_lines Opus.TestFix.load_browsers_json_loop. Qed.

Lemma load_browsers_json_loop_written (records : list dict) :
  Forall (fun d => wf_json (JDict d) = true) records ->
  forall data,
    Opus.TestFix.load_browsers_json_loop
      (List.map (fun d => json_dumps (JDict d)) records) data
    = Ok (data ++ List.map JDict records).
Proof.
  induction 1 as [|d records Hwf _ IH]; intros data.
  - simpl. now rewrite app_nil_r.
  - cbn [List.map Opus.TestFix.load_browsers_json_loop]. cbv zeta.
    rewrite strip_dumped_dict.
    destruct (json_dumps (JDict d)) as [|c l] eqn:Ed;
      [now apply dumped_dict_not_empty in Ed|].
    rewrite <- Ed, (json_loads_dumps _ Hwf), IH.
    now rewrite <- app_assoc.
Qed.

Lemma check_trailing_spaces_loop_written (records : list dict) :
  Forall (record_with (fun ua => endswith_space ua = false)) records ->
  forall n w wo ex,
    Opus.TestFix.check_trailing_spaces_loop (List.map JDict records)
      (Opus.TestFix.mkTrailing n w wo ex)
    = Ok (Opus.TestFix.mkTrailing n w (wo + List.length records) ex).
Proof.
  induction 1 as [|d records (Hwf & ua & Hua & Hend) _ IH]; intros n w wo ex.
  - simpl. now rewrite Nat.add_0_r.
  - cbn [List.map Opus.TestFix.check_trailing_spaces_loop get_useragent].
    rewrite Hua, Hend.
    cbn [Opus.TestFix.total Opus.TestFix.with_trailing
         Opus.TestFix.without_trailing Opus.TestFix.examples_with_trailing].
    rewrite IH. cbn [List.length]. do 2 f_equal. lia.
Qed.

(** The quick verification loads from the file [fix_browsers_json]
    wrote every user agent the fix counted and finds none with a trailing
    space. *)
Theorem check_trailing_spaces_on_what_fix_browsers_json_wrote
    (text target : str) (st : Opus.stats) :
  Opus.fix_browsers_json (Some text) = Ok (st, target) ->
  bind (Opus.TestFix.load_browsers_json (Some target))
    Opus.TestFix.check_trailing_spaces
  = Ok (Opus.TestFix.mkTrailing (Opus.total_uas st) 0 (Opus.total_uas st) []).
Proof.
  intros H. apply fix_browsers_json_written in H
    as (records & Hall & -> & _ & _ & Hlines).
  unfold Opus.TestFix.load_browsers_json.
  rewrite (opus_load_stripped _ _ Hlines).
  rewrite load_browsers_json_loop_written
    by now apply (record_with_wf _ _ Hall).
  cbn [bind app]. unfold Opus.TestFix.check_trailing_spaces.
  rewrite check_trailing_spaces_loop_written by assumption.
  now rewrite length_map.
Qed.

Lemma check_trailing_spaces_on_what_fix_browsers_json_wrote_witness :
  bind (Opus.TestFix.load_browsers_json
          (Some (J "{'useragent': 'a" ++ [8232%N] ++ J "b'}" ++ [10%N]
                 ++ J "{'version': 17}")))
    Opus.TestFix.check_trailing_spaces
  = Ok (Opus.TestFix.mkTrailing 2 0 2 []).
Proof.
  apply (check_trailing_spaces_on_what_fix_browsers_json_wrote
           (J "{'useragent': 'a" ++ Inputs.escaped_line_separator ++ J "b '}"
            ++ [10%N] ++ J "{'useragent': 'Y',}" ++ [10%N]
            ++ J "{'version': 17}")
           _ (Opus.mkStats 2 1 1 1)).
  vm_compute. reflexivity.
Defined.

(** ** [SimpleTestRunner] *)

Lemma add_results_state (items : list (str * bool * option str)) :
  forall self,
    let runner :=
      fold_left
        (fun self r =>
           Opus.SimpleTestRunner.add_result self (fst (fst r)) (snd (fst r))
             (snd r))
        items self in
    Opus.SimpleTestRunner.results runner
    = Opus.SimpleTestRunner.results self ++ items
    /\ Opus.SimpleTestRunner.passed runner
       = Opus.SimpleTestRunner.passed self
         + List.length (filter (fun r => snd (fst r)) items)
    /\ Opus.SimpleTestRunner.failed runner
       = Opus.SimpleTestRunner.failed self
         + List.length (filter (fun r => negb (snd (fst r))) items).
Proof.
  induction items as [|[[item ok] details] items IH]; intros self.
  - cbn. rewrite app_nil_r. repeat split; lia.
  - cbn [fold_left fst snd filter].
    destruct (IH (Opus.SimpleTestRunner.add_result self item ok details))
      as (Hr & Hp & Hf).
    cbv zeta. rewrite Hr, Hp, Hf.
    cbn [Opus.SimpleTestRunner.add_result Opus.SimpleTestRunner.results
         Opus.SimpleTestRunner.passed Opus.SimpleTestRunner.failed].
    rewrite <- app_assoc. destruct ok; cbn [negb List.length app];
      repeat split; lia.
Qed.

Lemma filter_none (A : Type) (p : A -> bool) (l : list A) :
  List.length (filter (fun x => negb (p x)) l) = 0 <-> forallb p l = true.
Proof.
  induction l as [|x l IH]; [easy|]. cbn [filter forallb].
  destruct (p x); cbn [negb andb List.length]; [exact IH|easy].
Qed.

(** A runner that has recorded results with [add_result] holds them in
    order, with [passed + failed] their number; [run_report] returns
    whether all of them passed, and on a runner without any result it
    raises [ZeroDivisionError]. *)
Theorem run_report_after_add_result
    (test_name : str) (items : list (str * bool * option str)) :
  Opus.SimpleTestRunner.results (recorded test_name items) = items
  /\ Opus.SimpleTestRunner.passed (recorded test_name items)
     + Opus.SimpleTestRunner.failed (recorded test_name items)
     = List.length items
  /\ Opus.SimpleTestRunner.run_report (recorded test_name items)
     = match items with
       | [] => Raises ZeroDivisionError
       | _ :: _ => Returns (forallb (fun r => snd (fst r)) items)
       end.
Proof.
  unfold recorded.
  destruct (add_results_state items (Opus.SimpleTestRunner.__init__ test_name))
    as (Hr & Hp & Hf).
  cbv zeta in Hr, Hp, Hf. revert Hr Hp Hf.
  generalize (fold_left
                (fun self r =>
                   Opus.SimpleTestRunner.add_result self (fst (fst r))
                     (snd (fst r)) (snd r))
                items (Opus.SimpleTestRunner.__init__ test_name)).
  intros runner Hr Hp Hf.
  cbn [Opus.SimpleTestRunner.__init__ Opus.SimpleTestRunner.results
       Opus.SimpleTestRunner.passed Opus.SimpleTestRunner.failed app Nat.add]
    in Hr, Hp, Hf.
  assert (List.length
            (filter (fun r : str * bool * option str => snd (fst r)) items)
          + List.length (filter (fun r => negb (snd (fst r))) items)
          = List.length items) as Hlen.
  { clear. induction items as [|[[i ok] d] items IH]; [reflexivity|].
    cbn [filter fst snd]. destruct ok; cbn [negb List.length]; lia. }
  split; [exact Hr|]. split; [lia|].
  unfold Opus.SimpleTestRunner.run_report. rewrite Hp, Hf, Hlen.
  destruct items as [|r items]; [reflexivity|].
  cbn [List.length Nat.eqb]. f_equal.
  destruct (forallb _ (r :: items)) eqn:E.
  - apply filter_none in E. rewrite E. reflexivity.
  - apply Nat.eqb_neq. intros H0. apply filter_none in H0. congruence.
Qed.

(** ** The Sonnet script *)

Lemma rstrip_idem (s : str) : rstrip (rstrip s) = rstrip s.
Proof. apply rstrip_by_idem. Qed.

Lemma sonnet_fix_loop_written (lines : list str) :
  forall fixed_count fixed_data fixed_count' fixed_data',
    Sonnet.fix_browsers_json_loop lines fixed_count fixed_data
    = Ok (fixed_count', fixed_data') ->
    exists records,
      fixed_data' = fixed_data ++ records
      /\ Forall (record_with (fun ua => rstrip ua = ua)) records
      /\ fixed_count <= fixed_count'
      /\ fixed_count' <= fixed_count + List.length records
      /\ List.length records = List.length (nonblank lines).
Proof.
  unfold nonblank.
  induction lines as [|line rest IH]; intros n acc n' acc';
    cbn [Sonnet.fix_browsers_json_loop filter]; cbv zeta.
  - intros [= <- <-]. exists []. rewrite app_nil_r.
    repeat split; [constructor|simpl; lia..].
  - rewrite is_blank_strip.
    destruct (strip line) as [|c l] eqn:El; [apply IH|]. cbn [negb List.length].
    destruct (json_loads (c :: l)) as [[| | | | | |data]|] eqn:Ej;
      try discriminate.
    apply json_loads_wf in Ej.
    destruct (dict_get_default data useragent (JStr [])) as [| | | |ua| |]
      eqn:Eu; try discriminate.
    destruct (negb (str_eqb ua (rstrip ua))) eqn:Ec; intros H;
      apply IH in H as (records & -> & Hall & Hlo & Hhi & Hlen).
    + exists (dict_set data useragent (JStr (rstrip ua)) :: records).
      cbn [List.length]. rewrite <- app_assoc.
      repeat split; [|lia..].
      constructor; [|assumption]. split; [now apply wf_dict_set|].
      exists (rstrip ua). unfold dict_get_default.
      rewrite dict_get_set_same. split; [reflexivity|apply rstrip_idem].
    + exists (data :: records).
      cbn [List.length]. rewrite <- app_assoc.
      repeat split; [|lia..].
      constructor; [|assumption]. split; [assumption|].
      exists ua. split; [assumption|].
      apply negb_false_iff, str_eqb_eq in Ec. now symmetry.
Qed.

Lemma nonblank_le (lines : list str) :
  List.length (nonblank lines) <= List.length lines.
Proof. apply filter_length_le. Qed.

(** The [total] that the Sonnet [fix_browsers_json] returns is the
    number of lines of the input file, blank ones included, while one
    record is written for each line that is not blank: [unchanged] counts
    the blank lines with the records left as they were. *)
Theorem sonnet_total_counts_blank_lines
    (text target : str) (st : Sonnet.stats) :
  Sonnet.fix_browsers_json (Some text) = Ok (st, target) ->
  exists records blank,
    target = flat_map (fun d => json_dumps (JDict d) ++ [10%N]) records
    /\ List.length records
       = List.length (nonblank (readlines (universal_newlines text)))
    /\ Sonnet.total st = List.length records + blank
    /\ Sonnet.total st = List.length (readlines (universal_newlines text))
    /\ Sonnet.fixed st <= List.length records
    /\ Sonnet.unchanged st = (List.length records - Sonnet.fixed st) + blank.
Proof.
  unfold Sonnet.fix_browsers_json.
  destruct (Sonnet.fix_browsers_json_loop _ _ _) as [[n records]|] eqn:E;
    [|discriminate].
  unfold write_text. destruct (utf8_encodable _); [|discriminate].
  intros [= <- <-].
  apply sonnet_fix_loop_written in E as (records' & -> & _ & _ & Hhi & Hlen).
  cbn [app Nat.add] in *.
  pose proof (nonblank_le (readlines (universal_newlines text))).
  exists records',
    (List.length (readlines (universal_newlines text))
     - List.length (nonblank (readlines (universal_newlines text)))).
  cbn [Sonnet.total Sonnet.fixed Sonnet.unchanged].
  unfold dict, str in *. repeat split; try assumption; lia.
Qed.

Lemma sonnet_total_counts_blank_lines_witness :
  exists records blank,
    J "{'useragent': 'X'}" ++ [10%N] ++ J "{'useragent': 'Z'}" ++ [10%N]
    = flat_map (fun d => json_dumps (JDict d) ++ [10%N]) records
    /\ List.length records
       = List.length
           (nonblank
              (readlines
                 (universal_newlines
                    (J "{'useragent': 'X '}" ++ [10; 10; 10]%N
                     ++ J "{'useragent': 'Z'}"))))
    /\ Sonnet.total (Sonnet.mkStats 4 1 3) = List.length records + blank
    /\ Sonnet.total (Sonnet.mkStats 4 1 3)
       = List.length
           (readlines
              (universal_newlines
                 (J "{'useragent': 'X '}" ++ [10; 10; 10]%N
                  ++ J "{'useragent': 'Z'}")))
    /\ Sonnet.fixed (Sonnet.mkStats 4 1 3) <= List.length records
    /\ Sonnet.unchanged (Sonnet.mkStats 4 1 3)
       = (List.length records - Sonnet.fixed (Sonnet.mkStats 4 1 3)) + blank.
Proof.
  apply (sonnet_total_counts_blank_lines
           (J "{'useragent': 'X '}" ++ [10; 10; 10]%N ++ J "{'useragent': 'Z'}")
           _ (Sonnet.mkStats 4 1 3)).
  vm_compute. reflexivity.
Defined.

Lemma sonnet_fix_stripped :
  forall lines lines', List.map strip lines = List.map strip lines' ->
  forall fixed_count fixed_data,
    Sonnet.fix_browsers_json_loop lines fixed_count fixed_data
    = Sonnet.fix_browsers_json_loop lines' fixed_count fixed_data.
Proof. by_stripped_lines Sonnet.fix_browsers_json_loop. Qed.

Lemma sonnet_load_stripped :
  forall lines lines', List.map strip lines = List.map strip lines' ->
  forall uas,
    Sonnet.TestFix.load_uas lines uas = Sonnet.TestFix.load_uas lines' uas.
Proof. by_stripped_lines Sonnet.TestFix.load_uas. Qed.

(** The file the Sonnet [fix_browsers_json] wrote, as the loops see it. *)
Lemma sonnet_written (text target : str) (st : Sonnet.stats) :
  Sonnet.fix_browsers_json (Some text) = Ok (st, target) ->
  exists records,
    Forall (record_with (fun ua => rstrip ua = ua)) records
    /\ target = flat_map (fun d => json_dumps (JDict d) ++ [10%N]) records
    /\ utf8_encodable target = true
    /\ List.map strip (readlines (universal_newlines target))
       = List.map strip (List.map (fun d => json_dumps (JDict d)) records).
Proof.
  unfold Sonnet.fix_browsers_json.
  destruct (Sonnet.fix_browsers_json_loop _ _ _) as [[n records]|] eqn:E;
    [|discriminate].
  unfold write_text. destruct (utf8_encodable _) eqn:Hu; [|discriminate].
  intros H.
  assert (target
          = flat_map (fun data => json_dumps (JDict data) ++ [10%N]) records)
    as -> by congruence.
  clear H.
  apply sonnet_fix_loop_written in E as (records' & -> & Hall & _).
  change ([] ++ records') with records' in *.
  exists records'. repeat split; try assumption.
  destruct (dumped_dicts records' (record_with_wf _ _ Hall)) as (Hp & _ & _).
  assert (flat_map (fun d => json_dumps (JDict d) ++ [10%N]) records'
          = flat_map (fun l => l ++ [10%N])
              (List.map (fun d => json_dumps (JDict d)) records')) as ->
    by (symmetry; apply flat_map_map).
  now apply stripped_lines_written.
Qed.

Lemma sonnet_fix_loop_on_written (records : list dict) :
  Forall (record_with (fun ua => rstrip ua = ua)) records ->
  forall fixed_count fixed_data,
    Sonnet.fix_browsers_json_loop
      (List.map (fun d => json_dumps (JDict d)) records) fixed_count fixed_data
    = Ok (fixed_count, fixed_data ++ records).
Proof.
  induction 1 as [|d records (Hwf & ua & Hua & Hfix) _ IH]; intros n acc.
  - simpl. now rewrite app_nil_r.
  - cbn [List.map Sonnet.fix_browsers_json_loop]. cbv zeta.
    rewrite strip_dumped_dict.
    destruct (json_dumps (JDict d)) as [|c l] eqn:Ed;
      [now apply dumped_dict_not_empty in Ed|].
    rewrite <- Ed, (json_loads_dumps _ Hwf), Hua, Hfix, str_eqb_refl.
    cbn [negb]. rewrite IH. now rewrite <- app_assoc.
Qed.

(** The Sonnet [fix_browsers_json] run on the file it wrote fixes
    nothing and writes the same file. *)
Theorem sonnet_fix_browsers_json_second_run
    (text target : str) (st : Sonnet.stats) :
  Sonnet.fix_browsers_json (Some text) = Ok (st, target) ->
  exists total,
    Sonnet.fix_browsers_json (Some target)
    = Ok (Sonnet.mkStats total 0 total, target).
Proof.
  intros H. apply sonnet_written in H as (records & Hall & -> & Hu & Hlines).
  unfold Sonnet.fix_browsers_json.
  rewrite (sonnet_fix_stripped _ _ Hlines).
  rewrite sonnet_fix_loop_on_written by assumption.
  cbn [app]. unfold write_text. rewrite Hu.
  eexists. now rewrite Nat.sub_0_r.
Qed.

Lemma sonnet_fix_browsers_json_second_run_witness :
  exists total,
    Sonnet.fix_browsers_json
      (Some (J "{'useragent': 'a" ++ [8232%N] ++ J "b'}" ++ [10%N]
             ++ J "{'version': 17}" ++ [10%N]))
    = Ok (Sonnet.mkStats total 0 total,
          J "{'useragent': 'a" ++ [8232%N] ++ J "b'}" ++ [10%N]
          ++ J "{'version': 17}" ++ [10%N]).
Proof.
  apply (sonnet_fix_browsers_json_second_run
           (J "{'useragent': 'a" ++ Inputs.escaped_line_separator ++ J "b '}"
            ++ [10; 10]%N ++ J "{'version': 17}")
           _ (Sonnet.mkStats 3 1 2)).
  vm_compute. reflexivity.
Defined.

Lemma load_uas_written (P : str -> Prop) (records : list dict) :
  Forall (record_with P) records ->
  forall uas,
  exists strs,
    Sonnet.TestFix.load_uas
      (List.map (fun d => json_dumps (JDict d)) records) uas
    = Ok (uas ++ List.map JStr strs)
    /\ Forall P strs.
Proof.
  induction 1 as [|d records (Hwf & ua & Hua & Hp) _ IH]; intros uas.
  - exists []. simpl. rewrite app_nil_r. split; [reflexivity|constructor].
  - cbn [List.map Sonnet.TestFix.load_uas]. cbv zeta.
    rewrite strip_dumped_dict.
    destruct (json_dumps (JDict d)) as [|c l] eqn:Ed;
      [now apply dumped_dict_not_empty in Ed|].
    rewrite <- Ed, (json_loads_dumps _ Hwf). cbn [bind get_useragent].
    rewrite Hua. destruct (IH (uas ++ [JStr ua])) as (strs & -> & Hs).
    exists (ua :: strs). rewrite <- app_assoc.
    split; [reflexivity|now constructor].
Qed.

Lemma count_with_trailing_clean (strs : list str) :
  Forall (fun ua => rstrip ua = ua) strs ->
  Sonnet.TestFix.count_with_trailing (List.map JStr strs) = Ok 0.
Proof.
  induction 1 as [|ua strs Hua _ IH]; [reflexivity|].
  cbn [List.map Sonnet.TestFix.count_with_trailing]. rewrite IH.
  cbn [bind]. now rewrite Hua, str_eqb_refl.
Qed.

Lemma count_with_trailing_strings (strs : list str) :
  exists n, Sonnet.TestFix.count_with_trailing (List.map JStr strs) = Ok n.
Proof.
  induction strs as [|ua strs (n & IH)]; [now exists 0|].
  cbn [List.map Sonnet.TestFix.count_with_trailing]. rewrite IH.
  cbn [bind]. eauto.
Qed.

(** The user agents of the lines the fix loop accepted are strings. *)
Lemma load_uas_fixed (lines : list str) :
  forall fixed_count fixed_data fixed_count' fixed_data' uas,
    Sonnet.fix_browsers_json_loop lines fixed_count fixed_data
    = Ok (fixed_count', fixed_data') ->
    exists strs,
      Sonnet.TestFix.load_uas lines uas = Ok (uas ++ List.map JStr strs).
Proof.
  induction lines as [|line rest IH]; intros n acc n' acc' uas;
    cbn [Sonnet.fix_browsers_json_loop Sonnet.TestFix.load_uas]; cbv zeta.
  - intros _. exists []. simpl. now rewrite app_nil_r.
  - destruct (strip line) as [|c l] eqn:El; [apply IH|].
    destruct (json_loads (c :: l)) as [[| | | | | |data]|] eqn:Ej;
      try discriminate.
    cbn [bind get_useragent].
    destruct (dict_get_default data useragent (JStr [])) as [| | | |ua| |]
      eqn:Eu; try discriminate.
    destruct (negb (str_eqb ua (rstrip ua))); intros H;
      apply (IH _ _ _ _ (uas ++ [JStr ua])) in H as (strs & ->);
      exists (ua :: strs); now rewrite <- app_assoc.
Qed.

(** [verify_fix] of the Sonnet quick verification returns 0 on the file
    its [fix_browsers_json] wrote, with the original file at hand or
    without it. *)
Theorem sonnet_verify_fix_passes_what_was_written
    (text target : str) (st : Sonnet.stats) :
  Sonnet.fix_browsers_json (Some text) = Ok (st, target) ->
  Sonnet.TestFix.verify_fix (Some target) (Some text) = Ok 0
  /\ Sonnet.TestFix.verify_fix (Some target) None = Ok 0.
Proof.
  intros H. pose proof H as Hw.
  apply sonnet_written in Hw as (records & Hall & _ & _ & Hlines).
  unfold Sonnet.fix_browsers_json in H.
  destruct (Sonnet.fix_browsers_json_loop _ _ _) as [[n fixed_data]|] eqn:E;
    [|discriminate].
  apply (load_uas_fixed _ _ _ _ _ []) in E as (orig & Horig).
  destruct (count_with_trailing_strings orig) as (k & Hk).
  destruct (load_uas_written _ _ Hall []) as (strs & Hload & Hclean).
  unfold Sonnet.TestFix.verify_fix.
  rewrite (sonnet_load_stripped _ _ Hlines), Hload.
  cbn [bind app]. rewrite (count_with_trailing_clean _ Hclean).
  cbn [bind]. rewrite Horig. cbn [bind app]. rewrite Hk. split; reflexivity.
Qed.

Lemma sonnet_verify_fix_passes_what_was_written_witness :
  Sonnet.TestFix.verify_fix
    (Some (J "{'useragent': 'X'}" ++ [10%N] ++ J "{'version': 17}" ++ [10%N]))
    (Some (J "{'useragent': 'X " ++ [92; 116]%N ++ J "'}" ++ [10; 10]%N
           ++ J "{'version': 17}"))
  = Ok 0
  /\ Sonnet.TestFix.verify_fix
       (Some (J "{'useragent': 'X'}" ++ [10%N] ++ J "{'version': 17}" ++ [10%N]))
       None
     = Ok 0.
Proof.
  apply (sonnet_verify_fix_passes_what_was_written _ _ (Sonnet.mkStats 3 1 2)).
  vm_compute. reflexivity.
Defined.

(** ** [test_issue_307.py] on the fixed files *)

Lemma issue307_stripped :
  forall lines lines', List.map strip lines = List.map strip lines' ->
  forall total_count trailing_space_count,
    Issue307.check_trailing_spaces_loop lines total_count trailing_space_count
    = Issue307.check_trailing_spaces_loop lines' total_count
        trailing_space_count.
Proof. by_stripped_lines Issue307.check_trailing_spaces_loop. Qed.

Lemma issue307_loop_written (records : list dict) :
  Forall (record_with (fun ua => endswith_space ua = false)) records ->
  forall total_count trailing_space_count,
    Issue307.check_trailing_spaces_loop
      (List.map (fun d => json_dumps (JDict d)) records)
      total_count trailing_space_count
    = Ok (total_count + List.length records, trailing_space_count).
Proof.
  induction 1 as [|d records (Hwf & ua & Hua & Hend) _ IH]; intros n t.
  - simpl. now rewrite Nat.add_0_r.
  - cbn [List.map Issue307.check_trailing_spaces_loop]. cbv zeta.
    rewrite strip_dumped_dict.
    destruct (json_dumps (JDict d)) as [|c l] eqn:Ed;
      [now apply dumped_dict_not_empty in Ed|].
    rewrite <- Ed, (json_loads_dumps _ Hwf). cbn [get_useragent].
    rewrite Hua, Hend, IH. cbn [List.length]. do 2 f_equal. lia.
Qed.

(** A file whose stripped lines are written records without a trailing
    space: [check_trailing_spaces] finds nothing, and divides by zero
    when there is no record. *)
Lemma issue307_on_written (target : str) (records : list dict) :
  Forall (record_with (fun ua => endswith_space ua = false)) records ->
  List.map strip (readlines (universal_newlines target))
  = List.map strip (List.map (fun d => json_dumps (JDict d)) records) ->
  Issue307.check_trailing_spaces (Some target)
  = match records with
    | [] => Raises ZeroDivisionError
    | _ :: _ => Returns false
    end.
Proof.
  intros Hall Hlines. unfold Issue307.check_trailing_spaces.
  rewrite (issue307_stripped _ _ Hlines), issue307_loop_written by assumption.
  now destruct records.
Qed.

Lemma strip_no_trailing_space (ua : str) : endswith_space (strip ua) = false.
Proof. apply strip_no_space_at_ends. Qed.

Lemma rstrip_fixed_no_trailing_space (ua : str) :
  rstrip ua = ua -> endswith_space ua = false.
Proof. intros <-. apply rstrip_no_trailing_space. Qed.

Lemma gpt_results_written (payloads : list json)
    (results : list (dict * bool)) :
  forallb wf_json (List.map (fun r => JDict (fst r)) results) = true ->
  Forall2 (fun p r => Gpt._clean_record p = Ok r) payloads results ->
  Forall (record_with (fun ua => endswith_space ua = false))
    (List.map fst results).
Proof.
  intros Hwf Hall. induction Hall as [|p r payloads results Hc _ IH].
  - constructor.
  - cbn [List.map forallb] in *. apply andb_true_iff in Hwf as [Hr Hwf].
    constructor; [|now apply IH]. split; [assumption|].
    apply clean_record_value in Hc as (ua & _ & Hu & _).
    injection Hu as Hu. exists (strip ua).
    split; [assumption|apply strip_no_trailing_space].
Qed.

(** On the file each of the three fix scripts that write one wrote,
    [check_trailing_spaces] of the reproduction script finds no user agent
    with a trailing space and returns [False]; on an empty file it raises
    [ZeroDivisionError]. *)
Theorem reproduction_finds_nothing_in_fixed_files (target : str) :
  (exists text counts, Gpt.fix_file (Some text) = Ok (target, counts))
  \/ (exists text st, Opus.fix_browsers_json (Some text) = Ok (st, target))
  \/ (exists text st, Sonnet.fix_browsers_json (Some text) = Ok (st, target)) ->
  Issue307.check_trailing_spaces (Some target)
  = match target with
    | [] => Raises ZeroDivisionError
    | _ :: _ => Returns false
    end.
Proof.
  intros [(text & [[total fixed_count] unchanged] & H)
         |[(text & st & H)|(text & st & H)]].
  - apply fix_file_results in H
      as (payloads & results & _ & Hall & _ & _ & -> & Hwf & _).
    pose proof (gpt_results_written _ _ Hwf Hall) as Hrec.
    assert (List.map json_dumps (List.map (fun r => JDict (fst r)) results)
            = List.map (fun d => json_dumps (JDict d)) (List.map fst results))
      as -> by (now rewrite !map_map).
    clear Hwf Hall. revert Hrec. generalize (List.map fst results).
    intros records Hrec.
    rewrite (issue307_on_written _ records Hrec).
    + destruct records as [|d l]; [reflexivity|]. cbn [List.map flat_map].
      destruct (json_dumps (JDict d)) eqn:Ed; [|reflexivity].
      now apply dumped_dict_not_empty in Ed.
    + apply stripped_lines_written.
      apply (dumped_dicts _ (record_with_wf _ _ Hrec)).
  - apply fix_browsers_json_written in H
      as (records & Hall & _ & -> & _ & Hlines).
    rewrite (issue307_on_written _ records Hall Hlines).
    destruct records as [|d [|d' l]]; [reflexivity| |]; cbn [List.map join].
    + destruct (json_dumps (JDict d)) eqn:Ed; [|reflexivity].
      now apply dumped_dict_not_empty in Ed.
    + destruct (json_dumps (JDict d)) eqn:Ed; [|reflexivity].
      now apply dumped_dict_not_empty in Ed.
  - apply sonnet_written in H as (records & Hall & -> & _ & Hlines).
    apply (record_with_impl _ (fun ua => endswith_space ua = false))
      in Hall; [|apply rstrip_fixed_no_trailing_space].
    rewrite (issue307_on_written _ records Hall Hlines).
    destruct records as [|d l]; [reflexivity|]. cbn [flat_map].
    destruct (json_dumps (JDict d)) eqn:Ed; [|reflexivity].
    now apply dumped_dict_not_empty in Ed.
Qed.

Lemma reproduction_finds_nothing_in_fixed_files_witness :
  Issue307.check_trailing_spaces
    (Some (J "{'useragent': 'a" ++ [8232%N] ++ J "b'}" ++ [10%N]))
  = Returns false.
Proof.
  apply (reproduction_finds_nothing_in_fixed_files
           (J "{'useragent': 'a" ++ [8232%N] ++ J "b'}" ++ [10%N])).
  left. exists Inputs.source_with_separator, (1, 1, 0).
  vm_compute. reflexivity.
Defined.

(** ** A line that is not valid JSON, in the other loops *)

Lemma sonnet_fix_loop_app (pre : list str) :
  forall rest fixed_count fixed_data,
    Sonnet.fix_browsers_json_loop (pre ++ rest) fixed_count fixed_data
    = match Sonnet.fix_browsers_json_loop pre fixed_count fixed_data with
      | Ok (n, data) => Sonnet.fix_browsers_json_loop rest n data
      | Raise e => Raise e
      end.
Proof.
  induction pre as [|line pre IH]; intros rest n acc; [reflexivity|].
  cbn [app Sonnet.fix_browsers_json_loop]. cbv zeta.
  destruct (strip line) as [|c l]; [apply IH|].
  destruct (json_loads (c :: l)) as [[| | | | | |data]|]; try reflexivity.
  destruct (dict_get_default data useragent (JStr [])) as [| | | |ua| |];
    try reflexivity.
  destruct (negb _); apply IH.
Qed.

(** The Sonnet [fix_browsers_json] does not catch the decoder's
    exception: when the lines before it pass, a line that is not blank and
    not valid JSON stops the run with the [JSONDecodeError] itself, which
    carries no line number, and nothing is written. *)
Theorem sonnet_fix_stops_at_a_malformed_line
    (text : str) (pre : list str) (bad : str) (post : list str)
    (exc : decode_msg) (fixed_count : nat) (fixed_data : list dict) :
  readlines (universal_newlines text) = pre ++ bad :: post ->
  Sonnet.fix_browsers_json_loop pre 0 [] = Ok (fixed_count, fixed_data) ->
  strip bad <> [] ->
  json_loads (strip bad) = Raise (JSONDecodeError exc) ->
  Sonnet.fix_browsers_json (Some text) = Raise (JSONDecodeError exc).
Proof.
  intros Hl Hpre Hne Hj. unfold Sonnet.fix_browsers_json.
  rewrite Hl, sonnet_fix_loop_app, Hpre.
  cbn [Sonnet.fix_browsers_json_loop]. cbv zeta.
  destruct (strip bad) as [|c l]; [congruence|]. now rewrite Hj.
Qed.

Lemma sonnet_fix_stops_at_a_malformed_line_witness :
  Sonnet.fix_browsers_json
    (Some (J "{'useragent': 'Safari/1.0 '}" ++ [10; 10]%N
           ++ J "{'useragent': 'X',}" ++ [10%N] ++ J "{}"))
  = Raise (JSONDecodeError ExpectingPropertyName).
Proof.
  apply (sonnet_fix_stops_at_a_malformed_line _
           [J "{'useragent': 'Safari/1.0 '}" ++ [10%N]; [10%N]]
           (J "{'useragent': 'X',}" ++ [10%N]) [J "{}"] _ 1
           [[(useragent, JStr (u "Safari/1.0"))]]).
  - vm_compute. reflexivity.
  - vm_compute. reflexivity.
  - vm_compute. discriminate.
  - vm_compute. reflexivity.
Defined.

Lemma tests_load_jsonl_loop_app (pre : list str) :
  forall rest idx data,
    Oswe.Tests.load_jsonl_loop idx (pre ++ rest) data
    = match Oswe.Tests.load_jsonl_loop idx pre data with
      | Returns data' =>
          Oswe.Tests.load_jsonl_loop (idx + List.length pre) rest data'
      | Raises e => Raises e
      end.
Proof.
  induction pre as [|line pre IH]; intros rest idx data.
  - cbn. now rewrite Nat.add_0_r.
  - cbn [app Oswe.Tests.load_jsonl_loop List.length]. cbv zeta.
    replace (idx + S (List.length pre)) with (S idx + List.length pre) by lia.
    destruct (is_blank _); [apply IH|].
    destruct (json_loads _) as [v|[]]; try reflexivity. apply IH.
Qed.

(** The loader of the oswe tests package stops at the first line that is
    not blank and not valid JSON, when the lines before it pass, with an
    [AssertionError] that carries the 1-based number of that line, blank
    lines counted, and the decoder's message. *)
Theorem tests_load_jsonl_stops_at_a_malformed_line
    (text : str) (pre : list str) (bad : str) (post : list str)
    (exc : decode_msg) (data : list json) :
  readlines (universal_newlines text) = pre ++ bad :: post ->
  Oswe.Tests.load_jsonl_loop 1 pre [] = Returns data ->
  is_blank (strip_chars [10%N] bad) = false ->
  json_loads (strip_chars [10%N] bad) = Raise (JSONDecodeError exc) ->
  Oswe.Tests.load_jsonl (Some text)
  = Raises (AssertionError (InvalidJSONAtLine (S (List.length pre)) exc)).
Proof.
  intros Hl Hpre Hb Hj. unfold Oswe.Tests.load_jsonl.
  rewrite Hl, tests_load_jsonl_loop_app, Hpre.
  cbn [Oswe.Tests.load_jsonl_loop]. cbv zeta. now rewrite Hb, Hj.
Qed.

Lemma tests_load_jsonl_stops_at_a_malformed_line_witness :
  Oswe.Tests.load_jsonl
    (Some (J "{'useragent': 'Safari/1.0 '}" ++ [10; 10]%N
           ++ J "{'useragent': 'X',}" ++ [10%N] ++ J "{}"))
  = Raises (AssertionError (InvalidJSONAtLine 3 ExpectingPropertyName)).
Proof.
  apply (tests_load_jsonl_stops_at_a_malformed_line _
           [J "{'useragent': 'Safari/1.0 '}" ++ [10%N]; [10%N]]
           (J "{'useragent': 'X',}" ++ [10%N]) [J "{}"] _
           [JDict [(useragent, JStr (u "Safari/1.0 "))]]);
    vm_compute; reflexivity.
Defined.

Lemma verify_fix_loop_invalid (lines : list str) :
  forall results,
    Opus.verify_fix_loop lines
      (Opus.Results.mk (Opus.Results.total_uas results)
         (Opus.Results.with_trailing_spaces results)
         (Opus.Results.without_trailing_spaces results) false)
    = match Opus.verify_fix_loop lines results with
      | Ok r =>
          Ok (Opus.Results.mk (Opus.Results.total_uas r)
                (Opus.Results.with_trailing_spaces r)
                (Opus.Results.without_trailing_spaces r) false)
      | Raise e => Raise e
      end.
Proof.
  induction lines as [|line rest IH]; intros results;
    cbn [Opus.verify_fix_loop]; cbv zeta; [reflexivity|].
  destruct (strip line) as [|c l]; [apply IH|].
  destruct (json_loads (c :: l)) as [data|[]]; try reflexivity.
  - destruct (get_useragent data) as [[| | | |ua| |]|]; try reflexivity.
    destruct (endswith_space ua).
    + exact (IH (Opus.Results.mk _ _ _ _)).
    + exact (IH (Opus.Results.mk _ _ _ _)).
  - cbn [Opus.Results.total_uas Opus.Results.with_trailing_spaces
         Opus.Results.without_trailing_spaces].
    rewrite IH. now destruct (Opus.verify_fix_loop rest results).
Qed.

(** [verify_fix] does not stop at a line that is not valid JSON: it goes
    on as if the line were not there, and returns [valid_json = False]
    with the counts of the other lines. *)
Theorem verify_fix_goes_on_after_a_malformed_line
    (pre : list str) (bad : str) (post : list str) (exc : decode_msg)
    (results : Opus.Results.t) :
  strip bad <> [] ->
  json_loads (strip bad) = Raise (JSONDecodeError exc) ->
  Opus.verify_fix_loop (pre ++ bad :: post) results
  = match Opus.verify_fix_loop (pre ++ post) results with
    | Ok r =>
        Ok (Opus.Results.mk (Opus.Results.total_uas r)
              (Opus.Results.with_trailing_spaces r)
              (Opus.Results.without_trailing_spaces r) false)
    | Raise e => Raise e
    end.
Proof.
  intros Hne Hj. revert results.
  induction pre as [|line pre IH]; intros results;
    cbn [app Opus.verify_fix_loop]; cbv zeta.
  - destruct (strip bad) as [|c l]; [congruence|]. rewrite Hj.
    apply verify_fix_loop_invalid.
  - destruct (strip line) as [|c l]; [apply IH|].
    destruct (json_loads (c :: l)) as [data|[]]; try reflexivity.
    + destruct (get_useragent data) as [[| | | |ua| |]|]; try reflexivity.
      destruct (endswith_space ua); apply IH.
    + apply IH.
Qed.

Lemma verify_fix_goes_on_after_a_malformed_line_witness :
  Opus.verify_fix_loop
    ([J "{'useragent': 'Safari/1.0 '}" ++ [10%N]]
     ++ (J "{'useragent': 'X',}" ++ [10%N]) :: [J "{}"])
    (Opus.Results.mk 0 0 0 true)
  = Ok (Opus.Results.mk 2 1 1 false).
Proof.
  rewrite (verify_fix_goes_on_after_a_malformed_line
             [J "{'useragent': 'Safari/1.0 '}" ++ [10%N]]
             (J "{'useragent': 'X',}" ++ [10%N]) [J "{}"]
             ExpectingPropertyName).
  - vm_compute. reflexivity.
  - vm_compute. discriminate.
  - vm_compute. reflexivity.
Defined.
